(** * CAS action caches, capturing output backend, plugin loading and
      dependency-scan format selection: a shallow embedding

    The development follows the C++ sources function by function:

    - [llvm/lib/CAS/ActionCaches.cpp]: [InMemoryActionCache] and
      [OnDiskActionCache] ([getImpl], [putImpl], [create]);
    - [CASOutputBackend.cpp]: [createFileImpl], [getCASProxy], [addObject],
      [addKindMap];
    - [llvm/lib/CAS/PluginCAS.cpp]: [PluginCASContext::create],
      [PluginObjectStore::parseID], [PluginActionCacheMap::getValueAsync];
    - [clang/tools/libclang/CDependencies.cpp]:
      [DependencyScannerServiceOptions::getFormat], the setters of the
      options and the two [create] entry points of the service,
      [lookupModuleOutput] and [OutputLookup], [getFullDependencies],
      [getFileDependencies] and its entry points [v3], [v4] and [v5];
    - [cc1_main.cpp]: the output kinds of [CompileJobCache], the backend that
      [tryReplayCachedResult] sets up, the outputs of
      [finishComputedResult] and the replay loop of [replayCachedResult];
    - [llvm/include/llvm/CAS/CASReference.h]: the handle kinds,
      [AnyObjectHandleImpl::is] and [AnyObjectHandle::getData];
    - [llvm/tools/llvm-cas-dump/MCCASPrinter.cpp]: the hex dump of
      [printMCObject].

    Mutable objects become explicit state: a member function that mutates
    [*this] returns the new object next to its result.  [llvm::Error] and
    [llvm::Expected<T>] become the inductive types [Error] and [Expected]. *)

From stdpp Require Import gmap strings list fin_maps.
From Stdlib Require Import Strings.Ascii Strings.Byte.

Open Scope string_scope.

(** ** Bytes as trie keys *)

#[global] Instance byte_eq_dec : EqDecision byte := Byte.byte_eq_dec.

#[global] Program Instance byte_countable : Countable byte :=
  inj_countable Byte.to_N Byte.of_N _.
Next Obligation. intros b. apply Byte.of_to_N. Qed.

(** [ArrayRef<uint8_t>]: a digest or an action key. *)
Abbreviation Hash := (list byte).

(** ** [llvm::Error] and [llvm::Expected] *)

Inductive error_code :=
| invalid_argument
| no_such_device_or_address
| inconvertibleErrorCode
| os_error (errno : N).

Inductive ErrorInfo :=
| StringError (EC : error_code) (Msg : string)
| FileError (FileName : string) (EC : error_code).

Inductive Error :=
| success
| failure (E : ErrorInfo).

Inductive Expected (A : Type) :=
| Ok (a : A)
| Err (E : ErrorInfo).
Arguments Ok {A} a.
Arguments Err {A} E.

Definition createStringError (EC : error_code) (Msg : string) : ErrorInfo :=
  StringError EC Msg.

Definition createFileError (F : string) (EC : error_code) : ErrorInfo :=
  FileError F EC.

(** ** [hashToString]: lower-case hexadecimal *)

Definition hexdigit (X : N) : ascii :=
  match X with
  | 0%N => "0" | 1%N => "1" | 2%N => "2" | 3%N => "3"
  | 4%N => "4" | 5%N => "5" | 6%N => "6" | 7%N => "7"
  | 8%N => "8" | 9%N => "9" | 10%N => "a" | 11%N => "b"
  | 12%N => "c" | 13%N => "d" | 14%N => "e" | _ => "f"
  end%char.

(** [toHex(Hash, /*LowerCase=*/true, Str)]: two digits per byte, high
    nibble first. *)
Fixpoint toHex (Input : list byte) : string :=
  match Input with
  | [] => EmptyString
  | C :: Rest =>
      String (hexdigit (N.shiftr (Byte.to_N C) 4))
        (String (hexdigit (N.land (Byte.to_N C) 15)) (toHex Rest))
  end.

Definition hashToString (H : Hash) : string := toHex H.

(** ** References, identifiers and the store as the caches see it *)

(** [ObjectRef]: a wrapper around a [uint64_t]; two references are equal
    when their internal references are. *)
Record ObjectRef := getFromInternalRef { getInternalRef : N }.

#[global] Instance ObjectRef_eq_dec : EqDecision ObjectRef.
Proof. solve_decision. Defined.

(** [CASID]: the digest of an object together with its printed form (the
    printing belongs to the context that issued the identifier). *)
Record CASID := { getHash : Hash; toString : string }.

(** The two member functions of [CASDB] that the action caches call. *)
Record CASDB := {
  getID : ObjectRef -> CASID;
  getReference : Hash -> option ObjectRef
}.

(** ** The hash-mapped tries *)

(** [CacheEntry<Size>]: the stored digest.  The constructor copies the
    digest into an array of [Size] bytes and [getValue] gives the array back;
    the digests of the paired store have [Size = sizeof(HashType)] bytes, so
    an entry holds its digest whole. *)
Record CacheEntry := mkCacheEntry { getValue : Hash }.

(** Modelled from the spec: [HashMappedTrie.h] and [OnDiskHashMappedTrie.h]
    are not among the sources.  The spec describes [find] as a read-only
    walk returning a pointer or none, and [insertLazy] as
    insert-or-return-existing, the constructor running only when the slot was
    empty.  A trie is therefore a finite map from keys to payloads. *)
Definition trie_find {D : Type} (Key : Hash) (T : gmap Hash D) : option D :=
  T !! Key.

Definition trie_insertLazy {D : Type} (Key : Hash) (OnConstruct : unit -> D)
    (T : gmap Hash D) : gmap Hash D * D :=
  match T !! Key with
  | Some Existing => (T, Existing)
  | None => let New := OnConstruct tt in (<[Key := New]> T, New)
  end.

(** [OnDiskHashMappedTrie]: the mapped table file, with the header fields
    given to [OnDiskHashMappedTrie::create]; the payloads are raw bytes. *)
Record OnDiskHashMappedTrie := {
  TriePath : string;
  TableName : string;
  NumKeyBits : N;
  DataSize : N;
  MaxFileSize : N;
  MinFileSize : N;
  Records : gmap Hash (list byte)
}.

Definition set_Records (T : OnDiskHashMappedTrie) (R : gmap Hash (list byte))
    : OnDiskHashMappedTrie :=
  {| TriePath := TriePath T; TableName := TableName T;
     NumKeyBits := NumKeyBits T; DataSize := DataSize T;
     MaxFileSize := MaxFileSize T; MinFileSize := MinFileSize T;
     Records := R |}.

(** ** ActionCaches.cpp *)

Definition createResultCachePoisonedError (Key : string) (CAS : CASDB)
    (Output : ObjectRef) (ExistingOutput : Hash) : ErrorInfo :=
  let OutID := toString (getID CAS Output) in
  let ExistingRef := getReference CAS ExistingOutput in
  let Existing :=
    match ExistingRef with
    | Some R => toString (getID CAS R)
    | None => hashToString ExistingOutput
    end in
  createStringError invalid_argument
    ("cache poisoned for '" +:+ Key +:+ "' (new='" +:+ OutID +:+
     "' vs. existing '" +:+ Existing +:+ "')").

Definition createResultCacheUnknownObjectError (Key : string) (H : string)
    : ErrorInfo :=
  createStringError no_such_device_or_address
    ("the result object for key '" +:+ Key +:+
     "' does not exist in CAS: '" +:+ H +:+ "'").

Module InMemoryActionCache.

Record t := {
  CAS : CASDB;
  Cache : gmap Hash CacheEntry
}.

(** [createInMemoryActionCache]. *)
Definition create (CAS : CASDB) : t := {| CAS := CAS; Cache := ∅ |}.

(** [getImpl] returns at its second [return]: the lookup in the store is
    handed back as it is, and the statements after it (the test for an
    unknown object and the error) are never reached. *)
Definition getImpl (C : t) (Key : Hash) : Expected (option ObjectRef) :=
  match trie_find Key (Cache C) with
  | None => Ok None
  | Some Result => Ok (getReference (CAS C) (getValue Result))
  end.

Definition putImpl (C : t) (Key : Hash) (Result : ObjectRef) : t * Error :=
  let Expected_ := mkCacheEntry (getHash (getID (CAS C) Result)) in
  let '(Cache', Observed) :=
    trie_insertLazy Key (fun _ => Expected_) (Cache C) in
  let C' := {| CAS := CAS C; Cache := Cache' |} in
  if decide (getValue Expected_ = getValue Observed) then (C', success)
  else (C', failure (createResultCachePoisonedError (hashToString Key)
                       (CAS C) Result (getValue Observed))).

End InMemoryActionCache.

Module OnDiskActionCache.

Record t := {
  CAS : CASDB;
  Path : string;
  Cache : OnDiskHashMappedTrie
}.

Definition getHashName : string := "BLAKE3".

Definition getActionCacheTableName : string :=
  "llvm.actioncache[" +:+ getHashName +:+ "->" +:+ getHashName +:+ "]".

Definition ActionCacheFile : string := "actions".
Definition FilePrefix : string := "v1.".

(** [sizeof(HashType)]: a BLAKE3 digest has 32 bytes; [DataT] is
    [CacheEntry<sizeof(HashType)>], an array of as many bytes. *)
Definition sizeof_HashType : N := 32.
Definition sizeof_DataT : N := sizeof_HashType.

Definition getImpl (C : t) (Key : Hash) : Expected (option ObjectRef) :=
  match trie_find Key (Records (Cache C)) with
  | None => Ok None
  | Some ActionP =>
      let Output := mkCacheEntry ActionP in
      match getReference (CAS C) (getValue Output) with
      | None =>
          Err (createResultCacheUnknownObjectError (hashToString Key)
                 (hashToString (getValue Output)))
      | Some Out => Ok (Some Out)
      end
  end.

Definition putImpl (C : t) (Key : Hash) (Result : ObjectRef) : t * Error :=
  let Expected_ := mkCacheEntry (getHash (getID (CAS C) Result)) in
  let '(Records', ActionP) :=
    trie_insertLazy Key (fun _ => getValue Expected_) (Records (Cache C)) in
  let Observed := mkCacheEntry ActionP in
  let C' := {| CAS := CAS C; Path := Path C;
               Cache := set_Records (Cache C) Records' |} in
  if decide (getValue Expected_ = getValue Observed) then (C', success)
  else (C', failure (createResultCachePoisonedError (hashToString Key)
                       (CAS C) Result (getValue Observed))).

(** What lies under [create] and is not among the sources: the status of
    [sys::fs::create_directories] ([None] for success) and the outcome of
    [OnDiskHashMappedTrie::create] for a path, a table name, the key width in
    bits, the payload size and the two file-size bounds. *)
Record Storage := {
  create_directories : string -> option error_code;
  OnDiskHashMappedTrie_create :
    string -> string -> N -> N -> N -> N -> Expected OnDiskHashMappedTrie
}.

(** Modelled from the spec: [sys::path::append] is not among the sources;
    the spec names the table files [<root>/v1.<table>], the component put
    under the root with a separator. *)
Definition path_append (Root Component : string) : string :=
  Root +:+ "/" +:+ Component.

Definition MB : N := 1024 * 1024.
Definition GB : N := 1024 * 1024 * 1024.

Definition create (FS : Storage) (CAS : CASDB) (AbsPath : string)
    : Expected t :=
  match create_directories FS AbsPath with
  | Some EC => Err (createFileError AbsPath EC)
  | None =>
      let CachePath := path_append AbsPath (FilePrefix +:+ ActionCacheFile) in
      match OnDiskHashMappedTrie_create FS CachePath getActionCacheTableName
              (sizeof_HashType * 8) sizeof_DataT GB MB with
      | Err E => Err E
      | Ok ActionCache =>
          Ok {| CAS := CAS; Path := AbsPath; Cache := ActionCache |}
      end
  end.

(** Modelled from the spec: a storage with no table files yet, on which
    [OnDiskHashMappedTrie::create] makes a new file whose header carries the
    table name, the key width and the payload size it was given. *)
Definition fresh_storage : Storage :=
  {| create_directories := fun _ => None;
     OnDiskHashMappedTrie_create := fun P Name KeyBits Size Max Min =>
       Ok {| TriePath := P; TableName := Name; NumKeyBits := KeyBits;
             DataSize := Size; MaxFileSize := Max; MinFileSize := Min;
             Records := ∅ |} |}.

End OnDiskActionCache.

(** ** CASOutputBackend.cpp *)

(** [ObjectProxy]: a loaded object, with its reference, its references to
    other objects and its data. *)
Record ObjectProxy := {
  getRef : ObjectRef;
  getReferences : list ObjectRef;
  getData : string
}.

(** The interface of [ObjectStore] that the output backend uses.  A store
    of type [S] is threaded through the calls: [createProxy] stores an
    object and loads it, and may fail; [load] reads an object back. *)
Class ObjectStore (S : Type) := {
  createProxy : list ObjectRef -> string -> S -> S * Expected ObjectProxy;
  load : S -> ObjectRef -> option ObjectProxy
}.

(** Modelled from the spec: the stores themselves are not among the
    sources.  Section 8 gives the round trip [load(store(refs, data)) =
    (refs, data)], and section 3 says that objects are immutable once stored
    and persist for the life of the store. *)
Class ObjectStoreLaws (S : Type) `{ObjectStore S} : Prop := {
  createProxy_round_trip : forall Refs Data (s s' : S) P,
    createProxy Refs Data s = (s', Ok P) ->
    getReferences P = Refs /\ getData P = Data /\ load s' (getRef P) = Some P;
  createProxy_permanent : forall Refs Data (s s' : S) R Ref P,
    createProxy Refs Data s = (s', R) ->
    load s Ref = Some P -> load s' Ref = Some P
}.

Record KindMap := { Kind : string; Path : string }.

Record PrivateImpl := {
  Refs : list ObjectRef;
  KindMaps : list KindMap
}.

(** The loop of [PrivateImpl::tryRemapPath] over [KindMaps]. *)
Fixpoint tryRemapPath_loop (Maps : list KindMap) (P : string) : string :=
  match Maps with
  | [] => P
  | Map :: Rest =>
      if decide (Path Map = P) then Kind Map else tryRemapPath_loop Rest P
  end.

Definition tryRemapPath (Impl : PrivateImpl) (P : string) : string :=
  tryRemapPath_loop (KindMaps Impl) P.

(** [CASOutputFile]: the path and the bytes written so far; its [OnKeep]
    closure refers to the backend, which [keep] therefore takes. *)
Record CASOutputFile := { FilePath : string; Bytes : string }.

Module CASOutputBackend.
Section Backend.
Context {S : Type} `{ObjectStore S}.

Record t := {
  CAS : S;
  Impl : option PrivateImpl
}.

(** [CASOutputBackend(ObjectStore &CAS)]. *)
Definition new (CAS : S) : t := {| CAS := CAS; Impl := None |}.

(** [if (!Impl) Impl = std::make_unique<PrivateImpl>();] *)
Definition ensureImpl (B : t) : PrivateImpl :=
  match Impl B with
  | Some Im => Im
  | None => {| Refs := []; KindMaps := [] |}
  end.

Definition createFileImpl (ResolvedPath : string) (B : t)
    : t * Expected CASOutputFile :=
  ({| CAS := CAS B; Impl := Some (ensureImpl B) |},
   Ok {| FilePath := ResolvedPath; Bytes := EmptyString |}).

(** Writing to [getOS()] appends to the buffer of the file. *)
Definition write (Data : string) (F : CASOutputFile) : CASOutputFile :=
  {| FilePath := FilePath F; Bytes := Bytes F +:+ Data |}.

(** The closure given to [CASOutputFile] by [createFileImpl].  It
    dereferences [Impl], which [createFileImpl] has made before any file
    exists and which nothing resets; the branch for a backend without
    [Impl] is therefore not reached from a file, and gives an error here. *)
Definition OnKeep (P Bytes : string) (B : t) : t * Error :=
  match Impl B with
  | None =>
      (B, failure (createStringError inconvertibleErrorCode "no PrivateImpl"))
  | Some Im =>
      let Name := tryRemapPath Im P in
      match createProxy [] Name (CAS B) with
      | (CAS1, Err E) => ({| CAS := CAS1; Impl := Some Im |}, failure E)
      | (CAS1, Ok NameBlob) =>
          match createProxy [] Bytes CAS1 with
          | (CAS2, Err E) => ({| CAS := CAS2; Impl := Some Im |}, failure E)
          | (CAS2, Ok BytesBlob) =>
              let Refs1 := (Refs Im ++ [getRef NameBlob])%list in
              let Refs2 := (Refs1 ++ [getRef BytesBlob])%list in
              ({| CAS := CAS2;
                  Impl := Some {| Refs := Refs2; KindMaps := KindMaps Im |} |},
               success)
          end
      end
  end.

(** [CASOutputFile::keep]. *)
Definition keep (F : CASOutputFile) (B : t) : t * Error :=
  OnKeep (FilePath F) (Bytes F) B.

(** [CASOutputFile::discard]. *)
Definition discard (F : CASOutputFile) (B : t) : t * Error := (B, success).

Definition getCASProxy (B : t) : t * Expected ObjectProxy :=
  match Impl B with
  | None =>
      let '(CAS1, R) := createProxy [] EmptyString (CAS B) in
      ({| CAS := CAS1; Impl := None |}, R)
  | Some Im =>
      let MovedRefs := Refs Im in
      let Im1 := {| Refs := []; KindMaps := KindMaps Im |} in
      let '(CAS1, R) := createProxy MovedRefs EmptyString (CAS B) in
      ({| CAS := CAS1; Impl := Some Im1 |}, R)
  end.

Definition addObject (Name : string) (Object : ObjectRef) (B : t)
    : t * Error :=
  let Im := ensureImpl B in
  let Name1 := tryRemapPath Im Name in
  match createProxy [] Name1 (CAS B) with
  | (CAS1, Err E) => ({| CAS := CAS1; Impl := Some Im |}, failure E)
  | (CAS1, Ok NameBlob) =>
      ({| CAS := CAS1;
          Impl := Some {| Refs := ((Refs Im ++ [getRef NameBlob])
                                   ++ [Object])%list;
                          KindMaps := KindMaps Im |} |},
       success)
  end.

Definition addKindMap (K P : string) (B : t) : t :=
  let Im := ensureImpl B in
  {| CAS := CAS B;
     Impl := Some {| Refs := Refs Im;
                     KindMaps := (KindMaps Im
                                  ++ [{| Kind := K; Path := P |}])%list |} |}.

(** The references accumulated so far and the kind maps registered so far;
    a backend without [Impl] has neither. *)
Definition accumulated (B : t) : list ObjectRef := Refs (ensureImpl B).
Definition registered (B : t) : list KindMap := KindMaps (ensureImpl B).

(** The calls that a client makes on the backend and on its files between
    two calls of [getCASProxy]: [createFile], and [keep] or [discard] on a
    file with the bytes it has by then. *)
Inductive Call :=
| CreateFile (ResolvedPath : string)
| Keep (F : CASOutputFile)
| Discard (F : CASOutputFile).

Definition call (C : Call) (B : t) : t * Error :=
  match C with
  | CreateFile ResolvedPath =>
      match createFileImpl ResolvedPath B with
      | (B1, Ok _) => (B1, success)
      | (B1, Err E) => (B1, failure E)
      end
  | Keep F => keep F B
  | Discard F => discard F B
  end.

(** A sequence of calls; it stops at the first error. *)
Fixpoint run (Calls : list Call) (B : t) : t * Error :=
  match Calls with
  | [] => (B, success)
  | C :: Rest =>
      match call C B with
      | (B1, success) => run Rest B1
      | (B1, failure E) => (B1, failure E)
      end
  end.

(** The kept files of a sequence of calls, in keep order. *)
Fixpoint kept (Calls : list Call) : list CASOutputFile :=
  match Calls with
  | [] => []
  | Keep F :: Rest => F :: kept Rest
  | _ :: Rest => kept Rest
  end.

End Backend.
Arguments t S : clear implicits.
End CASOutputBackend.

(** ** PluginCAS.cpp *)

Module PluginCASContext.

(** What [PluginAPI.h] and [PluginAPI_functions.def] provide, which are not
    among the sources: the function table, one (name, required) pair for each
    [CASPLUGINAPI_FUNCTION] line in its order, and the client version. *)
Record PluginAPI := {
  functions_def : list (string * bool);
  LLCAS_VERSION_MAJOR : N;
  LLCAS_VERSION_MINOR : N
}.

(** The options object that [create] fills before it opens the store. *)
Record llcas_cas_options := {
  client_version : option (N * N);
  ondisk_path : string;
  options : list (string * string)
}.

(** A loaded dynamic library: the address of a symbol ([None] for a null
    address), and what the plugin does in the entry points that [create]
    calls.  [cas_options_set_option] gives the error string when it reports
    an error; [cas_create] gives the error string when it returns null.
    [create] calls the entry points through the pointers that it resolved; a
    call through a pointer that stayed null has no defined behaviour, and the
    embedding takes the entry points as they are in the library. *)
Record DynamicLibrary := {
  getAddressOfSymbol : string -> option N;
  cas_options_set_option :
    llcas_cas_options -> string -> string -> string + llcas_cas_options;
  cas_create : llcas_cas_options -> string + N;
  cas_get_hash_schema_name : N -> string
}.

(** [sys::DynamicLibrary::getPermanentLibrary]: the library, or the error
    message of a library that is not valid. *)
Definition Loader := string -> string + DynamicLibrary.

(** [llcas_functions_t]: the resolved addresses by function name; a
    function that is absent from the map is a null pointer. *)
Definition llcas_functions_t := gmap string N.

Record t := {
  Functions : llcas_functions_t;
  c_cas : N;
  SchemaName : string
}.

Definition reportError (PluginPath Description : string) : ErrorInfo :=
  createStringError inconvertibleErrorCode
    ("error loading '" +:+ PluginPath +:+ "': " +:+ Description).

Definition errorAndDispose (c_err : string) : ErrorInfo :=
  createStringError inconvertibleErrorCode c_err.

(** The expansion of [CASPLUGINAPI_FUNCTION(name, required)] over the
    lines of [PluginAPI_functions.def]. *)
Fixpoint lookupFunctions (Lib : DynamicLibrary) (PluginPath : string)
    (Table : list (string * bool)) (Functions : llcas_functions_t)
    : Expected llcas_functions_t :=
  match Table with
  | [] => Ok Functions
  | (name, required) :: Rest =>
      match getAddressOfSymbol Lib ("llcas_" +:+ name) with
      | Some Addr =>
          lookupFunctions Lib PluginPath Rest (<[name := Addr]> Functions)
      | None =>
          if required
          then Err (reportError PluginPath
                      ("failed symbol 'llcas_" +:+ name +:+ "' lookup"))
          else lookupFunctions Lib PluginPath Rest Functions
      end
  end.

(** The loop over [PluginArgs]. *)
Fixpoint setOptions (Lib : DynamicLibrary) (c_opts : llcas_cas_options)
    (PluginArgs : list (string * string)) : Expected llcas_cas_options :=
  match PluginArgs with
  | [] => Ok c_opts
  | (Name, Value) :: Rest =>
      match cas_options_set_option Lib c_opts Name Value with
      | inl c_err => Err (errorAndDispose c_err)
      | inr c_opts1 => setOptions Lib c_opts1 Rest
      end
  end.

Definition create (API : PluginAPI) (getPermanentLibrary : Loader)
    (PluginPath OnDiskPath : string) (PluginArgs : list (string * string))
    : Expected t :=
  match getPermanentLibrary PluginPath with
  | inl ErrMsg => Err (reportError PluginPath ErrMsg)
  | inr Lib =>
      match lookupFunctions Lib PluginPath (functions_def API) ∅ with
      | Err E => Err E
      | Ok Functions =>
          let c_opts :=
            {| client_version :=
                 Some (LLCAS_VERSION_MAJOR API, LLCAS_VERSION_MINOR API);
               ondisk_path := OnDiskPath;
               options := [] |} in
          match setOptions Lib c_opts PluginArgs with
          | Err E => Err E
          | Ok c_opts1 =>
              match cas_create Lib c_opts1 with
              | inl c_err => Err (errorAndDispose c_err)
              | inr c_cas =>
                  Ok {| Functions := Functions; c_cas := c_cas;
                        SchemaName := cas_get_hash_schema_name Lib c_cas |}
              end
          end
      end
  end.

Record PluginObjectStore := { ObjectStore_Ctx : t }.
Record PluginActionCache := { ActionCache_Ctx : t }.

Definition createPluginCASDatabases (API : PluginAPI)
    (getPermanentLibrary : Loader) (PluginPath OnDiskPath : string)
    (PluginArgs : list (string * string))
    : Expected (PluginObjectStore * PluginActionCache) :=
  match create API getPermanentLibrary PluginPath OnDiskPath PluginArgs with
  | Err E => Err E
  | Ok Ctx => Ok ({| ObjectStore_Ctx := Ctx |}, {| ActionCache_Ctx := Ctx |})
  end.

End PluginCASContext.

(** ** CDependencies.cpp *)

Module DependencyScannerServiceOptions.

(** The formats that the sources name. *)
Inductive ScanningOutputFormat := Make | Full | FullTree | FullIncludeTree.

#[global] Instance ScanningOutputFormat_eq_dec :
  EqDecision ScanningOutputFormat.
Proof. solve_decision. Defined.

(** The process environment read by [llvm::sys::Process::GetEnv]. *)
Definition Environment := gmap string string.

Definition GetEnv (Env : Environment) (Name : string) : option string :=
  Env !! Name.

Section Options.
(** The pointees of the two [std::shared_ptr] members; a null pointer is
    [None]. *)
Context {ObjectStoreT ActionCacheT : Type}.

Record t := {
  ConfiguredFormat : ScanningOutputFormat;
  CAS : option ObjectStoreT;
  Cache : option ActionCacheT
}.

(** [new DependencyScannerServiceOptions]: the member initialisers. *)
Definition default : t :=
  {| ConfiguredFormat := Full; CAS := None; Cache := None |}.

Definition getFormat (Env : Environment) (Opts : t) : ScanningOutputFormat :=
  if decide (ConfiguredFormat Opts ≠ Full) then ConfiguredFormat Opts
  else if decide (CAS Opts = None ∨ Cache Opts = None)
  then ConfiguredFormat Opts
  else
    match GetEnv Env "CLANG_CACHE_USE_INCLUDE_TREE" with
    | Some _ => FullIncludeTree
    | None =>
        match GetEnv Env "CLANG_CACHE_USE_CASFS_DEPSCAN" with
        | Some _ => FullTree
        | None => ConfiguredFormat Opts
        end
    end.

End Options.
Arguments t : clear implicits.
End DependencyScannerServiceOptions.

(** ** The action cache behind its interface *)

(** [ActionCache] is the abstract class of the two backends.  Its header is
    not among the sources; [get] and [put] hand the bytes of the key to the
    [getImpl] and [putImpl] of the backend, as the [final] overriders show. *)
Module ActionCache.

Inductive t :=
| InMemory (C : InMemoryActionCache.t)
| OnDisk (C : OnDiskActionCache.t).

Definition getCAS (C : t) : CASDB :=
  match C with
  | InMemory M => InMemoryActionCache.CAS M
  | OnDisk D => OnDiskActionCache.CAS D
  end.

Definition get (C : t) (Key : Hash) : Expected (option ObjectRef) :=
  match C with
  | InMemory M => InMemoryActionCache.getImpl M Key
  | OnDisk D => OnDiskActionCache.getImpl D Key
  end.

Definition put (C : t) (Key : Hash) (Result : ObjectRef) : t * Error :=
  match C with
  | InMemory M =>
      let '(M1, E) := InMemoryActionCache.putImpl M Key Result in
      (InMemory M1, E)
  | OnDisk D =>
      let '(D1, E) := OnDiskActionCache.putImpl D Key Result in
      (OnDisk D1, E)
  end.

(** The digest stored for a key, read from the trie of the backend. *)
Definition entry (C : t) (Key : Hash) : option Hash :=
  match C with
  | InMemory M => getValue <$> trie_find Key (InMemoryActionCache.Cache M)
  | OnDisk D => trie_find Key (Records (OnDiskActionCache.Cache D))
  end.

(** The digest of an object of the paired store. *)
Definition digest (C : t) (V : ObjectRef) : Hash :=
  getHash (getID (getCAS C) V).

End ActionCache.

(** ** A store in memory *)

(** Modelled from the spec: the in-memory store is not among the sources.
    The table holds the stored objects, and a reference is the index of its
    object ("internally a 64-bit index into a backend-specific table").
    Storing looks the object up and appends it when it is new, so two stores
    of identical (refs, data) give the same reference and one copy. *)
Module InMemoryCAS.

Record t := { Objects : list (list ObjectRef * string) }.

Definition store (Refs : list ObjectRef) (Data : string) (s : t)
    : t * ObjectRef :=
  match list_find (fun O => O = (Refs, Data)) (Objects s) with
  | Some (i, _) => (s, getFromInternalRef (N.of_nat i))
  | None =>
      ({| Objects := (Objects s ++ [(Refs, Data)])%list |},
       getFromInternalRef (N.of_nat (length (Objects s))))
  end.

Definition loadObject (s : t) (Ref : ObjectRef) : option ObjectProxy :=
  match Objects s !! N.to_nat (getInternalRef Ref) with
  | Some (Refs, Data) =>
      Some {| getRef := Ref; getReferences := Refs; getData := Data |}
  | None => None
  end.

#[global] Instance object_store : ObjectStore t := {|
  createProxy Refs Data s :=
    let '(s1, Ref) := store Refs Data s in
    (s1, Ok {| getRef := Ref; getReferences := Refs; getData := Data |});
  load := loadObject
|}.

End InMemoryCAS.

(** ** Inputs for the examples *)

Module Examples.

Definition Ref1 : ObjectRef := getFromInternalRef 1.
Definition Ref2 : ObjectRef := getFromInternalRef 2.
Definition Digest1 : Hash := [x11; xaa].
Definition Digest2 : Hash := [x22; xbb].
Definition Key1 : Hash := [x01; xfe].

(** A store that knows two objects, [Ref1] with [Digest1] and [Ref2] with
    [Digest2]. *)
Definition CAS12 : CASDB := {|
  getID R :=
    if decide (R = Ref1)
    then {| getHash := Digest1; toString := "llvmcas://11aa" |}
    else {| getHash := Digest2; toString := "llvmcas://22bb" |};
  getReference H :=
    if decide (H = Digest1) then Some Ref1
    else if decide (H = Digest2) then Some Ref2
    else None
|}.

(** A store that knows no object with [Digest2]: the one above after it
    lost its second object. *)
Definition CAS1 : CASDB := {|
  getID := getID CAS12;
  getReference H := if decide (H = Digest1) then Some Ref1 else None
|}.

(** The caches that map [Key1] to [Digest2] over the store [CAS1]. *)
Definition DanglingInMemory : InMemoryActionCache.t := {|
  InMemoryActionCache.CAS := CAS1;
  InMemoryActionCache.Cache := {[ Key1 := mkCacheEntry Digest2 ]}
|}.

Definition DanglingOnDisk : OnDiskActionCache.t := {|
  OnDiskActionCache.CAS := CAS1;
  OnDiskActionCache.Path := "/cache";
  OnDiskActionCache.Cache := {|
    TriePath := "/cache/v1.actions";
    TableName := OnDiskActionCache.getActionCacheTableName;
    NumKeyBits := 256; DataSize := 32;
    MaxFileSize := OnDiskActionCache.GB;
    MinFileSize := OnDiskActionCache.MB;
    Records := {[ Key1 := Digest2 ]} |}
|}.

Definition EmptyOnDisk : OnDiskActionCache.t := {|
  OnDiskActionCache.CAS := CAS12;
  OnDiskActionCache.Path := "/cache";
  OnDiskActionCache.Cache := {|
    TriePath := "/cache/v1.actions";
    TableName := OnDiskActionCache.getActionCacheTableName;
    NumKeyBits := 256; DataSize := 32;
    MaxFileSize := OnDiskActionCache.GB;
    MinFileSize := OnDiskActionCache.MB;
    Records := ∅ |}
|}.

End Examples.

(** ** What the kept files leave in the store *)

(** The references of the kept files, as they lie in a store [s]: two
    references for each file in order, the first to an object whose data is
    the remapped path, the second to an object whose data is the bytes. *)
Inductive interleaved {S : Type} `{ObjectStore S} (s : S)
    (Maps : list KindMap) : list CASOutputFile -> list ObjectRef -> Prop :=
| interleaved_nil : interleaved s Maps [] []
| interleaved_cons F Files NameBlob BytesBlob Rest :
    load s (getRef NameBlob) = Some NameBlob ->
    getData NameBlob = tryRemapPath_loop Maps (FilePath F) ->
    load s (getRef BytesBlob) = Some BytesBlob ->
    getData BytesBlob = Bytes F ->
    interleaved s Maps Files Rest ->
    interleaved s Maps (F :: Files)
      (getRef NameBlob :: getRef BytesBlob :: Rest).

(** Objects that load in one store load in a later one. *)
Definition extends {S : Type} `{ObjectStore S} (s s1 : S) : Prop :=
  forall Ref P, load s Ref = Some P -> load s1 Ref = Some P.

(** ** Inputs for the examples of the other components *)

Module FormatExamples.
Import DependencyScannerServiceOptions.

Definition EnvIncludeTree : Environment :=
  {[ "CLANG_CACHE_USE_INCLUDE_TREE" := "1" ]}.

Definition EnvCASFS : Environment :=
  {[ "CLANG_CACHE_USE_CASFS_DEPSCAN" := "1" ]}.

(** Options with both databases set. *)
Definition WithDatabases : t unit unit :=
  {| ConfiguredFormat := Full; CAS := Some tt; Cache := Some tt |}.

(** Options after [setDependencyMode(CXDependencyMode_Flat)]. *)
Definition FlatWithDatabases : t unit unit :=
  {| ConfiguredFormat := Make; CAS := Some tt; Cache := Some tt |}.

End FormatExamples.

Module PluginExamples.
Import PluginCASContext.

(** A function table with two required functions and one optional one. *)
Definition API : PluginAPI := {|
  functions_def :=
    [("get_plugin_version", true); ("cas_create", true);
     ("cas_get_ondisk_size", false)];
  LLCAS_VERSION_MAJOR := 0;
  LLCAS_VERSION_MINOR := 1
|}.

(** A library that exports [llcas_get_plugin_version] only. *)
Definition Lib : DynamicLibrary := {|
  getAddressOfSymbol Name :=
    if decide (Name = "llcas_get_plugin_version") then Some 4096%N else None;
  cas_options_set_option Opts Name Value :=
    inr {| client_version := client_version Opts;
           ondisk_path := ondisk_path Opts;
           options := (options Opts ++ [(Name, Value)])%list |};
  cas_create Opts := inr 1%N;
  cas_get_hash_schema_name c_cas := "llvm.cas.builtin.v2[BLAKE3]"
|}.

Definition getPermanentLibrary : Loader := fun P => inr Lib.

End PluginExamples.

Module PluginMoreExamples.
Import PluginCASContext.

(** A library that exports the two required functions of
    [PluginExamples.API] and not the optional one. *)
Definition Lib : DynamicLibrary := {|
  getAddressOfSymbol Name :=
    if decide (Name = "llcas_get_plugin_version") then Some 4096%N
    else if decide (Name = "llcas_cas_create") then Some 4112%N
    else None;
  cas_options_set_option Opts Name Value :=
    if decide (Name = "readonly")
    then inl ("unknown option: " +:+ Name)
    else inr {| client_version := client_version Opts;
                ondisk_path := ondisk_path Opts;
                options := (options Opts ++ [(Name, Value)])%list |};
  cas_create Opts := inr 1%N;
  cas_get_hash_schema_name c_cas := "llvm.cas.builtin.v2[BLAKE3]"
|}.

Definition getPermanentLibrary : Loader := fun P => inr Lib.

Definition Ctx : t := {|
  Functions :=
    <["cas_create" := 4112%N]> (<["get_plugin_version" := 4096%N]> ∅);
  c_cas := 1%N;
  SchemaName := "llvm.cas.builtin.v2[BLAKE3]"
|}.

End PluginMoreExamples.

Module BackendExamples.

(** A backend over an empty store in memory, with the kind [<output>]
    registered for the path [/out/a.o]. *)
Definition Backend : CASOutputBackend.t InMemoryCAS.t :=
  CASOutputBackend.addKindMap "<output>" "/out/a.o"
    (CASOutputBackend.new {| InMemoryCAS.Objects := [] |}).

(** Three files as [createFileImpl] makes them, after their bytes were
    written. *)
Definition ObjectFile : CASOutputFile :=
  CASOutputBackend.write "OBJ"
    {| FilePath := "/out/a.o"; Bytes := EmptyString |}.

Definition DepFile : CASOutputFile :=
  CASOutputBackend.write "DEP"
    {| FilePath := "/out/a.d"; Bytes := EmptyString |}.

Definition TempFile : CASOutputFile :=
  CASOutputBackend.write "junk"
    {| FilePath := "/tmp/x"; Bytes := EmptyString |}.

(** The three files are created; the object file and the dependency file
    are kept in this order, the temporary file is discarded in between. *)
Definition Calls : list CASOutputBackend.Call :=
  [CASOutputBackend.CreateFile "/out/a.d";
   CASOutputBackend.CreateFile "/out/a.o";
   CASOutputBackend.Keep ObjectFile;
   CASOutputBackend.CreateFile "/tmp/x";
   CASOutputBackend.Discard TempFile;
   CASOutputBackend.Keep DepFile].

(** The backend after these calls, after the first [getCASProxy] and after
    the second one. *)
Definition Kept : CASOutputBackend.t InMemoryCAS.t :=
  fst (CASOutputBackend.run Calls Backend).

Definition Drained : CASOutputBackend.t InMemoryCAS.t :=
  fst (CASOutputBackend.getCASProxy Kept).

Definition DrainedAgain : CASOutputBackend.t InMemoryCAS.t :=
  fst (CASOutputBackend.getCASProxy Drained).

(** The object that the first [getCASProxy] returns, and the object
    without references that the second one returns. *)
Definition Outputs : ObjectProxy := {|
  getRef := getFromInternalRef 4;
  getReferences :=
    [getFromInternalRef 0; getFromInternalRef 1;
     getFromInternalRef 2; getFromInternalRef 3];
  getData := EmptyString
|}.

Definition NoOutputs : ObjectProxy := {|
  getRef := getFromInternalRef 5;
  getReferences := [];
  getData := EmptyString
|}.

End BackendExamples.

(** ** Clients of the action cache *)

Module ActionCacheUse.

(** A client that puts one binding after the other.  A poisoned key is
    reported to the caller, and the client goes on with the cache that [put]
    left. *)
Fixpoint puts (Bindings : list (Hash * ObjectRef)) (C : ActionCache.t)
    : ActionCache.t :=
  match Bindings with
  | [] => C
  | (Key, Result) :: Rest => puts Rest (fst (ActionCache.put C Key Result))
  end.

(** A storage on which the directories exist and the table layer opens the
    table [T], as a second process finds the file that a first one wrote. *)
Definition storage_with (T : OnDiskHashMappedTrie)
    : OnDiskActionCache.Storage :=
  {| OnDiskActionCache.create_directories := fun _ => None;
     OnDiskActionCache.OnDiskHashMappedTrie_create :=
       fun _ _ _ _ _ _ => Ok T |}.

(** The on-disk cache over the store [CAS12] after [Key1] was bound to the
    object [Ref2]. *)
Definition Written : OnDiskActionCache.t :=
  fst (OnDiskActionCache.putImpl Examples.EmptyOnDisk Examples.Key1
         Examples.Ref2).

End ActionCacheUse.

(** ** Clients of the capturing output backend *)

Module CASOutputBackendUse.
Section Requests.
Context {S : Type} `{ObjectStore S}.

(** The whole interface of the backend, as the requests of a client:
    [createFile], [keep] and [discard] on a file, [addObject], [addKindMap]
    and [getCASProxy]. *)
Inductive Request :=
| RCreateFile (ResolvedPath : string)
| RKeep (F : CASOutputFile)
| RDiscard (F : CASOutputFile)
| RAddObject (Name : string) (Object : ObjectRef)
| RAddKindMap (K P : string)
| RGetCASProxy.

(** The backend after a request, whatever the request returned. *)
Definition serve (R : Request) (B : CASOutputBackend.t S)
    : CASOutputBackend.t S :=
  match R with
  | RCreateFile ResolvedPath =>
      fst (CASOutputBackend.createFileImpl ResolvedPath B)
  | RKeep F => fst (CASOutputBackend.keep F B)
  | RDiscard F => fst (CASOutputBackend.discard F B)
  | RAddObject Name Object => fst (CASOutputBackend.addObject Name Object B)
  | RAddKindMap K P => CASOutputBackend.addKindMap K P B
  | RGetCASProxy => fst (CASOutputBackend.getCASProxy B)
  end.

Fixpoint serveAll (Rs : list Request) (B : CASOutputBackend.t S)
    : CASOutputBackend.t S :=
  match Rs with
  | [] => B
  | R :: Rest => serveAll Rest (serve R B)
  end.

End Requests.
End CASOutputBackendUse.

(** Modelled from the spec: a store that fills up.  Section 4.1 makes
    "table full" a hard error reported to the caller; the store below is the
    store in memory with room for [Room] more objects, and [createProxy]
    fails on it once the room is used up. *)
Module BoundedCAS.

Record t := { Inner : InMemoryCAS.t; Room : nat }.

#[global] Instance object_store : ObjectStore t := {|
  createProxy Refs Data s :=
    match Room s with
    | O => (s, Err (createStringError inconvertibleErrorCode "table full"))
    | Datatypes.S Left =>
        let '(s1, R) := createProxy Refs Data (Inner s) in
        ({| Inner := s1; Room := Left |}, R)
    end;
  load s := load (Inner s)
|}.

End BoundedCAS.

Module BoundedExamples.

(** A backend over an empty store with room for one object. *)
Definition Backend : CASOutputBackend.t BoundedCAS.t :=
  fst (CASOutputBackend.createFileImpl "/out/a.o"
         (CASOutputBackend.new
            {| BoundedCAS.Inner := {| InMemoryCAS.Objects := [] |};
               BoundedCAS.Room := 1 |})).

(** The backend after [keep] on the object file failed. *)
Definition AfterKeep : CASOutputBackend.t BoundedCAS.t :=
  fst (CASOutputBackend.keep BackendExamples.ObjectFile Backend).

End BoundedExamples.

(** ** cc1_main.cpp: the compile-job cache *)

Module CompileJobCache.

Inductive OutputKind := MainOutput | SerializedDiagnostics | Dependencies.

#[global] Instance OutputKind_eq_dec : EqDecision OutputKind.
Proof. solve_decision. Defined.

Definition getAllOutputKinds : list OutputKind :=
  [MainOutput; SerializedDiagnostics; Dependencies].

Definition MainOutputKindName : string := "<output>".
Definition SerializedDiagnosticsKindName : string := "<serial-diags>".
Definition DependenciesOutputKindName : string := "<dependencies>".

Definition getOutputKindName (Kind : OutputKind) : string :=
  match Kind with
  | MainOutput => MainOutputKindName
  | SerializedDiagnostics => SerializedDiagnosticsKindName
  | Dependencies => DependenciesOutputKindName
  end.

(** The [StringSwitch]: the first case that equals the name. *)
Definition getOutputKindForName (Name : string) : option OutputKind :=
  if decide (Name = MainOutputKindName) then Some MainOutput
  else if decide (Name = SerializedDiagnosticsKindName)
  then Some SerializedDiagnostics
  else if decide (Name = DependenciesOutputKindName) then Some Dependencies
  else None.

(** The members of [CompileJobCache] that the functions below read: the
    three paths that [initialize] takes from the invocation. *)
Record t := {
  OutputFile : string;
  SerialDiagsFile : string;
  DependenciesFile : string
}.

Definition getPathForOutputKind (J : t) (Kind : OutputKind) : string :=
  match Kind with
  | MainOutput => OutputFile J
  | SerializedDiagnostics => SerialDiagsFile J
  | Dependencies => DependenciesFile J
  end.

(** [report_fatal_error] ends the process; a function that may call it
    finishes with a value or is aborted. *)
Inductive Outcome (A : Type) :=
| Finished (a : A)
| Aborted.
Arguments Finished {A} a.
Arguments Aborted {A}.

Section Outputs.
Context {S : Type} `{ObjectStore S}.

(** [tryReplayCachedResult], where it sets up the capturing backend: a new
    backend, and a kind map for each output kind whose path is not empty, in
    the order of [getAllOutputKinds]. *)
Definition newOutputs (J : t) (CAS : S) : CASOutputBackend.t S :=
  fold_left
    (fun B K =>
       let OutPath := getPathForOutputKind J K in
       if decide (OutPath = EmptyString) then B
       else CASOutputBackend.addKindMap (getOutputKindName K) OutPath B)
    getAllOutputKinds (CASOutputBackend.new CAS).

(** What the loop of [replayCachedResult] calls and is not among the
    sources: [CASDependencyCollector::replay], which writes the dependency
    file of a stored object to a stream, and the [FileOutputBuffer] that is
    created for a path, filled and committed, over the files [D]. *)
Record ReplayEnv (D : Type) := {
  CASDependencyCollector_replay : S -> ObjectRef -> Expected string;
  FileOutputBuffer_commit : string -> string -> D -> Expected D
}.
Arguments CASDependencyCollector_replay {D} _ _ _.
Arguments FileOutputBuffer_commit {D} _ _ _ _.

(** The loop "Replay outputs" of [replayCachedResult] over the references of
    the outputs object, two at a time; [getProxy] on the identifier of a
    reference loads the referenced object. *)
Fixpoint replayOutputs {D : Type} (Env : ReplayEnv D) (J : t) (CAS : S)
    (Outputs : list ObjectRef) (Files : D) : Outcome D :=
  match Outputs with
  | PathRef :: BytesRef :: Rest =>
      match load CAS PathRef with
      | None => Aborted
      | Some PathProxy =>
          let OutKind := getOutputKindForName (getData PathProxy) in
          let P :=
            match OutKind with
            | Some K => getPathForOutputKind J K
            | None => getData PathProxy
            end in
          if decide (P = EmptyString) then replayOutputs Env J CAS Rest Files
          else
            let Contents :=
              if decide (OutKind = Some Dependencies)
              then CASDependencyCollector_replay Env CAS BytesRef
              else
                match load CAS BytesRef with
                | Some Bytes => Ok (getData Bytes)
                | None =>
                    Err (createStringError inconvertibleErrorCode
                           "unknown object")
                end in
            match Contents with
            | Err _ => Aborted
            | Ok Contents =>
                match FileOutputBuffer_commit Env P Contents Files with
                | Err _ => Aborted
                | Ok Files1 => replayOutputs Env J CAS Rest Files1
                end
            end
      end
  | _ => Finished Files
  end.


(** [finishComputedResult] for a successful build, from the serialized
    diagnostics that were not asked for to [getCASProxy].
    [HasSerialDiagsOutput] tells whether the member [SerialDiagsOutput] is
    set; [CAS] of the job is the store of the backend.  An error ends the
    process. *)
Definition finishOutputs (HasSerialDiagsOutput : bool)
    (SerialDiagsBuf : string) (DependenciesOutput : option ObjectRef)
    (B : CASOutputBackend.t S)
    : Outcome (CASOutputBackend.t S * ObjectProxy) :=
  let AfterSerialDiags :=
    if HasSerialDiagsOutput then Finished B
    else
      match createProxy [] SerialDiagsBuf (CASOutputBackend.CAS B) with
      | (_, Err _) => Aborted
      | (CAS1, Ok SerialDiags) =>
          match CASOutputBackend.addObject
                  (getOutputKindName SerializedDiagnostics)
                  (getRef SerialDiags)
                  {| CASOutputBackend.CAS := CAS1;
                     CASOutputBackend.Impl := CASOutputBackend.Impl B |} with
          | (_, failure _) => Aborted
          | (B1, success) => Finished B1
          end
      end in
  match AfterSerialDiags with
  | Aborted => Aborted
  | Finished B1 =>
      let AfterDependencies :=
        match DependenciesOutput with
        | None => Finished B1
        | Some Deps =>
            match CASOutputBackend.addObject
                    (getOutputKindName Dependencies) Deps B1 with
            | (_, failure _) => Aborted
            | (B2, success) => Finished B2
            end
        end in
      match AfterDependencies with
      | Aborted => Aborted
      | Finished B2 =>
          match CASOutputBackend.getCASProxy B2 with
          | (_, Err _) => Aborted
          | (B3, Ok Outputs) => Finished (B3, Outputs)
          end
      end
  end.

End Outputs.

Arguments CASDependencyCollector_replay {S D} _ _ _.
Arguments FileOutputBuffer_commit {S D} _ _ _ _.

(** [tryReplayCachedResult], the lookup of the result: an error of the
    action cache is consumed, and the lookup counts as a miss. *)
Definition lookupCachedResult (Cache : ActionCache.t) (ResultCacheKey : Hash)
    : option ObjectRef :=
  match ActionCache.get Cache ResultCacheKey with
  | Ok Result => Result
  | Err _ => None
  end.

(** [finishComputedResult], "Cache the result": an error of [put] ends the
    process. *)
Definition cacheResult (Cache : ActionCache.t) (ResultCacheKey : Hash)
    (Result : ObjectRef) : Outcome ActionCache.t :=
  match ActionCache.put Cache ResultCacheKey Result with
  | (Cache1, success) => Finished Cache1
  | (_, failure _) => Aborted
  end.






End CompileJobCache.

Module CompileJobExamples.
Import CompileJobCache.

(** The job that computes the result and the job that replays it: other
    output paths, and neither asks for serialized diagnostics. *)
Definition Job1 : t :=
  {| OutputFile := "/a/x.o"; SerialDiagsFile := EmptyString;
     DependenciesFile := "/a/x.d" |}.

Definition Job2 : t :=
  {| OutputFile := "/b/y.o"; SerialDiagsFile := EmptyString;
     DependenciesFile := "/b/y.d" |}.

(** Files on disk by path; a commit writes the file.  The collector writes
    the data of the dependencies object. *)
Definition Env : ReplayEnv (S := InMemoryCAS.t) (gmap string string) :=
  {| CASDependencyCollector_replay := fun s R =>
       match load s R with
       | Some P => Ok (getData P)
       | None =>
           Err (createStringError inconvertibleErrorCode "unknown object")
       end;
     FileOutputBuffer_commit := fun P Contents Files =>
       Ok (<[P := Contents]> Files) |}.

(** The store of the job, which holds the dependencies object that the
    collector of the first job made. *)
Definition Store1 : InMemoryCAS.t :=
  {| InMemoryCAS.Objects := [([], "x.o: x.c")] |}.

Definition DepsObject : ObjectRef := getFromInternalRef 0.

Definition MainFile : CASOutputFile :=
  CASOutputBackend.write "OBJ"
    {| FilePath := "/a/x.o"; Bytes := EmptyString |}.

Definition NotesFile : CASOutputFile :=
  CASOutputBackend.write "N"
    {| FilePath := "/a/notes.txt"; Bytes := EmptyString |}.

Definition Calls : list CASOutputBackend.Call :=
  [CASOutputBackend.CreateFile "/a/x.o";
   CASOutputBackend.Keep MainFile;
   CASOutputBackend.CreateFile "/a/notes.txt";
   CASOutputBackend.Keep NotesFile].

Definition Captured : CASOutputBackend.t InMemoryCAS.t :=
  fst (CASOutputBackend.run Calls (newOutputs Job1 Store1)).

(** The objects 1 to 4 are the names and the bytes of the kept files, 5 and
    6 the serialized diagnostics and their name, 7 the name of the
    dependencies, 8 the outputs object. *)
Definition Outputs : ObjectProxy := {|
  getRef := getFromInternalRef 8;
  getReferences :=
    [getFromInternalRef 1; getFromInternalRef 2;
     getFromInternalRef 3; getFromInternalRef 4;
     getFromInternalRef 6; getFromInternalRef 5;
     getFromInternalRef 7; getFromInternalRef 0];
  getData := EmptyString
|}.

Definition Drained : CASOutputBackend.t InMemoryCAS.t :=
  match finishOutputs false "DIAGS" (Some DepsObject) Captured with
  | Finished (B, _) => B
  | Aborted => Captured
  end.

End CompileJobExamples.

(** ** CDependencies.cpp: the lookup of module outputs *)

Module CDependencies.

Inductive ModuleOutputKind :=
| ModuleFile
| DependencyFile
| DependencyTargets
| DiagnosticSerializationFile.

#[global] Instance ModuleOutputKind_eq_dec : EqDecision ModuleOutputKind.
Proof. solve_decision. Defined.

Inductive CXOutputKind :=
| CXOutputKind_ModuleFile
| CXOutputKind_Dependencies
| CXOutputKind_DependenciesTarget
| CXOutputKind_SerializedDiagnostics.

Definition wrap (MOK : ModuleOutputKind) : CXOutputKind :=
  match MOK with
  | ModuleFile => CXOutputKind_ModuleFile
  | DependencyFile => CXOutputKind_Dependencies
  | DependencyTargets => CXOutputKind_DependenciesTarget
  | DiagnosticSerializationFile => CXOutputKind_SerializedDiagnostics
  end.

(** [std::string::c_str] as the callee reads it: the characters before the
    first zero character. *)
Fixpoint c_str (s : string) : string :=
  match s with
  | EmptyString => EmptyString
  | String c Rest =>
      if decide (c = Ascii.zero) then EmptyString else String c (c_str Rest)
  end.

(** What a callee leaves in a buffer when it writes [Written] at its start;
    the buffer keeps its size. *)
Definition overlay {A : Type} (Written Buffer : list A) : list A :=
  (take (length Buffer) Written ++ drop (length Written) Buffer)%list.

Section Lookup.
(** [ModuleID] is declared outside the sources: a type with the two string
    members that the lookup reads, and with the equality and hashing that
    make it a [DenseMap] key.  [C] is the state behind the [void *] context
    of the callback. *)
Context {ModuleID : Type} `{Countable ModuleID}.
Context (ModuleName ContextHash : ModuleID -> string).
Context {C : Type}.

(** [CXModuleLookupOutputCallback]: given the context, the module name, the
    context hash, the kind and a buffer of [MaxLen] characters, it returns
    the length of the output and what it wrote at the start of the buffer. *)
Definition CXModuleLookupOutputCallback : Type :=
  C -> string -> string -> CXOutputKind -> nat -> C * (nat * list ascii).

(** The static [lookupModuleOutput]: one call with a buffer of 256
    characters, and a second one with a buffer of the returned length when
    that is larger.  The result is the first [Len] characters of the buffer;
    a second call that returns more than the buffer holds makes the source
    read behind the buffer, where this function stops at its end. *)
Definition lookupModuleOutput (MLO : CXModuleLookupOutputCallback)
    (ID : ModuleID) (MOK : ModuleOutputKind) (MLOContext : C) : C * string :=
  let Buffer := replicate 256 Ascii.zero in
  let '(Ctx1, (Len, Written)) :=
    MLO MLOContext (c_str (ModuleName ID)) (c_str (ContextHash ID))
      (wrap MOK) (length Buffer) in
  let Buffer1 := overlay Written Buffer in
  if decide (length Buffer1 < Len) then
    let Buffer2 := resize Len Ascii.zero Buffer1 in
    let '(Ctx2, (Len2, Written2)) :=
      MLO Ctx1 (c_str (ModuleName ID)) (c_str (ContextHash ID))
        (wrap MOK) (length Buffer2) in
    let Buffer3 := overlay Written2 Buffer2 in
    (Ctx2, String.string_of_list_ascii (take Len2 Buffer3))
  else (Ctx1, String.string_of_list_ascii (take Len Buffer1)).

End Lookup.

Module OutputLookup.
Section Lookup.
Context {ModuleID : Type} `{Countable ModuleID}.
Context (ModuleName ContextHash : ModuleID -> string).
Context {C : Type}.
Context (MLO : CXModuleLookupOutputCallback (C := C)).

Record t := {
  PCMPaths : gmap ModuleID string;
  MLOContext : C
}.

(** [OutputLookup(void *MLOContext, CXModuleLookupOutputCallback *MLO)]. *)
Definition new (MLOContext : C) : t :=
  {| PCMPaths := ∅; MLOContext := MLOContext |}.

(** [PCMPaths.insert({ID, ""})] inserts only when the module has no entry;
    the entry of a new module is then set to what the callback answers. *)
Definition lookupModuleOutput (ID : ModuleID) (MOK : ModuleOutputKind)
    (L : t) : t * string :=
  if decide (MOK ≠ ModuleFile) then
    let '(Ctx1, P) :=
      CDependencies.lookupModuleOutput ModuleName ContextHash MLO ID MOK
        (MLOContext L) in
    ({| PCMPaths := PCMPaths L; MLOContext := Ctx1 |}, P)
  else
    match PCMPaths L !! ID with
    | Some P => (L, P)
    | None =>
        let '(Ctx1, P) :=
          CDependencies.lookupModuleOutput ModuleName ContextHash MLO ID MOK
            (MLOContext L) in
        ({| PCMPaths := <[ID := P]> (PCMPaths L); MLOContext := Ctx1 |}, P)
    end.

(** The lookups that a scan makes one after the other. *)
Fixpoint lookups (Requests : list (ModuleID * ModuleOutputKind)) (L : t)
    : t :=
  match Requests with
  | [] => L
  | (ID, MOK) :: Rest => lookups Rest (fst (lookupModuleOutput ID MOK L))
  end.

End Lookup.
Arguments t ModuleID {_ _} C.
End OutputLookup.

End CDependencies.

Module LookupExamples.
Import CDependencies.

(** Module IDs as pairs of a name and a context hash. *)
Definition ID := (string * string)%type.

(** A client that counts its calls: it answers the path
    [/cache/<name>-<hash>.pcm] for a module file, suffixed by the number of
    calls so far, and writes it when the buffer is large enough. *)
Definition MLO : CXModuleLookupOutputCallback (C := nat) :=
  fun Calls Name Hash Kind MaxLen =>
    let P := String.list_ascii_of_string
               ("/cache/" +:+ Name +:+ "-" +:+ Hash +:+ ".pcm" +:+
                String (ascii_of_nat (48 + Calls)) EmptyString) in
    (Datatypes.S Calls,
     (length P, if decide (length P <= MaxLen) then P else [])).

(** A client that always answers the same long path. *)
Definition LongPath : list ascii :=
  (String.list_ascii_of_string "/cache/" ++ replicate 300 "a"%char)%list.

Definition LongMLO : CXModuleLookupOutputCallback (C := nat) :=
  fun Calls Name Hash Kind MaxLen =>
    (Datatypes.S Calls,
     (length LongPath,
      if decide (length LongPath <= MaxLen) then LongPath else [])).

Definition Foundation : ID := ("Foundation", "ABC").
Definition Darwin : ID := ("Darwin", "DEF").

Definition First : OutputLookup.t ID nat :=
  fst (OutputLookup.lookupModuleOutput fst snd MLO Foundation ModuleFile
         (OutputLookup.new 0)).

Definition Requests : list (ID * ModuleOutputKind) :=
  [(Darwin, ModuleFile); (Foundation, DependencyFile);
   (Darwin, ModuleFile)].

End LookupExamples.

(** ** CASReference.h *)

Module ReferenceBase.

Inductive HandleKind :=
| TreeKind
| NodeKind
| BlobKind
| AnyDataKind
| AnyObjectKind.

(** The values of the enumerators. *)
Definition value (K : HandleKind) : N :=
  match K with
  | TreeKind => 1
  | NodeKind => 2
  | BlobKind => 4
  | AnyDataKind => N.lor 2 4
  | AnyObjectKind => N.lor (N.lor 2 4) 1
  end.

End ReferenceBase.

(** The handle classes that the templates below are instantiated with, and
    what [getHandleKind] returns in each. *)
Inductive HandleT := ObjectHandle | BlobHandle | NodeHandle | TreeHandle.

#[global] Instance HandleT_eq_dec : EqDecision HandleT.
Proof. solve_decision. Defined.

Definition getHandleKind (T : HandleT) : ReferenceBase.HandleKind :=
  match T with
  | ObjectHandle => ReferenceBase.AnyObjectKind
  | BlobHandle => ReferenceBase.BlobKind
  | NodeHandle => ReferenceBase.NodeKind
  | TreeHandle => ReferenceBase.TreeKind
  end.

Module AnyObjectHandleImpl.

(** A variant handle: the internal reference of its base and the member
    [Kind]. *)
Record t := {
  InternalRef : N;
  Kind : N
}.

(** [AnyObjectHandleImpl(HandleT H)]. *)
Definition new (T : HandleT) (Ref : N) : t :=
  {| InternalRef := Ref; Kind := ReferenceBase.value (getHandleKind T) |}.

(** The body of [is<HandleT>()] for [NewKind = HandleT::getHandleKind()]. *)
Definition is_kind (H : t) (NewKind : N) : bool :=
  if decide (Kind H = NewKind) then true
  else negb (N.land (Kind H) NewKind =? 0)%N && (Kind H <? NewKind)%N.

Definition is_ (T : HandleT) (H : t) : bool :=
  is_kind H (ReferenceBase.value (getHandleKind T)).

(** [dyn_cast<HandleT>()]: the handle with the same internal reference. *)
Definition dyn_cast (T : HandleT) (H : t) : option N :=
  if is_ T H then Some (InternalRef H) else None.

End AnyObjectHandleImpl.

Module AnyObjectHandle.

(** [AnyObjectHandle::getData]: a data handle with the kind of this one. *)
Definition getData (H : AnyObjectHandleImpl.t) : option AnyObjectHandleImpl.t :=
  if negb (N.land (AnyObjectHandleImpl.Kind H)
             (ReferenceBase.value ReferenceBase.AnyDataKind) =? 0)%N
  then Some {| AnyObjectHandleImpl.InternalRef :=
                 AnyObjectHandleImpl.InternalRef H;
               AnyObjectHandleImpl.Kind := AnyObjectHandleImpl.Kind H |}
  else None.

End AnyObjectHandle.

(** ** CDependencies.cpp: the file dependencies *)

(** A function that may stop at an [assert]: it returns, or the assertion
    with the given message fails.  With [NDEBUG] the assertions are not
    compiled. *)
Inductive Asserted (A : Type) :=
| Returned (a : A)
| AssertionFailure (Message : string).
Arguments Returned {A} a.
Arguments AssertionFailure {A} Message.

#[global] Instance Asserted_ret : MRet Asserted := fun A a => Returned a.
#[global] Instance Asserted_bind : MBind Asserted := fun A B f m =>
  match m with
  | Returned a => f a
  | AssertionFailure Message => AssertionFailure Message
  end.

Definition assert (NDEBUG Cond : bool) (Message : string) : Asserted unit :=
  if NDEBUG then Returned tt
  else if Cond then Returned tt else AssertionFailure Message.

Module FileDependencies.
Import DependencyScannerServiceOptions.

Inductive CXErrorCode :=
| CXError_Success
| CXError_Failure
| CXError_InvalidArguments.

#[global] Instance CXErrorCode_eq_dec : EqDecision CXErrorCode.
Proof. solve_decision. Defined.

Inductive CXDependencyMode := CXDependencyMode_Flat | CXDependencyMode_Full.

Definition unwrap (Format : CXDependencyMode) : ScanningOutputFormat :=
  match Format with
  | CXDependencyMode_Flat => Make
  | CXDependencyMode_Full => Full
  end.

Section Scan.
(** [ModuleID] as in the lookup of module outputs; [LookupT] is the callback
    that the controller of a scan is made with. *)
Context {ModuleID LookupT : Type}.
Context (ModuleName ContextHash : ModuleID -> string).

Record ModuleDeps := {
  MD_ID : ModuleID;
  MD_ClangModuleMapFile : string;
  MD_FileDeps : list string;
  MD_ClangModuleDeps : list ModuleID;
  MD_BuildArguments : list string
}.

Record Command := {
  Cmd_Executable : string;
  Cmd_Arguments : list string
}.

Record TranslationUnitDeps := {
  TU_ContextHash : string;
  TU_FileDeps : list string;
  TU_ClangModuleDeps : list ModuleID;
  TU_ModuleGraph : list ModuleDeps;
  TU_Commands : list Command;
  TU_DriverCommandLine : list string
}.

Record CXModuleDependency := {
  CXMD_Name : string;
  CXMD_ContextHash : string;
  CXMD_ModuleMapPath : string;
  CXMD_FileDeps : list string;
  CXMD_ModuleDeps : list string;
  CXMD_BuildArguments : list string
}.

Definition CXModuleDependencySet := list CXModuleDependency.

Record CXFileDependencies := {
  CXFD_ContextHash : string;
  CXFD_FileDeps : list string;
  CXFD_ModuleDeps : list string;
  CXFD_BuildArguments : list string
}.

Record CXTranslationUnitCommand := {
  CXTU_ContextHash : string;
  CXTU_FileDeps : list string;
  CXTU_ModuleDeps : list string;
  CXTU_Executable : string;
  CXTU_BuildArguments : list string
}.

Definition CXFileDependenciesList := list CXTranslationUnitCommand.

(** What is outside the sources: the worker with its format and its two
    [computeDependencies], the one that returns an error (here the message)
    and the one that reports to a diagnostic consumer and returns whether it
    succeeded (here the diagnostics, and the dependencies that the consumer
    of the scan holds after a success); and the dependencies that a consumer
    holds when no scan has filled it. *)
Record DependencyScanningWorker := {
  getScanningFormat : ScanningOutputFormat;
  computeDependencies :
    string -> list string -> LookupT -> option string
    -> string + TranslationUnitDeps;
  computeDependencies_diags :
    string -> list string -> LookupT -> option string
    -> list string * option TranslationUnitDeps;
  takeTranslationUnitDeps_unfilled : TranslationUnitDeps
}.

(** What a call leaves behind: the string written through [Error], the
    diagnostics given to the consumer, and the calls of the
    module-discovered callback. *)
Record Effects := {
  ErrorOut : option string;
  Diagnostics : list string;
  MDCCalls : list CXModuleDependencySet
}.

Definition NoEffects : Effects :=
  {| ErrorOut := None; Diagnostics := []; MDCCalls := [] |}.

(** [MID.ModuleName + ":" + MID.ContextHash] for each module. *)
Definition Modules (Deps : list ModuleID) : list string :=
  (fun MID => ModuleName MID +:+ ":" +:+ ContextHash MID) <$> Deps.

Definition toCXModuleDependency (MD : ModuleDeps) : CXModuleDependency :=
  {| CXMD_Name := ModuleName (MD_ID MD);
     CXMD_ContextHash := ContextHash (MD_ID MD);
     CXMD_ModuleMapPath := MD_ClangModuleMapFile MD;
     CXMD_FileDeps := MD_FileDeps MD;
     CXMD_ModuleDeps := Modules (MD_ClangModuleDeps MD);
     CXMD_BuildArguments := MD_BuildArguments MD |}.

Definition getFullDependencies {R : Type} (NDEBUG : bool)
    (Worker : DependencyScanningWorker) (Compilation : list string)
    (WorkingDirectory : string) (HasError HasDiagConsumer : bool)
    (LookupOutput : LookupT) (ModuleNameArg : option string)
    (HandleTUDeps : TranslationUnitDeps -> Asserted R)
    : Asserted (CXErrorCode * Effects * option R) :=
  _ ← assert NDEBUG (xorb HasDiagConsumer HasError)
        "Both DiagConsumer and Error provided";
  let Scanned : (CXErrorCode * Effects) + (TranslationUnitDeps * Effects) :=
    if HasDiagConsumer then
      match computeDependencies_diags Worker WorkingDirectory Compilation
              LookupOutput ModuleNameArg with
      | (Diags, None) =>
          inl (CXError_Failure,
               {| ErrorOut := None; Diagnostics := Diags; MDCCalls := [] |})
      | (Diags, Some TU) =>
          inr (TU,
               {| ErrorOut := None; Diagnostics := Diags; MDCCalls := [] |})
      end
    else if HasError then
      match computeDependencies Worker WorkingDirectory Compilation
              LookupOutput ModuleNameArg with
      | inl Message =>
          inl (CXError_Failure,
               {| ErrorOut := Some Message; Diagnostics := [];
                  MDCCalls := [] |})
      | inr TU => inr (TU, NoEffects)
      end
    else inr (takeTranslationUnitDeps_unfilled Worker, NoEffects) in
  match Scanned with
  | inl (Result, Eff) => mret (Result, Eff, None)
  | inr (TU, Eff) =>
      let Eff1 :=
        match TU_ModuleGraph TU with
        | [] => Eff
        | _ =>
            {| ErrorOut := ErrorOut Eff; Diagnostics := Diagnostics Eff;
               MDCCalls := (MDCCalls Eff ++
                            [toCXModuleDependency <$> TU_ModuleGraph TU])%list
            |}
        end in
      Handled ← HandleTUDeps TU;
      mret (CXError_Success, Eff1, Some Handled)
  end.

(** [W] and [argv] are pointers, null when [None]; [argv] points to at
    least [argc] strings. *)
Definition getFileDependencies {R : Type} (NDEBUG : bool)
    (W : option DependencyScanningWorker) (argc : Z)
    (argv : option (list string)) (WorkingDirectory : string)
    (HasError HasDiagConsumer : bool) (LookupOutput : LookupT)
    (ModuleNameArg : option string)
    (HandleTUDeps : TranslationUnitDeps -> Asserted R)
    : Asserted (CXErrorCode * Effects * option R) :=
  match W, argv with
  | Some Worker, Some Args =>
      if decide (argc < 2)%Z
      then mret (CXError_InvalidArguments, NoEffects, None)
      else if decide (getScanningFormat Worker ≠ Full /\
                      getScanningFormat Worker ≠ FullTree /\
                      getScanningFormat Worker ≠ FullIncludeTree)
      then mret (CXError_InvalidArguments, NoEffects, None)
      else
        getFullDependencies NDEBUG Worker (take (Z.to_nat argc) Args)
          WorkingDirectory HasError HasDiagConsumer LookupOutput
          ModuleNameArg HandleTUDeps
  | _, _ => mret (CXError_InvalidArguments, NoEffects, None)
  end.

(** The arguments that [getFileDependencies] rejects. *)
Definition rejected (W : option DependencyScanningWorker) (argc : Z)
    (argv : option (list string)) : Prop :=
  W = None \/ argv = None \/ (argc < 2)%Z \/
  exists Worker, W = Some Worker /\
                 getScanningFormat Worker = unwrap CXDependencyMode_Flat.

(** [clang_experimental_DependencyScannerWorker_getFileDependencies_v3]:
    the returned pointer and what the call leaves behind. *)
Definition getFileDependencies_v3 (NDEBUG : bool)
    (W : option DependencyScanningWorker) (argc : Z)
    (argv : option (list string)) (ModuleNameArg : option string)
    (WorkingDirectory : string) (LookupOutputs : LookupT) (HasError : bool)
    : Asserted (option CXFileDependencies * Effects) :=
  '(Result, Eff, FDeps) ←
    getFileDependencies NDEBUG W argc argv WorkingDirectory HasError false
      LookupOutputs ModuleNameArg
      (fun TU =>
         _ ← assert NDEBUG
               (negb (bool_decide (TU_DriverCommandLine TU = [])))
               "!TU.DriverCommandLine.empty()";
         mret {| CXFD_ContextHash := TU_ContextHash TU;
                 CXFD_FileDeps := TU_FileDeps TU;
                 CXFD_ModuleDeps := Modules (TU_ClangModuleDeps TU);
                 CXFD_BuildArguments := TU_DriverCommandLine TU |});
  _ ← assert NDEBUG
        (negb (bool_decide (Result = CXError_Success))
         || bool_decide (is_Some FDeps))
        "Result != CXError_Success || FDeps";
  mret (FDeps, Eff).

(** The commands that the callbacks of [v4] and [v5] make of the
    dependencies. *)
Definition toCommands (NDEBUG : bool) (TU : TranslationUnitDeps)
    : Asserted CXFileDependenciesList :=
  _ ← assert NDEBUG (bool_decide (TU_DriverCommandLine TU = []))
        "TU.DriverCommandLine.empty()";
  mret ((fun Cmd =>
           {| CXTU_ContextHash := TU_ContextHash TU;
              CXTU_FileDeps := TU_FileDeps TU;
              CXTU_ModuleDeps := Modules (TU_ClangModuleDeps TU);
              CXTU_Executable := Cmd_Executable Cmd;
              CXTU_BuildArguments := Cmd_Arguments Cmd |})
        <$> TU_Commands TU).

(** [..._getFileDependencies_v4]: [Out] is a pointer to a pointer; the
    result holds what [*Out] is after the call when [Out] is not null. *)
Definition getFileDependencies_v4 (NDEBUG : bool)
    (W : option DependencyScanningWorker) (argc : Z)
    (argv : option (list string)) (ModuleNameArg : option string)
    (WorkingDirectory : string) (LookupOutputs : LookupT)
    (HasOut HasError : bool)
    : Asserted (CXErrorCode * option (option CXFileDependenciesList)
                * Effects) :=
  if negb HasOut then mret (CXError_InvalidArguments, None, NoEffects)
  else
    '(Result, Eff, Out) ←
      getFileDependencies NDEBUG W argc argv WorkingDirectory HasError false
        LookupOutputs ModuleNameArg (toCommands NDEBUG);
    mret (Result, Some Out, Eff).

(** [..._getFileDependencies_v5]: the diagnostics go to a consumer of the
    function, and [*OutDiags] is set from it at the end. *)
Definition getFileDependencies_v5 (NDEBUG : bool)
    (W : option DependencyScanningWorker) (argc : Z)
    (argv : option (list string)) (ModuleNameArg : option string)
    (WorkingDirectory : string) (LookupOutputs : LookupT) (HasOut : bool)
    : Asserted (CXErrorCode * option (option CXFileDependenciesList)
                * Effects) :=
  if negb HasOut then mret (CXError_InvalidArguments, None, NoEffects)
  else
    '(Result, Eff, Out) ←
      getFileDependencies NDEBUG W argc argv WorkingDirectory false true
        LookupOutputs ModuleNameArg (toCommands NDEBUG);
    mret (Result, Some Out, Eff).

End Scan.
End FileDependencies.

Module ScanExamples.
Import DependencyScannerServiceOptions FileDependencies.

(** The dependencies of a translation unit with one command and one
    module. *)
Definition Deps : TranslationUnitDeps (ModuleID := string * string) := {|
  TU_ContextHash := "H0";
  TU_FileDeps := ["a.c"; "a.h"];
  TU_ClangModuleDeps := [("Foundation", "ABC")];
  TU_ModuleGraph :=
    [{| MD_ID := ("Foundation", "ABC");
        MD_ClangModuleMapFile := "/sdk/module.modulemap";
        MD_FileDeps := ["/sdk/Foundation.h"];
        MD_ClangModuleDeps := [];
        MD_BuildArguments := ["-cc1"; "-emit-module"] |}];
  TU_Commands :=
    [{| Cmd_Executable := "clang"; Cmd_Arguments := ["-cc1"; "a.c"] |}];
  TU_DriverCommandLine := []
|}.

Definition NoDeps : TranslationUnitDeps (ModuleID := string * string) := {|
  TU_ContextHash := EmptyString; TU_FileDeps := [];
  TU_ClangModuleDeps := []; TU_ModuleGraph := []; TU_Commands := [];
  TU_DriverCommandLine := []
|}.

(** A worker of the given format that finds [Deps] for every compilation
    that names a file, and fails otherwise. *)
Definition Worker (Format : ScanningOutputFormat)
    : DependencyScanningWorker (ModuleID := string * string)
        (LookupT := unit) := {|
  getScanningFormat := Format;
  computeDependencies := fun _ Compilation _ _ =>
    if decide (2 <= length Compilation) then inr Deps
    else inl "error: no input files";
  computeDependencies_diags := fun _ Compilation _ _ =>
    if decide (2 <= length Compilation) then ([], Some Deps)
    else (["error: no input files"], None);
  takeTranslationUnitDeps_unfilled := NoDeps
|}.

Definition Commands : CXFileDependenciesList := [
  {| CXTU_ContextHash := "H0"; CXTU_FileDeps := ["a.c"; "a.h"];
     CXTU_ModuleDeps := ["Foundation:ABC"]; CXTU_Executable := "clang";
     CXTU_BuildArguments := ["-cc1"; "a.c"] |}].

Definition Discovered : CXModuleDependencySet := [
  {| CXMD_Name := "Foundation"; CXMD_ContextHash := "ABC";
     CXMD_ModuleMapPath := "/sdk/module.modulemap";
     CXMD_FileDeps := ["/sdk/Foundation.h"]; CXMD_ModuleDeps := [];
     CXMD_BuildArguments := ["-cc1"; "-emit-module"] |}].

End ScanExamples.

(** ** PluginCAS.cpp: the object store and the action cache map *)

Module PluginObjectStore.
Import CDependencies.

Section Store.
(** [llcas_digest_parse] of the plugin, which is outside the sources: given
    the store, the printed identifier and a buffer of the given size, it
    returns the number of bytes of the digest (0 for an error), what it
    wrote at the start of the buffer, and the error string. *)
Context (digest_parse : N -> string -> nat -> nat * list byte * string).

(** The closure [parseDigest], with the buffer that it fills. *)
Definition parseDigest (c_cas : N) (IDBuf : string) (BytesBuf : list byte)
    : list byte * Expected nat :=
  let '(NumBytes, Written, c_err) :=
    digest_parse c_cas (c_str IDBuf) (length BytesBuf) in
  let BytesBuf1 := overlay Written BytesBuf in
  if decide (NumBytes = 0)
  then (BytesBuf1, Err (PluginCASContext.errorAndDispose c_err))
  else (BytesBuf1, Ok NumBytes).

(** [PluginObjectStore::parseID]; the result is the hash of the identifier
    that [CASID::create] makes. *)
Definition parseID (NDEBUG : bool) (Ctx : PluginCASContext.t) (ID : string)
    : Asserted (Expected Hash) :=
  let BytesBuf := replicate 68 x00 in
  match parseDigest (PluginCASContext.c_cas Ctx) ID BytesBuf with
  | (_, Err E) => mret (Err E)
  | (BytesBuf1, Ok NumBytes) =>
      if decide (length BytesBuf1 < NumBytes) then
        let BytesBuf2 := resize NumBytes x00 BytesBuf1 in
        match parseDigest (PluginCASContext.c_cas Ctx) ID BytesBuf2 with
        | (_, Err E) => mret (Err E)
        | (BytesBuf3, Ok NumBytes2) =>
            _ ← assert NDEBUG (bool_decide (NumBytes2 = length BytesBuf3))
                  "*NumBytes == BytesBuf.size()";
            mret (Ok BytesBuf3)
        end
      else mret (Ok (take NumBytes BytesBuf1))
  end.

End Store.
End PluginObjectStore.

Module PluginActionCacheMap.

Inductive llcas_lookup_result_t :=
| LLCAS_LOOKUP_RESULT_SUCCESS
| LLCAS_LOOKUP_RESULT_NOTFOUND
| LLCAS_LOOKUP_RESULT_ERROR.

Section Map.
(** The entry points of the plugin for a map, which are outside the
    sources: the number of entries, the name of the entry at an index, and
    for the value of the entry at an index what the plugin passes to the
    callback: the result, the reference of the entry and the error string. *)
Context (actioncache_map_get_entries_count : N -> nat).
Context (actioncache_map_get_entry_name : N -> nat -> string).
Context (actioncache_map_get_entry_value_async :
           N -> nat -> llcas_lookup_result_t * N * string).

Record t := {
  c_map : N;
  Names : list string
}.

(** The constructor: the names of the entries in index order. *)
Definition new (c_map : N) : t :=
  {| c_map := c_map;
     Names := actioncache_map_get_entry_name c_map
              <$> seq 0 (actioncache_map_get_entries_count c_map) |}.

Definition getAllNames (M : t) : list string := Names M.

(** [getValueAndDispose] in the callback. *)
Definition getValueAndDispose
    (Answer : llcas_lookup_result_t * N * string)
    : Expected (option ObjectRef) :=
  match Answer with
  | (LLCAS_LOOKUP_RESULT_SUCCESS, ref, _) => Ok (Some (getFromInternalRef ref))
  | (LLCAS_LOOKUP_RESULT_NOTFOUND, _, _) => Ok None
  | (LLCAS_LOOKUP_RESULT_ERROR, _, c_err) =>
      Err (PluginCASContext.errorAndDispose c_err)
  end.

(** [getValueAsync]: the value that the future gets. *)
Definition getValueAsync (Name : string) (M : t)
    : Expected (option ObjectRef) :=
  match list_find (fun N0 => N0 = Name) (Names M) with
  | None =>
      Err (createStringError invalid_argument
             (Name +:+ " not part of action cache map"))
  | Some (Index, _) =>
      getValueAndDispose
        (actioncache_map_get_entry_value_async (c_map M) Index)
  end.

End Map.
End PluginActionCacheMap.

(** ** MCCASPrinter.cpp: the hex dump *)

Module MCCASPrinter.

Definition newline : string := String (ascii_of_nat 10) EmptyString.

(** [OS.indent(Indent)]. *)
Fixpoint indent (Indent : nat) : string :=
  match Indent with
  | 0 => EmptyString
  | Datatypes.S n => String " " (indent n)
  end.

Section Printer.
(** [llvm::format_hex(c, 4)] is outside the sources. *)
Context (format_hex : byte -> string).

(** [llvm::interleave(Items, OS, ..., " ")]. *)
Fixpoint interleave (Items : list byte) : string :=
  match Items with
  | [] => EmptyString
  | [c] => format_hex c
  | c :: Rest => format_hex c +:+ " " +:+ interleave Rest
  end.

(** One line of the dump. *)
Definition hexLine (Indent : nat) (Items : list byte) : string :=
  indent Indent +:+ interleave Items +:+ newline.

(** The [while] loop of the dump; [Fuel] bounds its iterations. *)
Fixpoint hexDump_loop (Fuel Indent : nat) (data : list byte) : string :=
  match Fuel with
  | 0 => EmptyString
  | Datatypes.S Fuel1 =>
      match data with
      | [] => EmptyString
      | _ =>
          hexLine Indent (take 8 data) +:+
          hexDump_loop Fuel1 Indent
            (drop (if decide (length data < 8) then length data else 8) data)
      end
  end.

(** The branch [if (Options.HexDump)] of [printMCObject]. *)
Definition hexDump (HexDumpOneLine : bool) (Indent : nat) (data : list byte)
    : string :=
  if HexDumpOneLine then hexLine Indent (take (length data) data)
  else hexDump_loop (length data) Indent data.

End Printer.
End MCCASPrinter.

Module PluginStoreExamples.

(** A plugin that parses every identifier to the same digest of 70 bytes. *)
Definition LongDigest : Hash := replicate 70 xab.

Definition digest_parse (c_cas : N) (ID : string) (Size : nat)
    : nat * list byte * string :=
  (length LongDigest,
   if decide (length LongDigest <= Size) then LongDigest else [],
   EmptyString).

(** A map with three entries, two of them with the same name. *)
Definition entry_name (c_map : N) (Index : nat) : string :=
  match Index with
  | 0 => "obj"
  | 1 => "diag"
  | _ => "obj"
  end.

Definition entry_value (c_map : N) (Index : nat)
    : PluginActionCacheMap.llcas_lookup_result_t * N * string :=
  (PluginActionCacheMap.LLCAS_LOOKUP_RESULT_SUCCESS, N.of_nat (10 + Index),
   EmptyString).

Definition Map : PluginActionCacheMap.t :=
  PluginActionCacheMap.new (fun _ => 3) entry_name 7.

(** Two hexadecimal digits behind [0x]. *)
Definition format_hex (c : byte) : string :=
  "0x" +:+ toHex [c].

End PluginStoreExamples.

(** ** CDependencies.cpp: the options and the service *)

Module ScannerService.
Import DependencyScannerServiceOptions FileDependencies.

Section Service.
(** What is outside the sources: the other members of [CASOptions], whether
    [getKind()] of the options is [UnknownCAS], the default options, and
    [createCachingOnDiskFileSystem]. *)
Context {ObjectStoreT ActionCacheT OtherOptionsT FileSystemT : Type}.

Record CASOptions := {
  CASPath : string;
  OtherOptions : OtherOptionsT
}.

Context (DefaultCASOptions : CASOptions).
Context (isUnknownCAS : CASOptions -> bool).
Context (createCachingOnDiskFileSystem :
           ObjectStoreT -> Expected FileSystemT).

(** [DependencyScannerServiceOptions] with the member [CASOpts], which
    [getFormat] does not read, next to the members that it reads. *)
Record Options := {
  Members : DependencyScannerServiceOptions.t ObjectStoreT ActionCacheT;
  CASOpts : CASOptions
}.

(** [clang_experimental_DependencyScannerServiceOptions_create]. *)
Definition Options_create : Options :=
  {| Members := default; CASOpts := DefaultCASOptions |}.

Definition setDependencyMode (Mode : CXDependencyMode) (Opts : Options)
    : Options :=
  {| Members := {| ConfiguredFormat := unwrap Mode;
                   CAS := CAS (Members Opts);
                   Cache := Cache (Members Opts) |};
     CASOpts := CASOpts Opts |}.

(** [cas::WrappedCASDatabases], [WrappedObjectStore] and
    [WrappedActionCache], by the members that the setters read. *)
Record WrappedCASDatabases := {
  DBs_CASOpts : CASOptions;
  DBs_CAS : option ObjectStoreT;
  DBs_Cache : option ActionCacheT
}.

Record WrappedObjectStore := {
  Store_CAS : option ObjectStoreT;
  Store_CASPath : string
}.

Record WrappedActionCache := {
  Cache_Cache : option ActionCacheT;
  Cache_CachePath : string
}.

Definition setCASDatabases (DBs : WrappedCASDatabases) (Opts : Options)
    : Options :=
  {| Members := {| ConfiguredFormat := ConfiguredFormat (Members Opts);
                   CAS := DBs_CAS DBs;
                   Cache := DBs_Cache DBs |};
     CASOpts := DBs_CASOpts DBs |}.

Definition setObjectStore (Store : WrappedObjectStore) (Opts : Options)
    : Options :=
  {| Members := {| ConfiguredFormat := ConfiguredFormat (Members Opts);
                   CAS := Store_CAS Store;
                   Cache := Cache (Members Opts) |};
     CASOpts := {| CASPath := Store_CASPath Store;
                   OtherOptions := OtherOptions (CASOpts Opts) |} |}.

Definition setActionCache (AC : WrappedActionCache) (Opts : Options)
    : Options :=
  {| Members := {| ConfiguredFormat := ConfiguredFormat (Members Opts);
                   CAS := CAS (Members Opts);
                   Cache := Cache_Cache AC |};
     CASOpts := {| CASPath := Cache_CachePath AC;
                   OtherOptions := OtherOptions (CASOpts Opts) |} |}.

(** What the two entry points give the constructor of the service, behind
    the scanning mode and before [ReuseFilemanager], which are the same in
    both. *)
Record DependencyScanningService := {
  Service_Format : ScanningOutputFormat;
  Service_CASOpts : CASOptions;
  Service_CAS : option ObjectStoreT;
  Service_Cache : option ActionCacheT;
  Service_FS : option FileSystemT
}.

(** [clang_experimental_DependencyScannerService_create_v0]. *)
Definition create_v0 (Format : CXDependencyMode) : DependencyScanningService :=
  {| Service_Format := unwrap Format;
     Service_CASOpts := DefaultCASOptions;
     Service_CAS := None;
     Service_Cache := None;
     Service_FS := None |}.

(** [clang_experimental_DependencyScannerService_create_v1]; [cantFail] ends
    the process when the file system cannot be made. *)
Definition create_v1 (NDEBUG : bool) (Env : Environment) (Opts : Options)
    : Asserted (CompileJobCache.Outcome DependencyScanningService) :=
  let make SharedFS :=
    {| Service_Format := getFormat Env (Members Opts);
       Service_CASOpts := CASOpts Opts;
       Service_CAS := CAS (Members Opts);
       Service_Cache := Cache (Members Opts);
       Service_FS := SharedFS |} in
  match CAS (Members Opts), Cache (Members Opts) with
  | Some Store, Some _ =>
      _ ← assert NDEBUG (negb (isUnknownCAS (CASOpts Opts)))
            "CAS and ActionCache must match CASOptions";
      match createCachingOnDiskFileSystem Store with
      | Err _ => mret CompileJobCache.Aborted
      | Ok SharedFS =>
          mret (CompileJobCache.Finished (make (Some SharedFS)))
      end
  | _, _ => mret (CompileJobCache.Finished (make None))
  end.

End Service.
End ScannerService.

(** * Properties *)

(** ** The tries *)

Section Trie.
Context {D : Type}.
Implicit Types (T : gmap Hash D) (Key : Hash).

Lemma trie_insertLazy_vacant Key F T :
  T !! Key = None ->
  trie_insertLazy Key F T = (<[Key := F tt]> T, F tt).
Proof. intros HNone. unfold trie_insertLazy. by rewrite HNone. Qed.

Lemma trie_insertLazy_occupied Key F T Existing :
  T !! Key = Some Existing ->
  trie_insertLazy Key F T = (T, Existing).
Proof. intros HSome. unfold trie_insertLazy. by rewrite HSome. Qed.

(** After [insertLazy] the key holds the payload that the call returned. *)
Lemma trie_insertLazy_find Key F T T1 Observed :
  trie_insertLazy Key F T = (T1, Observed) ->
  trie_find Key T1 = Some Observed.
Proof.
  unfold trie_insertLazy, trie_find.
  destruct (T !! Key) as [Existing|] eqn:HKey; intros [= <- <-].
  - exact HKey.
  - apply lookup_insert_eq.
Qed.

End Trie.

(** ** The two backends, case by case *)

Module InMemoryFacts.
Import InMemoryActionCache.

Lemma InMemory_eta (C : t) : {| CAS := CAS C; Cache := Cache C |} = C.
Proof. by destruct C. Qed.

Lemma InMemory_putImpl_vacant C Key Result :
  Cache C !! Key = None ->
  putImpl C Key Result =
    ({| CAS := CAS C;
        Cache := <[Key := mkCacheEntry (getHash (getID (CAS C) Result))]>
                   (Cache C) |}, success).
Proof.
  intros HNone. unfold putImpl.
  rewrite (trie_insertLazy_vacant _ _ _ HNone). simpl.
  by rewrite decide_True.
Qed.

Lemma InMemory_putImpl_same C Key Result Observed :
  Cache C !! Key = Some Observed ->
  getHash (getID (CAS C) Result) = getValue Observed ->
  putImpl C Key Result = (C, success).
Proof.
  intros HSome HEq. unfold putImpl.
  rewrite (trie_insertLazy_occupied _ _ _ _ HSome). simpl.
  rewrite decide_True by done. by rewrite InMemory_eta.
Qed.

Lemma InMemory_putImpl_different C Key Result Observed :
  Cache C !! Key = Some Observed ->
  getHash (getID (CAS C) Result) ≠ getValue Observed ->
  putImpl C Key Result =
    (C, failure (createResultCachePoisonedError (hashToString Key) (CAS C)
                   Result (getValue Observed))).
Proof.
  intros HSome HNe. unfold putImpl.
  rewrite (trie_insertLazy_occupied _ _ _ _ HSome). simpl.
  rewrite decide_False by done. by rewrite InMemory_eta.
Qed.

End InMemoryFacts.

Module OnDiskFacts.
Import OnDiskActionCache.

Lemma OnDisk_eta (C : t) :
  {| CAS := CAS C; Path := Path C;
     Cache := set_Records (Cache C) (Records (Cache C)) |} = C.
Proof. destruct C as [? ? []]. reflexivity. Qed.

Lemma OnDisk_putImpl_vacant C Key Result :
  Records (Cache C) !! Key = None ->
  putImpl C Key Result =
    ({| CAS := CAS C; Path := Path C;
        Cache := set_Records (Cache C)
                   (<[Key := getHash (getID (CAS C) Result)]>
                      (Records (Cache C))) |}, success).
Proof.
  intros HNone. unfold putImpl.
  rewrite (trie_insertLazy_vacant _ _ _ HNone). simpl.
  by rewrite decide_True.
Qed.

Lemma OnDisk_putImpl_same C Key Result :
  Records (Cache C) !! Key = Some (getHash (getID (CAS C) Result)) ->
  putImpl C Key Result = (C, success).
Proof.
  intros HSome. unfold putImpl.
  rewrite (trie_insertLazy_occupied _ _ _ _ HSome). simpl.
  rewrite decide_True by done. by rewrite OnDisk_eta.
Qed.

Lemma OnDisk_putImpl_different C Key Result Observed :
  Records (Cache C) !! Key = Some Observed ->
  getHash (getID (CAS C) Result) ≠ Observed ->
  putImpl C Key Result =
    (C, failure (createResultCachePoisonedError (hashToString Key) (CAS C)
                   Result Observed)).
Proof.
  intros HSome HNe. unfold putImpl.
  rewrite (trie_insertLazy_occupied _ _ _ _ HSome). simpl.
  rewrite decide_False by done. by rewrite OnDisk_eta.
Qed.

(** The on-disk backend reports a stored digest that the store does not
    resolve. *)
Lemma OnDisk_getImpl_dangling C Key Stored :
  Records (Cache C) !! Key = Some Stored ->
  getReference (CAS C) Stored = None ->
  getImpl C Key =
    Err (createResultCacheUnknownObjectError (hashToString Key)
           (hashToString Stored)).
Proof.
  intros HSome HNone. unfold getImpl, trie_find. rewrite HSome. simpl.
  by rewrite HNone.
Qed.

End OnDiskFacts.

(** ** The action cache through its interface *)

Module ActionCacheFacts.
Import ActionCache.

(** [put] leaves the paired store as it is. *)
Lemma put_getCAS C Key Result C1 E :
  put C Key Result = (C1, E) -> getCAS C1 = getCAS C.
Proof.
  destruct C as [M|D]; simpl.
  - unfold InMemoryActionCache.putImpl.
    destruct (trie_insertLazy _ _ _) as [T1 Observed].
    case_decide; intros [= <- <-]; reflexivity.
  - unfold OnDiskActionCache.putImpl.
    destruct (trie_insertLazy _ _ _) as [T1 Observed].
    case_decide; intros [= <- <-]; reflexivity.
Qed.

(** The three cases of [put], by what the key holds. *)
Lemma put_vacant C Key Result :
  entry C Key = None ->
  exists C1, put C Key Result = (C1, success) /\
             entry C1 Key = Some (digest C Result) /\
             getCAS C1 = getCAS C.
Proof.
  destruct C as [M|D]; simpl; unfold trie_find.
  - intros HNone. apply fmap_None in HNone.
    rewrite (InMemoryFacts.InMemory_putImpl_vacant _ _ _ HNone).
    eexists; split; [reflexivity|]. simpl. unfold trie_find.
    by rewrite lookup_insert_eq.
  - intros HNone.
    rewrite (OnDiskFacts.OnDisk_putImpl_vacant _ _ _ HNone).
    eexists; split; [reflexivity|]. simpl. unfold trie_find.
    by rewrite lookup_insert_eq.
Qed.

Lemma put_same C Key Result :
  entry C Key = Some (digest C Result) ->
  put C Key Result = (C, success).
Proof.
  destruct C as [M|D]; simpl; unfold trie_find.
  - intros HSome. apply fmap_Some in HSome as (Observed & HSome & HEq).
    by rewrite (InMemoryFacts.InMemory_putImpl_same _ _ _ _ HSome HEq).
  - intros HSome.
    by rewrite (OnDiskFacts.OnDisk_putImpl_same _ _ _ HSome).
Qed.

Lemma put_different C Key Result Stored :
  entry C Key = Some Stored ->
  digest C Result ≠ Stored ->
  put C Key Result =
    (C, failure (createResultCachePoisonedError (hashToString Key) (getCAS C)
                   Result Stored)).
Proof.
  destruct C as [M|D]; simpl; unfold trie_find.
  - intros HSome HNe. apply fmap_Some in HSome as (Observed & HSome & ->).
    by rewrite (InMemoryFacts.InMemory_putImpl_different _ _ _ _ HSome HNe).
  - intros HSome HNe.
    by rewrite (OnDiskFacts.OnDisk_putImpl_different _ _ _ _ HSome HNe).
Qed.

(** A [put] that succeeds leaves the key holding the digest of its value,
    and a [put] that fails leaves the cache as it was. *)
Lemma put_success_entry C Key Result C1 :
  put C Key Result = (C1, success) ->
  entry C1 Key = Some (digest C Result) /\ getCAS C1 = getCAS C.
Proof.
  intros HPut. destruct (entry C Key) as [Stored|] eqn:HEntry.
  - destruct (decide (digest C Result = Stored)) as [<-|HNe].
    + rewrite (put_same _ _ _ HEntry) in HPut. by injection HPut as <-.
    + rewrite (put_different _ _ _ _ HEntry HNe) in HPut. discriminate.
  - destruct (put_vacant _ _ Result HEntry) as (C2 & HPut2 & HE & HC).
    rewrite HPut2 in HPut. by injection HPut as <-.
Qed.

Lemma put_failure_unchanged C Key Result C1 E :
  put C Key Result = (C1, failure E) ->
  C1 = C /\ exists Stored, entry C Key = Some Stored /\
                           digest C Result ≠ Stored.
Proof.
  intros HPut. destruct (entry C Key) as [Stored|] eqn:HEntry.
  - destruct (decide (digest C Result = Stored)) as [<-|HNe].
    + rewrite (put_same _ _ _ HEntry) in HPut. discriminate.
    + rewrite (put_different _ _ _ _ HEntry HNe) in HPut.
      injection HPut as <- _. eauto.
  - destruct (put_vacant _ _ Result HEntry) as (C2 & HPut2 & _).
    rewrite HPut2 in HPut. discriminate.
Qed.

End ActionCacheFacts.

(** ** Claims about the action caches *)

(** C7.  For every key with no entry in the action cache, [get] returns
    [Ok None]: absence is a value, not an error.  [C] ranges over both
    backends, the in-memory one and the on-disk one. *)
Theorem get_absent_is_Ok_None (C : ActionCache.t) (Key : Hash) :
  ActionCache.entry C Key = None ->
  ActionCache.get C Key = Ok None.
Proof.
  destruct C as [M|D]; simpl; unfold trie_find.
  - intros HNone. apply fmap_None in HNone.
    unfold InMemoryActionCache.getImpl, trie_find. by rewrite HNone.
  - intros HNone.
    unfold OnDiskActionCache.getImpl, trie_find. by rewrite HNone.
Qed.

Lemma get_absent_is_Ok_None_witness :
  ActionCache.entry (ActionCache.OnDisk Examples.EmptyOnDisk) Examples.Key1
    = None /\
  ActionCache.get (ActionCache.OnDisk Examples.EmptyOnDisk) Examples.Key1
    = Ok None.
Proof.
  split; [reflexivity|].
  apply (get_absent_is_Ok_None (ActionCache.OnDisk Examples.EmptyOnDisk)
           Examples.Key1).
  reflexivity.
Defined.

(** C2.  Insert-or-verify, for both backends.  On a key with no entry,
    [put Key V1] succeeds and stores the digest of [V1].  A later
    [put Key V2] succeeds when [V2] has the digest of [V1]; when the digests
    differ it fails with the poisoning error, whose text names the new value
    by its printed identifier and the existing value by the printed
    identifier of the object that its digest resolves to, or by the digest in
    hexadecimal when the store does not resolve it. *)
Theorem put_insert_or_verify (C : ActionCache.t) (Key : Hash)
    (V1 V2 : ObjectRef) :
  ActionCache.entry C Key = None ->
  exists C1,
    ActionCache.put C Key V1 = (C1, success) /\
    ActionCache.entry C1 Key = Some (ActionCache.digest C V1) /\
    (ActionCache.digest C V2 = ActionCache.digest C V1 ->
     ActionCache.put C1 Key V2 = (C1, success)) /\
    (ActionCache.digest C V2 ≠ ActionCache.digest C V1 ->
     ActionCache.put C1 Key V2 =
       (C1, failure (StringError invalid_argument
          ("cache poisoned for '" +:+ hashToString Key +:+ "' (new='" +:+
           toString (getID (ActionCache.getCAS C) V2) +:+
           "' vs. existing '" +:+
           match getReference (ActionCache.getCAS C)
                   (ActionCache.digest C V1) with
           | Some R => toString (getID (ActionCache.getCAS C) R)
           | None => hashToString (ActionCache.digest C V1)
           end +:+ "')")))).
Proof.
  intros HNone.
  destruct (ActionCacheFacts.put_vacant C Key V1 HNone)
    as (C1 & HPut & HEntry & HCAS).
  exists C1. split; [exact HPut|]. split; [exact HEntry|].
  assert (HDigest : forall V, ActionCache.digest C1 V = ActionCache.digest C V).
  { intros V. unfold ActionCache.digest. by rewrite HCAS. }
  split.
  - intros HEq. apply ActionCacheFacts.put_same.
    by rewrite HEntry, HDigest, HEq.
  - intros HNe.
    rewrite (ActionCacheFacts.put_different C1 Key V2 _ HEntry)
      by (by rewrite HDigest).
    unfold createResultCachePoisonedError, createStringError.
    by rewrite HCAS.
Qed.

Lemma put_insert_or_verify_witness :
  ActionCache.entry (ActionCache.InMemory
                       (InMemoryActionCache.create Examples.CAS12))
    Examples.Key1 = None /\
  exists C1,
    ActionCache.put (ActionCache.InMemory
                       (InMemoryActionCache.create Examples.CAS12))
      Examples.Key1 Examples.Ref1 = (C1, success) /\
    ActionCache.put C1 Examples.Key1 Examples.Ref2 =
      (C1, failure (StringError invalid_argument
         "cache poisoned for '01fe' (new='llvmcas://22bb' vs. existing 'llvmcas://11aa')")).
Proof.
  split; [reflexivity|].
  destruct (put_insert_or_verify
              (ActionCache.InMemory (InMemoryActionCache.create Examples.CAS12))
              Examples.Key1 Examples.Ref1 Examples.Ref2 eq_refl)
    as (C1 & HPut & _ & _ & HPoison).
  exists C1. split; [exact HPut|].
  apply HPoison. vm_compute. discriminate.
Defined.

(** C3.  For both backends: when the value [V] is an object of the paired
    store (its digest resolves to [V] there), a [put Key V] that succeeds
    followed by [get Key] returns [Some V]. *)
Theorem put_then_get (C C1 : ActionCache.t) (Key : Hash) (V : ObjectRef) :
  getReference (ActionCache.getCAS C) (ActionCache.digest C V) = Some V ->
  ActionCache.put C Key V = (C1, success) ->
  ActionCache.get C1 Key = Ok (Some V).
Proof.
  intros HPresent HPut.
  destruct (ActionCacheFacts.put_success_entry _ _ _ _ HPut)
    as [HEntry HCAS].
  rewrite <- HCAS in HPresent. clear HPut HCAS.
  destruct C1 as [M|D]; simpl in *; unfold trie_find in *.
  - apply fmap_Some in HEntry as (Observed & HSome & HEq).
    unfold InMemoryActionCache.getImpl, trie_find.
    rewrite HSome, <- HEq. by rewrite HPresent.
  - unfold OnDiskActionCache.getImpl, trie_find.
    rewrite HEntry. simpl. by rewrite HPresent.
Qed.

Lemma put_then_get_witness :
  exists C1,
    ActionCache.put (ActionCache.OnDisk Examples.EmptyOnDisk)
      Examples.Key1 Examples.Ref2 = (C1, success) /\
    ActionCache.get C1 Examples.Key1 = Ok (Some Examples.Ref2).
Proof.
  eexists. split; [reflexivity|].
  apply (put_then_get (ActionCache.OnDisk Examples.EmptyOnDisk) _
           Examples.Key1 Examples.Ref2); reflexivity.
Defined.

(** C4.  For both backends: a [put] that fails leaves the entry as it was.
    After [put Key V1] succeeded and [put Key V2] failed, the cache is the
    one before the failed call, the key still holds the digest of [V1], and
    [put Key V1] succeeds again. *)
Theorem poisoned_put_keeps_entry (C C1 C2 : ActionCache.t) (Key : Hash)
    (V1 V2 : ObjectRef) (E : ErrorInfo) :
  ActionCache.put C Key V1 = (C1, success) ->
  ActionCache.put C1 Key V2 = (C2, failure E) ->
  C2 = C1 /\
  ActionCache.entry C2 Key = Some (ActionCache.digest C V1) /\
  ActionCache.put C2 Key V1 = (C2, success).
Proof.
  intros HPut1 HPut2.
  destruct (ActionCacheFacts.put_success_entry _ _ _ _ HPut1)
    as [HEntry HCAS].
  destruct (ActionCacheFacts.put_failure_unchanged _ _ _ _ _ HPut2)
    as [-> _].
  split; [reflexivity|]. split; [exact HEntry|].
  apply ActionCacheFacts.put_same.
  unfold ActionCache.digest in *. by rewrite HCAS.
Qed.

Lemma poisoned_put_keeps_entry_witness :
  exists C1 E,
    ActionCache.put (ActionCache.InMemory
                       (InMemoryActionCache.create Examples.CAS12))
      Examples.Key1 Examples.Ref1 = (C1, success) /\
    ActionCache.put C1 Examples.Key1 Examples.Ref2 = (C1, failure E) /\
    ActionCache.put C1 Examples.Key1 Examples.Ref1 = (C1, success).
Proof.
  eexists. eexists.
  assert (H1 : ActionCache.put (ActionCache.InMemory
                       (InMemoryActionCache.create Examples.CAS12))
      Examples.Key1 Examples.Ref1 =
      (ActionCache.InMemory {|
         InMemoryActionCache.CAS := Examples.CAS12;
         InMemoryActionCache.Cache :=
           <[Examples.Key1 := mkCacheEntry Examples.Digest1]> ∅ |}, success))
    by reflexivity.
  split; [exact H1|].
  pose proof (poisoned_put_keeps_entry _ _ _ Examples.Key1 Examples.Ref1
                Examples.Ref2 _ H1 eq_refl) as (_ & _ & H3).
  split; [reflexivity | exact H3].
Defined.

(** C1, in-memory backend, at a dangling entry.  The cache maps [Key1] to
    [Digest2], and the paired store resolves no object for [Digest2]; [get]
    returns [Ok None] and no error.  The on-disk backend returns the
    unknown-object error on the same entry. *)
Theorem InMemory_get_dangling_is_Ok_None :
  ActionCache.entry (ActionCache.InMemory Examples.DanglingInMemory)
    Examples.Key1 = Some Examples.Digest2 /\
  getReference Examples.CAS1 Examples.Digest2 = None /\
  ActionCache.get (ActionCache.InMemory Examples.DanglingInMemory)
    Examples.Key1 = Ok None /\
  ActionCache.get (ActionCache.OnDisk Examples.DanglingOnDisk)
    Examples.Key1 =
    Err (StringError no_such_device_or_address
      "the result object for key '01fe' does not exist in CAS: '22bb'").
Proof. repeat split; reflexivity. Qed.

(** For every in-memory cache: an entry whose digest the store does not
    resolve makes [getImpl] return [Ok None]. *)
Lemma InMemory_getImpl_dangling (C : InMemoryActionCache.t) (Key : Hash)
    (Stored : CacheEntry) :
  InMemoryActionCache.Cache C !! Key = Some Stored ->
  getReference (InMemoryActionCache.CAS C) (getValue Stored) = None ->
  InMemoryActionCache.getImpl C Key = Ok None.
Proof.
  intros HSome HNone. unfold InMemoryActionCache.getImpl, trie_find.
  by rewrite HSome, HNone.
Qed.

(** ** The table file of the on-disk action cache *)

(** The constants of [create], computed: the file name, the table name,
    the key width, the payload size and the bounds of the file size. *)
Lemma OnDisk_create_constants (FS : OnDiskActionCache.Storage) (CAS : CASDB)
    (AbsPath : string) :
  OnDiskActionCache.create FS CAS AbsPath =
    match OnDiskActionCache.create_directories FS AbsPath with
    | Some EC => Err (FileError AbsPath EC)
    | None =>
        match OnDiskActionCache.OnDiskHashMappedTrie_create FS
                (AbsPath +:+ "/v1.actions") "llvm.actioncache[BLAKE3->BLAKE3]"
                256 32 1073741824 1048576 with
        | Err E => Err E
        | Ok T =>
            Ok {| OnDiskActionCache.CAS := CAS;
                  OnDiskActionCache.Path := AbsPath;
                  OnDiskActionCache.Cache := T |}
        end
    end.
Proof. reflexivity. Qed.

(** When the directories can be made and the table layer opens the table,
    [create] gives the cache over that table. *)
Lemma OnDisk_create_succeeds (FS : OnDiskActionCache.Storage) (CAS : CASDB)
    (AbsPath : string) (T : OnDiskHashMappedTrie) :
  OnDiskActionCache.create_directories FS AbsPath = None ->
  OnDiskActionCache.OnDiskHashMappedTrie_create FS
    (AbsPath +:+ "/v1.actions") "llvm.actioncache[BLAKE3->BLAKE3]"
    256 32 1073741824 1048576 = Ok T ->
  OnDiskActionCache.create FS CAS AbsPath =
    Ok {| OnDiskActionCache.CAS := CAS; OnDiskActionCache.Path := AbsPath;
          OnDiskActionCache.Cache := T |}.
Proof.
  intros HDirs HTrie. rewrite OnDisk_create_constants.
  by rewrite HDirs, HTrie.
Qed.

(** C8.  A cache that [create] returns for the root [AbsPath] is over the
    table that the table layer opened for the file [AbsPath/v1.actions] under
    the table name [llvm.actioncache[BLAKE3->BLAKE3]], with keys of 256 bits
    and payloads of 32 bytes, in a file of 1 MiB to 1 GiB. *)
Theorem OnDisk_create_table (FS : OnDiskActionCache.Storage) (CAS : CASDB)
    (AbsPath : string) (C : OnDiskActionCache.t) :
  OnDiskActionCache.create FS CAS AbsPath = Ok C ->
  OnDiskActionCache.Path C = AbsPath /\
  OnDiskActionCache.OnDiskHashMappedTrie_create FS
    (AbsPath +:+ "/v1.actions") "llvm.actioncache[BLAKE3->BLAKE3]"
    256 32 1073741824 1048576 = Ok (OnDiskActionCache.Cache C).
Proof.
  rewrite OnDisk_create_constants.
  destruct (OnDiskActionCache.create_directories FS AbsPath) as [EC|];
    [discriminate|].
  destruct (OnDiskActionCache.OnDiskHashMappedTrie_create _ _ _ _ _ _ _)
    as [T|E]; [|discriminate].
  intros [= <-]. split; reflexivity.
Qed.

Lemma OnDisk_create_table_witness :
  exists C,
    OnDiskActionCache.create OnDiskActionCache.fresh_storage Examples.CAS12
      "/cache" = Ok C /\
    TriePath (OnDiskActionCache.Cache C) = "/cache/v1.actions" /\
    TableName (OnDiskActionCache.Cache C)
      = "llvm.actioncache[BLAKE3->BLAKE3]".
Proof.
  eexists. split; [reflexivity|].
  destruct (OnDisk_create_table OnDiskActionCache.fresh_storage
              Examples.CAS12 "/cache" _ eq_refl) as [_ HTrie].
  split; reflexivity.
Defined.

(** ** The format of the dependency-scanning service *)

(** C5 as stated fails.  With [CLANG_CACHE_USE_INCLUDE_TREE] set, options
    that have no store and no action cache give [Full], and options
    configured for [Make] give [Make]; neither gives [FullIncludeTree]. *)
Lemma getFormat_environment_alone_fails :
  DependencyScannerServiceOptions.GetEnv FormatExamples.EnvIncludeTree
    "CLANG_CACHE_USE_INCLUDE_TREE" = Some "1" /\
  DependencyScannerServiceOptions.getFormat FormatExamples.EnvIncludeTree
    (@DependencyScannerServiceOptions.default unit unit)
    = DependencyScannerServiceOptions.Full /\
  DependencyScannerServiceOptions.getFormat FormatExamples.EnvIncludeTree
    FormatExamples.FlatWithDatabases
    = DependencyScannerServiceOptions.Make /\
  DependencyScannerServiceOptions.getFormat FormatExamples.EnvIncludeTree
    (@DependencyScannerServiceOptions.default unit unit)
    ≠ DependencyScannerServiceOptions.FullIncludeTree.
Proof. repeat split; try reflexivity. discriminate. Qed.

(** C5, amended.  When the configured format is [Full] and both a store and
    an action cache are set, the environment selects the format:
    [FullIncludeTree] if [CLANG_CACHE_USE_INCLUDE_TREE] is set, otherwise
    [FullTree] if [CLANG_CACHE_USE_CASFS_DEPSCAN] is set, otherwise [Full].
    When the configured format is not [Full], or the store or the action
    cache is missing, the format is the configured one whatever the
    environment holds. *)
Theorem getFormat_selection {ObjectStoreT ActionCacheT : Type}
    (Env : DependencyScannerServiceOptions.Environment)
    (Opts : DependencyScannerServiceOptions.t ObjectStoreT ActionCacheT) :
  (DependencyScannerServiceOptions.ConfiguredFormat Opts
     = DependencyScannerServiceOptions.Full ->
   is_Some (DependencyScannerServiceOptions.CAS Opts) ->
   is_Some (DependencyScannerServiceOptions.Cache Opts) ->
   (is_Some (Env !! "CLANG_CACHE_USE_INCLUDE_TREE") ->
    DependencyScannerServiceOptions.getFormat Env Opts
      = DependencyScannerServiceOptions.FullIncludeTree) /\
   (Env !! "CLANG_CACHE_USE_INCLUDE_TREE" = None ->
    is_Some (Env !! "CLANG_CACHE_USE_CASFS_DEPSCAN") ->
    DependencyScannerServiceOptions.getFormat Env Opts
      = DependencyScannerServiceOptions.FullTree) /\
   (Env !! "CLANG_CACHE_USE_INCLUDE_TREE" = None ->
    Env !! "CLANG_CACHE_USE_CASFS_DEPSCAN" = None ->
    DependencyScannerServiceOptions.getFormat Env Opts
      = DependencyScannerServiceOptions.Full)) /\
  (DependencyScannerServiceOptions.ConfiguredFormat Opts
     ≠ DependencyScannerServiceOptions.Full \/
   DependencyScannerServiceOptions.CAS Opts = None \/
   DependencyScannerServiceOptions.Cache Opts = None ->
   DependencyScannerServiceOptions.getFormat Env Opts
     = DependencyScannerServiceOptions.ConfiguredFormat Opts).
Proof.
  unfold DependencyScannerServiceOptions.getFormat,
    DependencyScannerServiceOptions.GetEnv.
  split.
  - intros HFull [S HCAS] [A HCache].
    rewrite decide_False by (intros HNe; by apply HNe).
    rewrite decide_False by (rewrite HCAS, HCache; intros [?|?]; discriminate).
    repeat split.
    + intros [v ->]. reflexivity.
    + intros -> [v ->]. reflexivity.
    + intros -> ->. exact HFull.
  - intros HGuard. case_decide as HFmt; [reflexivity|].
    case_decide as HDb; [reflexivity|].
    exfalso. destruct HGuard as [HNe|HNone]; [by apply HNe | by apply HDb].
Qed.

Lemma getFormat_selection_witness :
  DependencyScannerServiceOptions.getFormat FormatExamples.EnvIncludeTree
    FormatExamples.WithDatabases
    = DependencyScannerServiceOptions.FullIncludeTree /\
  DependencyScannerServiceOptions.getFormat FormatExamples.EnvCASFS
    FormatExamples.WithDatabases
    = DependencyScannerServiceOptions.FullTree /\
  DependencyScannerServiceOptions.getFormat ∅ FormatExamples.WithDatabases
    = DependencyScannerServiceOptions.Full /\
  DependencyScannerServiceOptions.getFormat FormatExamples.EnvIncludeTree
    FormatExamples.FlatWithDatabases
    = DependencyScannerServiceOptions.Make.
Proof.
  pose proof (fun Env =>
    proj1 (getFormat_selection Env FormatExamples.WithDatabases)
      eq_refl (mk_is_Some _ _ eq_refl) (mk_is_Some _ _ eq_refl)) as HSel.
  split; [|split; [|split]].
  - apply (proj1 (HSel FormatExamples.EnvIncludeTree)).
    exact (mk_is_Some _ _ eq_refl).
  - apply (proj1 (proj2 (HSel FormatExamples.EnvCASFS)));
      [reflexivity | exact (mk_is_Some _ _ eq_refl)].
  - apply (proj2 (proj2 (HSel ∅))); reflexivity.
  - apply (proj2 (getFormat_selection FormatExamples.EnvIncludeTree
                    FormatExamples.FlatWithDatabases)).
    left. discriminate.
Defined.

(** ** Loading a plugin *)

Module PluginFacts.
Import PluginCASContext.

(** The symbol loop stops at the first required function that the library
    does not export, with the error that names it. *)
Lemma lookupFunctions_missing Lib PluginPath Table :
  (exists name, (name, true) ∈ Table /\
                getAddressOfSymbol Lib ("llcas_" +:+ name) = None) ->
  forall Functions, exists name,
    (name, true) ∈ Table /\
    getAddressOfSymbol Lib ("llcas_" +:+ name) = None /\
    lookupFunctions Lib PluginPath Table Functions =
      Err (reportError PluginPath
             ("failed symbol 'llcas_" +:+ name +:+ "' lookup")).
Proof.
  induction Table as [|[name required] Rest IH]; intros (missing & HIn & HNone).
  - by apply elem_of_nil in HIn.
  - intros Functions. simpl.
    destruct (getAddressOfSymbol Lib ("llcas_" +:+ name)) as [Addr|] eqn:HSym.
    + apply elem_of_cons in HIn as [[= -> ->]|HIn]; [congruence|].
      destruct (IH (ex_intro _ missing (conj HIn HNone))
                  (<[name := Addr]> Functions)) as (n & HnIn & HnNone & HRun).
      exists n. split; [by apply list_elem_of_further|]. by split.
    + destruct required.
      * exists name. split; [by apply list_elem_of_here|]. by split.
      * apply elem_of_cons in HIn as [HEq|HIn]; [discriminate HEq|].
        destruct (IH (ex_intro _ missing (conj HIn HNone)) Functions)
          as (n & HnIn & HnNone & HRun).
        exists n. split; [by apply list_elem_of_further|]. by split.
Qed.

(** When every required function is exported, the symbol loop succeeds. *)
Lemma lookupFunctions_resolved Lib PluginPath Table :
  (forall name, (name, true) ∈ Table ->
                is_Some (getAddressOfSymbol Lib ("llcas_" +:+ name))) ->
  forall Functions, exists Functions1,
    lookupFunctions Lib PluginPath Table Functions = Ok Functions1.
Proof.
  induction Table as [|[name required] Rest IH]; intros HAll Functions.
  - by eexists.
  - simpl.
    destruct (getAddressOfSymbol Lib ("llcas_" +:+ name)) as [Addr|] eqn:HSym.
    + apply IH. intros n Hn. apply HAll. by apply list_elem_of_further.
    + destruct required.
      * destruct (HAll name (list_elem_of_here _ _)) as [Addr HAddr].
        congruence.
      * apply IH. intros n Hn. apply HAll. by apply list_elem_of_further.
Qed.

End PluginFacts.

(** C9.  When the library at [PluginPath] is loaded and some function that
    the table marks as required has no symbol in it, [create] returns an
    error, not a context: the error names a required function whose symbol
    is missing, [error loading '<path>': failed symbol 'llcas_<name>'
    lookup], and [createPluginCASDatabases] returns the same error. *)
Theorem create_fails_on_missing_required_symbol
    (API : PluginCASContext.PluginAPI)
    (getPermanentLibrary : PluginCASContext.Loader)
    (Lib : PluginCASContext.DynamicLibrary)
    (PluginPath OnDiskPath : string) (PluginArgs : list (string * string)) :
  getPermanentLibrary PluginPath = inr Lib ->
  (exists name,
     (name, true) ∈ PluginCASContext.functions_def API /\
     PluginCASContext.getAddressOfSymbol Lib ("llcas_" +:+ name) = None) ->
  exists name,
    (name, true) ∈ PluginCASContext.functions_def API /\
    PluginCASContext.getAddressOfSymbol Lib ("llcas_" +:+ name) = None /\
    PluginCASContext.create API getPermanentLibrary PluginPath OnDiskPath
      PluginArgs =
      Err (StringError inconvertibleErrorCode
             ("error loading '" +:+ PluginPath +:+
              "': failed symbol 'llcas_" +:+ name +:+ "' lookup")) /\
    PluginCASContext.createPluginCASDatabases API getPermanentLibrary
      PluginPath OnDiskPath PluginArgs =
      Err (StringError inconvertibleErrorCode
             ("error loading '" +:+ PluginPath +:+
              "': failed symbol 'llcas_" +:+ name +:+ "' lookup")).
Proof.
  intros HLib HMissing.
  destruct (PluginFacts.lookupFunctions_missing Lib PluginPath _ HMissing ∅)
    as (name & HIn & HNone & HRun).
  exists name. split; [exact HIn|]. split; [exact HNone|].
  assert (HCreate : PluginCASContext.create API getPermanentLibrary
                      PluginPath OnDiskPath PluginArgs =
                    Err (PluginCASContext.reportError PluginPath
                           ("failed symbol 'llcas_" +:+ name +:+ "' lookup"))).
  { unfold PluginCASContext.create. by rewrite HLib, HRun. }
  split; [exact HCreate|].
  unfold PluginCASContext.createPluginCASDatabases. by rewrite HCreate.
Qed.

Lemma create_fails_on_missing_required_symbol_witness :
  PluginCASContext.create PluginExamples.API
    PluginExamples.getPermanentLibrary "/lib/plugin.so" "/cas" [] =
    Err (StringError inconvertibleErrorCode
      "error loading '/lib/plugin.so': failed symbol 'llcas_cas_create' lookup").
Proof.
  destruct (create_fails_on_missing_required_symbol PluginExamples.API
              PluginExamples.getPermanentLibrary PluginExamples.Lib
              "/lib/plugin.so" "/cas" [] eq_refl)
    as (name & _ & _ & HCreate & _).
  - exists "cas_create". split; [|reflexivity].
    apply list_elem_of_further, list_elem_of_here.
  - reflexivity.
Defined.

(** ** The store in memory obeys the laws *)

Module InMemoryCASFacts.
Import InMemoryCAS.

Lemma store_load Refs Data (s s1 : t) Ref :
  store Refs Data s = (s1, Ref) ->
  loadObject s1 Ref =
    Some {| getRef := Ref; getReferences := Refs; getData := Data |}.
Proof.
  unfold store, loadObject.
  destruct (list_find _ (Objects s)) as [[i O]|] eqn:HFind;
    intros [= <- <-]; simpl.
  - apply list_find_Some in HFind as (HLookup & -> & _).
    by rewrite Nat2N.id, HLookup.
  - rewrite Nat2N.id.
    by rewrite (lookup_app_r (Objects s)) by lia; rewrite Nat.sub_diag.
Qed.

Lemma store_permanent Refs Data (s s1 : t) Ref0 Ref P :
  store Refs Data s = (s1, Ref0) ->
  loadObject s Ref = Some P -> loadObject s1 Ref = Some P.
Proof.
  unfold store, loadObject.
  destruct (list_find _ (Objects s)) as [[i O]|]; intros [= <- <-]; [done|].
  simpl.
  destruct (Objects s !! N.to_nat (getInternalRef Ref))
    as [[Refs1 Data1]|] eqn:HLookup; [|done].
  by rewrite (lookup_app_l_Some _ _ _ _ HLookup).
Qed.

#[global] Instance object_store_laws : ObjectStoreLaws t.
Proof.
  split.
  - intros Refs Data s s1 P. simpl.
    destruct (store Refs Data s) as [s2 Ref] eqn:HStore.
    intros [= <- <-]. simpl. repeat split.
    by apply (store_load _ _ _ _ _ HStore).
  - intros Refs Data s s1 R Ref P. simpl.
    destruct (store Refs Data s) as [s2 Ref0] eqn:HStore.
    intros [= <- <-]. by apply (store_permanent _ _ _ _ _ _ _ HStore).
Qed.

End InMemoryCASFacts.

(** ** The capturing output backend *)

(** What [tryRemapPath] returns: the path itself when no kind map has it,
    and the kind of the first kind map that has it otherwise. *)
Lemma tryRemapPath_loop_unmapped (Maps : list KindMap) (P : string) :
  (forall M, M ∈ Maps -> Path M ≠ P) ->
  tryRemapPath_loop Maps P = P.
Proof.
  induction Maps as [|M Rest IH]; intros HNone; [reflexivity|]. simpl.
  rewrite decide_False by (apply HNone, list_elem_of_here).
  apply IH. intros M1 HIn. apply HNone. by apply list_elem_of_further.
Qed.

Lemma tryRemapPath_loop_mapped (Pre Post : list KindMap) (M : KindMap)
    (P : string) :
  Path M = P ->
  (forall M1, M1 ∈ Pre -> Path M1 ≠ P) ->
  tryRemapPath_loop (Pre ++ M :: Post)%list P = Kind M.
Proof.
  intros HPath. induction Pre as [|M0 Pre IH]; intros HPre; simpl.
  - by rewrite decide_True.
  - rewrite decide_False by (apply HPre, list_elem_of_here).
    apply IH. intros M1 HIn. apply HPre. by apply list_elem_of_further.
Qed.

Module BackendFacts.
Import CASOutputBackend.
Section Laws.
Context {S : Type} `{ObjectStoreLaws S}.
Implicit Types (B : CASOutputBackend.t S) (s : S).

Lemma extends_refl s : extends s s.
Proof. by intros Ref P. Qed.

Lemma extends_trans s s1 s2 : extends s s1 -> extends s1 s2 -> extends s s2.
Proof. intros H1 H2 Ref P HLoad. by apply H2, H1. Qed.

Lemma createProxy_extends Refs Data s s1 R :
  createProxy Refs Data s = (s1, R) -> extends s s1.
Proof.
  intros HCreate Ref P.
  by apply (createProxy_permanent _ _ _ _ _ _ _ HCreate).
Qed.

Lemma interleaved_extends s s1 Maps Files Rs :
  extends s s1 -> interleaved s Maps Files Rs -> interleaved s1 Maps Files Rs.
Proof.
  intros HExt. induction 1 as [|F Files N Bl Rest HN HND HB HBD _ IH].
  - constructor.
  - constructor; auto.
Qed.

(** [createFileImpl] makes [Impl] and changes nothing else. *)
Lemma createFileImpl_unchanged ResolvedPath B B1 R :
  createFileImpl ResolvedPath B = (B1, R) ->
  R = Ok {| FilePath := ResolvedPath; Bytes := EmptyString |} /\
  is_Some (Impl B1) /\ CAS B1 = CAS B /\
  accumulated B1 = accumulated B /\ registered B1 = registered B.
Proof.
  unfold createFileImpl. intros [= <- <-].
  split; [reflexivity|]. split; [by eexists|]. by repeat split.
Qed.

(** One kept file adds the references of its name object and of its bytes
    object, in this order, behind the accumulated ones. *)
Lemma keep_success F B B1 :
  keep F B = (B1, success) ->
  exists NameBlob BytesBlob,
    accumulated B1 =
      (accumulated B ++ [getRef NameBlob; getRef BytesBlob])%list /\
    registered B1 = registered B /\
    extends (CAS B) (CAS B1) /\
    load (CAS B1) (getRef NameBlob) = Some NameBlob /\
    getData NameBlob = tryRemapPath_loop (registered B) (FilePath F) /\
    load (CAS B1) (getRef BytesBlob) = Some BytesBlob /\
    getData BytesBlob = Bytes F.
Proof.
  unfold keep, OnKeep, accumulated, registered, ensureImpl.
  destruct (Impl B) as [Im|]; [|intros HEq; simplify_eq].
  unfold tryRemapPath.
  destruct (createProxy [] _ (CAS B)) as [s1 [NameBlob|E1]] eqn:HName;
    [|intros HEq; simplify_eq].
  destruct (createProxy [] (Bytes F) s1) as [s2 [BytesBlob|E2]] eqn:HBytes;
    [|intros HEq; simplify_eq].
  intros [= <-]. exists NameBlob, BytesBlob. simpl.
  destruct (createProxy_round_trip _ _ _ _ _ HName) as (_ & HND & HNL).
  destruct (createProxy_round_trip _ _ _ _ _ HBytes) as (_ & HBD & HBL).
  pose proof (createProxy_extends _ _ _ _ _ HName) as HE1.
  pose proof (createProxy_extends _ _ _ _ _ HBytes) as HE2.
  split; [by rewrite <- app_assoc|]. split; [reflexivity|].
  split; [by eapply extends_trans|].
  split; [by apply HE2|]. split; [exact HND|]. by split.
Qed.

(** A file is kept only on a backend that has [Impl], which a call of
    [createFileImpl] leaves behind. *)
Lemma keep_success_Impl F B B1 :
  keep F B = (B1, success) -> is_Some (Impl B).
Proof.
  unfold keep, OnKeep. destruct (Impl B) as [Im|]; [by eexists|].
  intros HEq; simplify_eq.
Qed.

Lemma run_success Calls : forall B B1,
  run Calls B = (B1, success) ->
  exists New,
    accumulated B1 = (accumulated B ++ New)%list /\
    registered B1 = registered B /\
    extends (CAS B) (CAS B1) /\
    interleaved (CAS B1) (registered B) (kept Calls) New.
Proof.
  induction Calls as [|C Rest IH]; intros B B1; simpl.
  - intros [= <-]. exists []. rewrite app_nil_r.
    repeat split; [apply extends_refl | constructor].
  - destruct (call C B) as [B0 [|E]] eqn:HCall; [|intros HEq; simplify_eq].
    intros HRest.
    destruct (IH _ _ HRest) as (New & HAcc1 & HReg1 & HExt1 & HInter).
    destruct C as [ResolvedPath|F|F]; simpl in HCall.
    + injection HCall as <-. exists New. by repeat split.
    + destruct (keep_success _ _ _ HCall)
        as (N & Bl & HAcc & HReg & HExt & HNL & HND & HBL & HBD).
      exists (getRef N :: getRef Bl :: New).
      split; [by rewrite HAcc1, HAcc, <- app_assoc|].
      split; [by rewrite HReg1|].
      split; [by eapply extends_trans|].
      rewrite HReg in HInter. constructor; auto.
    + injection HCall as <-. exists New. by repeat split.
Qed.

(** [getCASProxy] makes one object from the accumulated references and
    leaves none accumulated. *)
Lemma getCASProxy_createProxy B B1 R :
  getCASProxy B = (B1, R) ->
  createProxy (accumulated B) EmptyString (CAS B) = (CAS B1, R) /\
  accumulated B1 = [] /\ registered B1 = registered B.
Proof.
  unfold getCASProxy, accumulated, registered, ensureImpl.
  destruct (Impl B) as [Im|]; simpl;
    destruct (createProxy _ _ (CAS B)) as [s1 R1]; by intros [= <- <-].
Qed.

(** The references of an interleaved list, by position. *)
Lemma interleaved_length s Maps Files Rs :
  interleaved s Maps Files Rs -> length Rs = 2 * length Files.
Proof. induction 1; simpl; lia. Qed.

Lemma interleaved_lookup s Maps Files Rs :
  interleaved s Maps Files Rs ->
  forall i F, Files !! i = Some F ->
  exists NameBlob BytesBlob,
    Rs !! (2 * i) = Some (getRef NameBlob) /\
    Rs !! (2 * i + 1) = Some (getRef BytesBlob) /\
    load s (getRef NameBlob) = Some NameBlob /\
    getData NameBlob = tryRemapPath_loop Maps (FilePath F) /\
    load s (getRef BytesBlob) = Some BytesBlob /\
    getData BytesBlob = Bytes F.
Proof.
  induction 1 as [|F0 Files N Bl Rest HN HND HB HBD _ IH];
    intros i F HLookup.
  - by rewrite lookup_nil in HLookup.
  - destruct i as [|i]; simpl in HLookup.
    + injection HLookup as <-. exists N, Bl. by repeat split.
    + destruct (IH _ _ HLookup) as (N1 & B1 & HEven & HOdd & HRest).
      exists N1, B1.
      replace (2 * Datatypes.S i)
        with (Datatypes.S (Datatypes.S (2 * i))) by lia.
      simpl. split; [exact HEven|]. split; [exact HOdd|]. exact HRest.
Qed.

End Laws.
End BackendFacts.

(** C6.  On a backend with no accumulated references, a sequence of calls
    ([createFile], [keep], [discard]) runs with success, and [getCASProxy]
    then returns [Proxy].  The data of [Proxy] is empty and its references
    are twice as many as the kept files; for the kept file at position [i]
    in keep order, the reference at [2i] is to the name object and the
    reference at [2i+1] to the bytes object.  The data of the bytes object is
    the bytes of the file.  The data of the name object is the path of the
    file when no kind map is registered for the path, and the kind of the
    first kind map registered for the path otherwise. *)
Theorem getCASProxy_interleaved {S : Type} {Store : ObjectStore S}
    {Laws : ObjectStoreLaws S}
    (B B1 B2 : CASOutputBackend.t S) (Calls : list CASOutputBackend.Call)
    (Proxy : ObjectProxy) :
  CASOutputBackend.accumulated B = [] ->
  CASOutputBackend.run Calls B = (B1, success) ->
  CASOutputBackend.getCASProxy B1 = (B2, Ok Proxy) ->
  getData Proxy = EmptyString /\
  length (getReferences Proxy)
    = 2 * length (CASOutputBackend.kept Calls) /\
  forall i F, CASOutputBackend.kept Calls !! i = Some F ->
    exists NameBlob BytesBlob,
      getReferences Proxy !! (2 * i) = Some (getRef NameBlob) /\
      getReferences Proxy !! (2 * i + 1) = Some (getRef BytesBlob) /\
      load (CASOutputBackend.CAS B2) (getRef NameBlob) = Some NameBlob /\
      load (CASOutputBackend.CAS B2) (getRef BytesBlob) = Some BytesBlob /\
      getData BytesBlob = Bytes F /\
      ((forall M, M ∈ CASOutputBackend.registered B ->
                  Path M ≠ FilePath F) ->
       getData NameBlob = FilePath F) /\
      (forall Pre M Post,
         CASOutputBackend.registered B = (Pre ++ M :: Post)%list ->
         Path M = FilePath F ->
         (forall M1, M1 ∈ Pre -> Path M1 ≠ FilePath F) ->
         getData NameBlob = Kind M).
Proof.
  intros HEmpty HRun HProxy.
  destruct (BackendFacts.run_success _ _ _ HRun)
    as (New & HAcc & HReg & HExt & HInter).
  rewrite HEmpty in HAcc. simpl in HAcc.
  destruct (BackendFacts.getCASProxy_createProxy _ _ _ HProxy)
    as (HCreate & _ & _).
  rewrite HAcc in HCreate.
  destruct (createProxy_round_trip _ _ _ _ _ HCreate) as (HRefs & HData & _).
  pose proof (BackendFacts.interleaved_extends _ _ _ _ _
                (BackendFacts.createProxy_extends _ _ _ _ _ HCreate) HInter)
    as HInter2.
  split; [exact HData|]. rewrite HRefs.
  split; [by apply (BackendFacts.interleaved_length _ _ _ _ HInter2)|].
  intros i F HLookup.
  destruct (BackendFacts.interleaved_lookup _ _ _ _ HInter2 _ _ HLookup)
    as (NameBlob & BytesBlob & HEven & HOdd & HNL & HND & HBL & HBD).
  exists NameBlob, BytesBlob.
  split; [exact HEven|]. split; [exact HOdd|]. split; [exact HNL|].
  split; [exact HBL|]. split; [exact HBD|]. split.
  - intros HNone. rewrite HND. by apply tryRemapPath_loop_unmapped.
  - intros Pre M Post HMaps HPath HPre. rewrite HND, HMaps.
    by apply tryRemapPath_loop_mapped.
Qed.

Lemma getCASProxy_interleaved_witness :
  CASOutputBackend.run BackendExamples.Calls BackendExamples.Backend
    = (BackendExamples.Kept, success) /\
  CASOutputBackend.getCASProxy BackendExamples.Kept
    = (BackendExamples.Drained, Ok BackendExamples.Outputs) /\
  CASOutputBackend.kept BackendExamples.Calls
    = [BackendExamples.ObjectFile; BackendExamples.DepFile] /\
  (getData <$> load (CASOutputBackend.CAS BackendExamples.Drained)
                 (getFromInternalRef 0)) = Some "<output>" /\
  (getData <$> load (CASOutputBackend.CAS BackendExamples.Drained)
                 (getFromInternalRef 1)) = Some "OBJ" /\
  (getData <$> load (CASOutputBackend.CAS BackendExamples.Drained)
                 (getFromInternalRef 2)) = Some "/out/a.d" /\
  (getData <$> load (CASOutputBackend.CAS BackendExamples.Drained)
                 (getFromInternalRef 3)) = Some "DEP" /\
  length (getReferences BackendExamples.Outputs)
    = 2 * length (CASOutputBackend.kept BackendExamples.Calls).
Proof.
  split; [reflexivity|]. split; [reflexivity|]. split; [reflexivity|].
  split; [reflexivity|]. split; [reflexivity|].
  split; [reflexivity|]. split; [reflexivity|].
  apply (getCASProxy_interleaved (Store := InMemoryCAS.object_store)
           (Laws := InMemoryCASFacts.object_store_laws)
           BackendExamples.Backend
           BackendExamples.Kept BackendExamples.Drained
           BackendExamples.Calls BackendExamples.Outputs
           eq_refl eq_refl eq_refl).
Defined.

(** C10.  [getCASProxy] drains the accumulated references.  After any call
    the backend has none accumulated, and a second call with nothing kept in
    between returns an object with no references and empty data: the very
    result that a backend which never captured anything gives over the same
    store. *)
Theorem getCASProxy_drains {S : Type} {Store : ObjectStore S}
    {Laws : ObjectStoreLaws S}
    (B B1 B2 : CASOutputBackend.t S) (R1 : Expected ObjectProxy)
    (P2 : ObjectProxy) :
  CASOutputBackend.getCASProxy B = (B1, R1) ->
  CASOutputBackend.getCASProxy B1 = (B2, Ok P2) ->
  CASOutputBackend.accumulated B1 = [] /\
  getReferences P2 = [] /\
  getData P2 = EmptyString /\
  CASOutputBackend.getCASProxy
    (CASOutputBackend.new (CASOutputBackend.CAS B1))
    = (CASOutputBackend.new (CASOutputBackend.CAS B2), Ok P2).
Proof.
  intros HFirst HSecond.
  destruct (BackendFacts.getCASProxy_createProxy _ _ _ HFirst)
    as (_ & HDrained & _).
  destruct (BackendFacts.getCASProxy_createProxy _ _ _ HSecond)
    as (HCreate & _ & _).
  rewrite HDrained in HCreate.
  destruct (createProxy_round_trip _ _ _ _ _ HCreate) as (HRefs & HData & _).
  split; [exact HDrained|]. split; [exact HRefs|]. split; [exact HData|].
  unfold CASOutputBackend.getCASProxy, CASOutputBackend.new. simpl.
  by rewrite HCreate.
Qed.

Lemma getCASProxy_drains_witness :
  CASOutputBackend.getCASProxy BackendExamples.Kept
    = (BackendExamples.Drained, Ok BackendExamples.Outputs) /\
  CASOutputBackend.getCASProxy BackendExamples.Drained
    = (BackendExamples.DrainedAgain, Ok BackendExamples.NoOutputs) /\
  getReferences BackendExamples.NoOutputs = [] /\
  CASOutputBackend.getCASProxy
    (CASOutputBackend.new (CASOutputBackend.CAS BackendExamples.Drained))
    = (CASOutputBackend.new (CASOutputBackend.CAS BackendExamples.DrainedAgain),
       Ok BackendExamples.NoOutputs).
Proof.
  split; [reflexivity|]. split; [reflexivity|].
  pose proof (getCASProxy_drains (Store := InMemoryCAS.object_store)
                (Laws := InMemoryCASFacts.object_store_laws)
                BackendExamples.Kept BackendExamples.Drained
                BackendExamples.DrainedAgain (Ok BackendExamples.Outputs)
                BackendExamples.NoOutputs eq_refl eq_refl)
    as (_ & HRefs & _ & HFresh).
  split; [exact HRefs | exact HFresh].
Defined.

(** * Further properties of the action caches *)

Module ActionCacheMoreFacts.
Import ActionCache.

(** [put] on one key leaves what the other keys hold. *)
Lemma put_other_key C C1 Key Key1 Result E :
  Key1 ≠ Key ->
  put C Key Result = (C1, E) ->
  entry C1 Key1 = entry C Key1.
Proof.
  intros HNe. destruct C as [M|D]; simpl.
  - unfold InMemoryActionCache.putImpl, trie_insertLazy.
    destruct (InMemoryActionCache.Cache M !! Key) as [Observed|] eqn:HKey;
      simpl; case_decide; intros [= <- <-]; simpl; unfold trie_find;
      try reflexivity; by rewrite lookup_insert_ne.
  - unfold OnDiskActionCache.putImpl, trie_insertLazy.
    destruct (Records (OnDiskActionCache.Cache D) !! Key) as [Observed|]
      eqn:HKey; simpl; case_decide; intros [= <- <-]; simpl;
      unfold trie_find; try reflexivity; by rewrite lookup_insert_ne.
Qed.

(** [put] never replaces or removes what a key holds. *)
Lemma put_keeps_entry C C1 Key Key1 Result E Stored :
  entry C Key1 = Some Stored ->
  put C Key Result = (C1, E) ->
  entry C1 Key1 = Some Stored.
Proof.
  intros HStored HPut. destruct (decide (Key1 = Key)) as [->|HNe].
  - destruct (decide (digest C Result = Stored)) as [<-|HDiff].
    + rewrite (ActionCacheFacts.put_same _ _ _ HStored) in HPut.
      by injection HPut as <- _.
    + rewrite (ActionCacheFacts.put_different _ _ _ _ HStored HDiff) in HPut.
      by injection HPut as <- _.
  - by rewrite (put_other_key _ _ _ _ _ _ HNe HPut).
Qed.

End ActionCacheMoreFacts.

(** X1.  [put] on a key changes no other key: whether it succeeds or fails,
    every other key holds after the call what it held before, in both
    backends. *)
Theorem put_leaves_other_keys (C C1 : ActionCache.t) (Key Other : Hash)
    (Result : ObjectRef) (E : Error) :
  Other ≠ Key ->
  ActionCache.put C Key Result = (C1, E) ->
  ActionCache.entry C1 Other = ActionCache.entry C Other.
Proof. apply ActionCacheMoreFacts.put_other_key. Qed.

Lemma put_leaves_other_keys_witness :
  ActionCache.entry
    (fst (ActionCache.put (ActionCache.OnDisk ActionCacheUse.Written)
            [x02] Examples.Ref1)) Examples.Key1
  = Some Examples.Digest2.
Proof.
  rewrite (put_leaves_other_keys (ActionCache.OnDisk ActionCacheUse.Written)
             _ [x02] Examples.Key1 Examples.Ref1 success);
    [reflexivity | discriminate | reflexivity].
Defined.

(** X2.  Entries are written once.  When a key holds a digest, it holds the
    same digest after any sequence of [put] calls, on any keys and with any
    values, whatever each call returned; in both backends. *)
Theorem entry_survives_puts (Bindings : list (Hash * ObjectRef))
    (C : ActionCache.t) (Key : Hash) (Stored : Hash) :
  ActionCache.entry C Key = Some Stored ->
  ActionCache.entry (ActionCacheUse.puts Bindings C) Key = Some Stored.
Proof.
  revert C. induction Bindings as [|[K V] Rest IH]; intros C HStored; simpl.
  - exact HStored.
  - apply IH. destruct (ActionCache.put C K V) as [C1 E] eqn:HPut. simpl.
    by apply (ActionCacheMoreFacts.put_keeps_entry _ _ _ _ _ _ _ HStored HPut).
Qed.

Lemma entry_survives_puts_witness :
  ActionCache.entry
    (ActionCacheUse.puts
       [(Examples.Key1, Examples.Ref1); ([x02], Examples.Ref1);
        (Examples.Key1, Examples.Ref2)]
       (ActionCache.OnDisk ActionCacheUse.Written)) Examples.Key1
  = Some Examples.Digest2.
Proof.
  apply (entry_survives_puts _ (ActionCache.OnDisk ActionCacheUse.Written)).
  reflexivity.
Defined.

(** X3.  The on-disk [getImpl] fails exactly on a dangling entry: it returns
    an error if and only if the key holds a digest that the paired store does
    not resolve, and the error is the unknown-object error with the key and
    the digest in hexadecimal. *)
Theorem OnDisk_get_fails_iff_dangling (C : OnDiskActionCache.t) (Key : Hash)
    (E : ErrorInfo) :
  OnDiskActionCache.getImpl C Key = Err E <->
  exists Stored,
    Records (OnDiskActionCache.Cache C) !! Key = Some Stored /\
    getReference (OnDiskActionCache.CAS C) Stored = None /\
    E = StringError no_such_device_or_address
          ("the result object for key '" +:+ hashToString Key +:+
           "' does not exist in CAS: '" +:+ hashToString Stored +:+ "'").
Proof.
  unfold OnDiskActionCache.getImpl, trie_find. split.
  - destruct (Records (OnDiskActionCache.Cache C) !! Key) as [Stored|];
      [|discriminate]. simpl.
    destruct (getReference (OnDiskActionCache.CAS C) Stored) as [Out|] eqn:HRef;
      [discriminate|].
    intros [= <-]. exists Stored. by repeat split.
  - intros (Stored & -> & HRef & ->). simpl. by rewrite HRef.
Qed.

(** X4.  [put] fails exactly on a key that holds another digest: it returns
    an error if and only if the key holds a digest different from the digest
    of the value; the cache is then unchanged and the error is the poisoning
    error for the new value and the stored digest.  In both backends. *)
Theorem put_fails_iff_other_digest (C C1 : ActionCache.t) (Key : Hash)
    (Result : ObjectRef) (E : ErrorInfo) :
  ActionCache.put C Key Result = (C1, failure E) <->
  C1 = C /\
  exists Stored,
    ActionCache.entry C Key = Some Stored /\
    ActionCache.digest C Result ≠ Stored /\
    E = createResultCachePoisonedError (hashToString Key)
          (ActionCache.getCAS C) Result Stored.
Proof.
  split.
  - intros HPut.
    destruct (ActionCacheFacts.put_failure_unchanged _ _ _ _ _ HPut)
      as (-> & Stored & HStored & HDiff).
    split; [reflexivity|]. exists Stored. split; [exact HStored|].
    split; [exact HDiff|].
    rewrite (ActionCacheFacts.put_different _ _ _ _ HStored HDiff) in HPut.
    by injection HPut as <-.
  - intros (-> & Stored & HStored & HDiff & ->).
    by apply ActionCacheFacts.put_different.
Qed.

(** X5.  A hit is what the store resolves: when [get] returns [Some R], the
    key holds a digest and the paired store resolves that digest to [R].  In
    both backends. *)
Theorem get_hit_is_resolved_entry (C : ActionCache.t) (Key : Hash)
    (R : ObjectRef) :
  ActionCache.get C Key = Ok (Some R) ->
  exists Stored,
    ActionCache.entry C Key = Some Stored /\
    getReference (ActionCache.getCAS C) Stored = Some R.
Proof.
  destruct C as [M|D]; simpl; unfold trie_find.
  - unfold InMemoryActionCache.getImpl, trie_find.
    destruct (InMemoryActionCache.Cache M !! Key) as [Observed|];
      [|discriminate].
    intros [= HRef]. exists (getValue Observed). by split.
  - unfold OnDiskActionCache.getImpl, trie_find.
    destruct (Records (OnDiskActionCache.Cache D) !! Key) as [Stored|];
      [|discriminate]. simpl.
    destruct (getReference (OnDiskActionCache.CAS D) Stored) as [Out|] eqn:HRef;
      [|discriminate].
    intros [= <-]. exists Stored. by split.
Qed.

Lemma get_hit_is_resolved_entry_witness :
  exists Stored,
    ActionCache.entry (ActionCache.OnDisk ActionCacheUse.Written)
      Examples.Key1 = Some Stored /\
    getReference Examples.CAS12 Stored = Some Examples.Ref2.
Proof.
  apply (get_hit_is_resolved_entry
           (ActionCache.OnDisk ActionCacheUse.Written) Examples.Key1
           Examples.Ref2).
  reflexivity.
Defined.

(** X6.  A table written over one store and opened over another.  [C1] is
    an on-disk cache in which [put Key V] succeeded.  A second cache is
    created on a storage that opens the same table, over a store [CAS2] that
    does not resolve the digest of [V].  Then [create] succeeds; [getImpl] on
    the key fails with the unknown-object error; and [putImpl] of a value
    with another digest fails with the poisoning error, which names the
    stored value by its digest in hexadecimal. *)
Theorem OnDisk_reopened_over_other_store
    (FS : OnDiskActionCache.Storage) (CAS2 : CASDB) (AbsPath : string)
    (C C1 : OnDiskActionCache.t) (Key : Hash) (V : ObjectRef) :
  OnDiskActionCache.putImpl C Key V = (C1, success) ->
  OnDiskActionCache.create_directories FS AbsPath = None ->
  OnDiskActionCache.OnDiskHashMappedTrie_create FS
    (AbsPath +:+ "/v1.actions") "llvm.actioncache[BLAKE3->BLAKE3]"
    256 32 1073741824 1048576 = Ok (OnDiskActionCache.Cache C1) ->
  getReference CAS2 (getHash (getID (OnDiskActionCache.CAS C) V)) = None ->
  exists C2,
    OnDiskActionCache.create FS CAS2 AbsPath = Ok C2 /\
    OnDiskActionCache.getImpl C2 Key =
      Err (StringError no_such_device_or_address
             ("the result object for key '" +:+ hashToString Key +:+
              "' does not exist in CAS: '" +:+
              hashToString (getHash (getID (OnDiskActionCache.CAS C) V)) +:+
              "'")) /\
    forall V2,
      getHash (getID CAS2 V2) ≠ getHash (getID (OnDiskActionCache.CAS C) V) ->
      OnDiskActionCache.putImpl C2 Key V2 =
        (C2, failure (StringError invalid_argument
           ("cache poisoned for '" +:+ hashToString Key +:+ "' (new='" +:+
            toString (getID CAS2 V2) +:+ "' vs. existing '" +:+
            hashToString (getHash (getID (OnDiskActionCache.CAS C) V)) +:+
            "')"))).
Proof.
  intros HPut HDirs HOpen HNone.
  pose proof (ActionCacheFacts.put_success_entry (ActionCache.OnDisk C) Key V
                (ActionCache.OnDisk C1)) as HEntry.
  simpl in HEntry. rewrite HPut in HEntry.
  destruct (HEntry eq_refl) as [HStored _]. unfold trie_find in HStored.
  unfold ActionCache.digest in HStored. simpl in HStored.
  set (C2 := {| OnDiskActionCache.CAS := CAS2;
                OnDiskActionCache.Path := AbsPath;
                OnDiskActionCache.Cache := OnDiskActionCache.Cache C1 |}).
  exists C2. split; [by apply OnDisk_create_succeeds|]. split.
  - by apply (OnDiskFacts.OnDisk_getImpl_dangling C2).
  - intros V2 HDiff.
    rewrite (OnDiskFacts.OnDisk_putImpl_different C2 Key V2 _ HStored HDiff).
    unfold createResultCachePoisonedError, createStringError. simpl.
    by rewrite HNone.
Qed.

Lemma OnDisk_reopened_over_other_store_witness :
  exists C2,
    OnDiskActionCache.create
      (ActionCacheUse.storage_with
         (OnDiskActionCache.Cache ActionCacheUse.Written))
      Examples.CAS1 "/cache" = Ok C2 /\
    OnDiskActionCache.getImpl C2 Examples.Key1 =
      Err (StringError no_such_device_or_address
        "the result object for key '01fe' does not exist in CAS: '22bb'") /\
    OnDiskActionCache.putImpl C2 Examples.Key1 Examples.Ref1 =
      (C2, failure (StringError invalid_argument
        "cache poisoned for '01fe' (new='llvmcas://11aa' vs. existing '22bb')")).
Proof.
  destruct (OnDisk_reopened_over_other_store
              (ActionCacheUse.storage_with
                 (OnDiskActionCache.Cache ActionCacheUse.Written))
              Examples.CAS1 "/cache" Examples.EmptyOnDisk
              ActionCacheUse.Written Examples.Key1 Examples.Ref2
              eq_refl eq_refl eq_refl eq_refl)
    as (C2 & HCreate & HGet & HPut).
  exists C2. split; [exact HCreate|]. split; [exact HGet|].
  apply (HPut Examples.Ref1). vm_compute. discriminate.
Defined.

(** * Further properties of the capturing output backend *)

Module BackendMoreFacts.
Import CASOutputBackend.
Section Store.
Context {S : Type} `{ObjectStore S}.
Implicit Types (B : CASOutputBackend.t S).

(** [keep] appends two references or none. *)
Lemma keep_accumulated F B :
  (accumulated (fst (keep F B)) = accumulated B \/
   exists R1 R2,
     accumulated (fst (keep F B)) = (accumulated B ++ [R1; R2])%list) /\
  registered (fst (keep F B)) = registered B.
Proof.
  unfold keep, OnKeep, accumulated, registered, ensureImpl.
  destruct (Impl B) as [Im|] eqn:HImpl;
    [|simpl; rewrite HImpl; split; [left|]; reflexivity].
  destruct (createProxy [] _ (CAS B)) as [s1 [NameBlob|E1]];
    [|simpl; split; [left|]; reflexivity].
  destruct (createProxy [] _ s1) as [s2 [BytesBlob|E2]];
    [|simpl; split; [left|]; reflexivity].
  simpl. split; [|reflexivity]. right. eexists _, _.
  by rewrite <- app_assoc.
Qed.

(** [addObject] appends two references or none. *)
Lemma addObject_accumulated Name Object B :
  (accumulated (fst (addObject Name Object B)) = accumulated B \/
   exists R1,
     accumulated (fst (addObject Name Object B))
       = (accumulated B ++ [R1; Object])%list) /\
  registered (fst (addObject Name Object B)) = registered B.
Proof.
  unfold addObject, accumulated, registered.
  destruct (createProxy [] _ (CAS B)) as [s1 [NameBlob|E1]];
    [|simpl; split; [left|]; reflexivity].
  simpl. split; [|reflexivity]. right. eexists.
  by rewrite <- app_assoc.
Qed.

Lemma serve_even (R : CASOutputBackendUse.Request) B :
  Nat.Even (length (accumulated B)) ->
  Nat.Even (length (accumulated (CASOutputBackendUse.serve R B))).
Proof.
  intros [n Hn]. destruct R as [P|F|F|Name Object|K P|]; simpl.
  - by exists n.
  - destruct (keep_accumulated F B) as [[->|(R1 & R2 & ->)] _].
    + by exists n.
    + exists (Datatypes.S n). rewrite length_app. simpl. lia.
  - by exists n.
  - destruct (addObject_accumulated Name Object B) as [[->|(R1 & ->)] _].
    + by exists n.
    + exists (Datatypes.S n). rewrite length_app. simpl. lia.
  - by exists n.
  - exists 0. unfold getCASProxy, accumulated, ensureImpl.
    destruct (Impl B) as [Im|]; destruct (createProxy _ _ (CAS B));
      reflexivity.
Qed.

End Store.
End BackendMoreFacts.

(** X7.  The accumulated references come in pairs.  After any sequence of
    requests on a new backend ([createFile], [keep], [discard], [addObject],
    [addKindMap], [getCASProxy]), whatever each request returned, the number
    of accumulated references is even: no request leaves a name without its
    value. *)
Theorem accumulated_in_pairs {S : Type} {Store : ObjectStore S}
    (Rs : list CASOutputBackendUse.Request) (s : S) :
  Nat.Even
    (length (CASOutputBackend.accumulated
               (CASOutputBackendUse.serveAll Rs (CASOutputBackend.new s)))).
Proof.
  assert (HAll : forall B : CASOutputBackend.t S,
             Nat.Even (length (CASOutputBackend.accumulated B)) ->
             Nat.Even (length (CASOutputBackend.accumulated
                                 (CASOutputBackendUse.serveAll Rs B)))).
  { induction Rs as [|R Rest IH]; intros B HEven; simpl; [exact HEven|].
    apply IH. by apply BackendMoreFacts.serve_even. }
  apply HAll. by exists 0.
Qed.

(** X8.  A [keep] or an [addObject] that fails appends nothing and leaves
    the kind maps as they were, also when the name object was stored before
    the bytes object failed. *)
Theorem failed_request_appends_nothing {S : Type} {Store : ObjectStore S}
    (B B1 : CASOutputBackend.t S) (F : CASOutputFile) (Name : string)
    (Object : ObjectRef) (E : ErrorInfo) :
  CASOutputBackend.keep F B = (B1, failure E) \/
  CASOutputBackend.addObject Name Object B = (B1, failure E) ->
  CASOutputBackend.accumulated B1 = CASOutputBackend.accumulated B /\
  CASOutputBackend.registered B1 = CASOutputBackend.registered B.
Proof.
  intros [HKeep|HAdd].
  - unfold CASOutputBackend.keep, CASOutputBackend.OnKeep in HKeep.
    destruct (CASOutputBackend.Impl B) as [Im|] eqn:HImpl;
      [|by injection HKeep as <- _].
    destruct (createProxy [] _ (CASOutputBackend.CAS B))
      as [s1 [NameBlob|E1]].
    + destruct (createProxy [] _ s1) as [s2 [BytesBlob|E2]];
        [discriminate|].
      injection HKeep as <- _.
      unfold CASOutputBackend.accumulated, CASOutputBackend.registered,
        CASOutputBackend.ensureImpl. simpl. by rewrite HImpl.
    + injection HKeep as <- _.
      unfold CASOutputBackend.accumulated, CASOutputBackend.registered,
        CASOutputBackend.ensureImpl. simpl. by rewrite HImpl.
  - unfold CASOutputBackend.addObject in HAdd.
    destruct (createProxy [] _ (CASOutputBackend.CAS B))
      as [s1 [NameBlob|E1]]; [discriminate|].
    by injection HAdd as <- _.
Qed.

Lemma failed_request_appends_nothing_witness :
  exists E,
    CASOutputBackend.keep BackendExamples.ObjectFile BoundedExamples.Backend
      = (BoundedExamples.AfterKeep, failure E) /\
    InMemoryCAS.Objects
      (BoundedCAS.Inner (CASOutputBackend.CAS BoundedExamples.AfterKeep))
      = [([], "/out/a.o")] /\
    CASOutputBackend.accumulated BoundedExamples.AfterKeep = [].
Proof.
  eexists. split; [reflexivity|]. split; [reflexivity|].
  apply (failed_request_appends_nothing (Store := BoundedCAS.object_store)
           BoundedExamples.Backend BoundedExamples.AfterKeep
           BackendExamples.ObjectFile EmptyString (getFromInternalRef 0)
           (StringError inconvertibleErrorCode "table full")).
  left. reflexivity.
Defined.

(** X9.  The first kind registered for a path wins.  After
    [addKindMap K P], a path other than [P] and a path that already had a
    kind remap as before; [P] remaps to [K] only when no kind was registered
    for it. *)
Theorem addKindMap_first_wins {S : Type} {Store : ObjectStore S}
    (B : CASOutputBackend.t S) (K P : string) :
  (forall Q,
     Q ≠ P \/
     (exists M, M ∈ CASOutputBackend.registered B /\ Path M = Q) ->
     tryRemapPath_loop
       (CASOutputBackend.registered (CASOutputBackend.addKindMap K P B)) Q
     = tryRemapPath_loop (CASOutputBackend.registered B) Q) /\
  ((forall M, M ∈ CASOutputBackend.registered B -> Path M ≠ P) ->
   tryRemapPath_loop
     (CASOutputBackend.registered (CASOutputBackend.addKindMap K P B)) P
   = K).
Proof.
  unfold CASOutputBackend.addKindMap, CASOutputBackend.registered. simpl.
  generalize (KindMaps (CASOutputBackend.ensureImpl B)). intros Maps. split.
  - intros Q HCase. induction Maps as [|M Rest IH]; simpl.
    + destruct HCase as [HNe|(M & HIn & _)];
        [|by apply elem_of_nil in HIn].
      rewrite decide_False; [reflexivity|]. simpl. congruence.
    + case_decide as HPath; [reflexivity|]. apply IH.
      destruct HCase as [HNe|(M1 & HIn & HM1)]; [by left|].
      apply elem_of_cons in HIn as [->|HIn]; [done|]. right. eauto.
  - intros HFree.
    rewrite (tryRemapPath_loop_mapped Maps [] {| Kind := K; Path := P |} P);
      [reflexivity | reflexivity | exact HFree].
Qed.

(** * The compile-job cache *)

(** X10.  The names of the output kinds and their lookup are inverse to each
    other: every kind is found again under its name, and a name that is found
    is the name of the kind found. *)
Theorem output_kind_names_round_trip :
  (forall K,
     CompileJobCache.getOutputKindForName
       (CompileJobCache.getOutputKindName K) = Some K) /\
  (forall Name K,
     CompileJobCache.getOutputKindForName Name = Some K ->
     Name = CompileJobCache.getOutputKindName K).
Proof.
  split.
  - intros []; reflexivity.
  - intros Name K. unfold CompileJobCache.getOutputKindForName.
    repeat case_decide; intros [= <-]; assumption.
Qed.

Module CompileJobFacts.
Import CompileJobCache.

Lemma newOutputs_remap_any {S : Type} `{ObjectStore S} (J : t) (s : S)
    (P : string) :
  tryRemapPath_loop (CASOutputBackend.registered (newOutputs J s)) P
  = (if decide (P = EmptyString) then P
     else if decide (P = OutputFile J) then "<output>"
     else if decide (P = SerialDiagsFile J) then "<serial-diags>"
     else if decide (P = DependenciesFile J) then "<dependencies>"
     else P).
Proof.
  destruct J as [Out Diags Deps].
  unfold newOutputs, CASOutputBackend.registered,
    CASOutputBackend.addKindMap. simpl.
  repeat (case_decide; simpl); subst; try reflexivity; congruence.
Qed.

Section Store.
Context {S : Type} `{ObjectStoreLaws S} {D : Type}.








End Store.
End CompileJobFacts.



(** X11.  The kind maps of a job.  On the backend that the job sets up, a
    path that is not empty remaps to the kind name of the first of the main
    output, the serialized diagnostics and the dependencies that has this
    path, and to itself when none has it; a job path that is empty registers
    nothing, so the empty path remaps to itself. *)
Theorem newOutputs_remaps_job_paths {S : Type} {Store : ObjectStore S}
    (J : CompileJobCache.t) (s : S) (P : string) :
  tryRemapPath_loop
    (CASOutputBackend.registered (CompileJobCache.newOutputs J s)) P
  = (if decide (P = EmptyString) then P
     else if decide (P = CompileJobCache.OutputFile J) then "<output>"
     else if decide (P = CompileJobCache.SerialDiagsFile J)
     then "<serial-diags>"
     else if decide (P = CompileJobCache.DependenciesFile J)
     then "<dependencies>"
     else P).
Proof. apply CompileJobFacts.newOutputs_remap_any. Qed.

(** X13.  The replay loop takes the references two at a time and leaves a
    last reference without a partner alone: with one more reference behind
    an even number of references, the loop does what it does without it. *)
Theorem replay_ignores_unpaired_reference {S : Type} {Store : ObjectStore S}
    {D : Type} (Env : CompileJobCache.ReplayEnv D) (J : CompileJobCache.t)
    (s : S) (Outputs : list ObjectRef) (Last : ObjectRef) (Files : D) :
  Nat.Even (length Outputs) ->
  CompileJobCache.replayOutputs Env J s (Outputs ++ [Last])%list Files
  = CompileJobCache.replayOutputs Env J s Outputs Files.
Proof.
  intros [n Hn]. revert Outputs Hn Files.
  induction n as [|n IH]; intros Outputs Hn Files.
  - destruct Outputs; [reflexivity | discriminate].
  - destruct Outputs as [|PathRef [|BytesRef Rest]]; simpl in Hn;
      [discriminate | lia |].
    assert (HRest : length Rest = 2 * n) by lia.
    simpl.
    destruct (load s PathRef) as [PathProxy|]; [|reflexivity].
    case_decide; [by apply IH|].
    destruct (if decide _ then _ else _) as [Contents|E]; [|reflexivity].
    destruct (CompileJobCache.FileOutputBuffer_commit Env _ Contents Files)
      as [Files1|E]; [|reflexivity].
    by apply IH.
Qed.

Lemma replay_ignores_unpaired_reference_witness :
  CompileJobCache.replayOutputs CompileJobExamples.Env
    CompileJobExamples.Job2
    (CASOutputBackend.CAS CompileJobExamples.Drained)
    [getFromInternalRef 1; getFromInternalRef 2; getFromInternalRef 3] ∅
  = CompileJobCache.Finished (<["/b/y.o" := "OBJ"]> ∅).
Proof.
  rewrite (replay_ignores_unpaired_reference CompileJobExamples.Env
             CompileJobExamples.Job2
             (CASOutputBackend.CAS CompileJobExamples.Drained)
             [getFromInternalRef 1; getFromInternalRef 2]
             (getFromInternalRef 3) ∅).
  - reflexivity.
  - by exists 1.
Defined.


(** * Further properties of the plugin context and of the job cache *)

Module PluginMoreFacts.
Import PluginCASContext.

(** The table that the symbol loop returns: the address of the symbol for a
    name of the table that has one, and what the table held before for any
    other name. *)
Lemma lookupFunctions_table Lib PluginPath Table :
  forall Functions Functions1,
    lookupFunctions Lib PluginPath Table Functions = Ok Functions1 ->
    forall name,
      Functions1 !! name =
      match (if decide (name ∈ Table.*1)
             then getAddressOfSymbol Lib ("llcas_" +:+ name) else None) with
      | Some Addr => Some Addr
      | None => Functions !! name
      end.
Proof.
  unfold llcas_functions_t.
  induction Table as [|[n required] Rest IH]; intros Functions Functions1.
  - intros [= <-] name. rewrite decide_False; [reflexivity|].
    apply not_elem_of_nil.
  - cbn [lookupFunctions]. intros HRun name.
    unfold llcas_functions_t in *.
    change (((n, required) :: Rest).*1) with (n :: Rest.*1).
    assert (HMem : name ≠ n ->
              (if decide (name ∈ n :: Rest.*1)
               then getAddressOfSymbol Lib ("llcas_" +:+ name) else None)
              = (if decide (name ∈ Rest.*1)
                 then getAddressOfSymbol Lib ("llcas_" +:+ name) else None)).
    { intros HNe. destruct (decide (name ∈ Rest.*1)) as [HIn|HOut].
      - by rewrite decide_True by (by apply list_elem_of_further).
      - rewrite decide_False; [reflexivity|].
        intros [?|?]%elem_of_cons; done. }
    destruct (getAddressOfSymbol Lib ("llcas_" +:+ n)) as [Addr|] eqn:HSym.
    + rewrite (IH _ _ HRun name).
      destruct (decide (name = n)) as [->|HNe].
      * destruct (decide (n ∈ n :: Rest.*1)) as [_|HOut];
          [|exfalso; apply HOut, list_elem_of_here].
        rewrite HSym. destruct (decide (n ∈ Rest.*1)); [reflexivity|].
        by apply lookup_insert_eq.
      * rewrite HMem by done.
        replace (<[n:=Addr]> Functions !! name) with (Functions !! name);
          [reflexivity|].
        symmetry. by apply lookup_insert_ne.
    + destruct required; [discriminate|].
      rewrite (IH _ _ HRun name).
      destruct (decide (name = n)) as [->|HNe].
      * destruct (decide (n ∈ n :: Rest.*1)) as [_|HOut];
          [|exfalso; apply HOut, list_elem_of_here].
        rewrite HSym. by destruct (decide (n ∈ Rest.*1)).
      * by rewrite HMem.
Qed.

(** The symbol loop succeeds only when every required function has a
    symbol. *)
Lemma lookupFunctions_required Lib PluginPath Table :
  forall Functions Functions1,
    lookupFunctions Lib PluginPath Table Functions = Ok Functions1 ->
    forall name, (name, true) ∈ Table ->
      is_Some (getAddressOfSymbol Lib ("llcas_" +:+ name)).
Proof.
  intros Functions Functions1 HRun name HIn.
  destruct (getAddressOfSymbol Lib ("llcas_" +:+ name)) as [Addr|] eqn:HSym;
    [by eexists|].
  destruct (PluginFacts.lookupFunctions_missing Lib PluginPath Table
              (ex_intro _ name (conj HIn HSym)) Functions)
    as (n & _ & _ & HErr).
  congruence.
Qed.

End PluginMoreFacts.

(** X14.  The function table of a context.  When [create] returns a
    context, the library at the path was loaded, and the table of the
    context holds for every name of [PluginAPI_functions.def] the address of
    the symbol [llcas_<name>] in it: a null pointer exactly where the library
    has no such symbol, which happens for no required function.  Names that
    are not in the table have no pointer. *)
Theorem create_resolves_function_table
    (API : PluginCASContext.PluginAPI)
    (getPermanentLibrary : PluginCASContext.Loader)
    (PluginPath OnDiskPath : string) (PluginArgs : list (string * string))
    (Ctx : PluginCASContext.t) :
  PluginCASContext.create API getPermanentLibrary PluginPath OnDiskPath
    PluginArgs = Ok Ctx ->
  exists Lib,
    getPermanentLibrary PluginPath = inr Lib /\
    (forall name,
       PluginCASContext.Functions Ctx !! name =
       if decide (name ∈ (PluginCASContext.functions_def API).*1)
       then PluginCASContext.getAddressOfSymbol Lib ("llcas_" +:+ name)
       else None) /\
    (forall name,
       (name, true) ∈ PluginCASContext.functions_def API ->
       is_Some (PluginCASContext.Functions Ctx !! name)).
Proof.
  unfold PluginCASContext.create.
  destruct (getPermanentLibrary PluginPath) as [ErrMsg|Lib]; [discriminate|].
  destruct (PluginCASContext.lookupFunctions Lib PluginPath _ ∅)
    as [Functions|E] eqn:HLookup; [|discriminate].
  destruct (PluginCASContext.setOptions Lib _ PluginArgs) as [c_opts|E];
    [|discriminate].
  destruct (PluginCASContext.cas_create Lib c_opts) as [c_err|c_cas];
    [discriminate|].
  intros [= <-]. exists Lib. split; [reflexivity|]. simpl.
  assert (HTable : forall name,
            Functions !! name =
            if decide (name ∈ (PluginCASContext.functions_def API).*1)
            then PluginCASContext.getAddressOfSymbol Lib ("llcas_" +:+ name)
            else None).
  { intros name.
    rewrite (PluginMoreFacts.lookupFunctions_table _ _ _ _ _ HLookup name).
    case_decide; [|by apply lookup_empty].
    destruct (PluginCASContext.getAddressOfSymbol Lib _);
      [reflexivity | by apply lookup_empty]. }
  split; [exact HTable|].
  intros name HIn. rewrite HTable.
  rewrite decide_True.
  - by apply (PluginMoreFacts.lookupFunctions_required _ _ _ _ _ HLookup).
  - apply list_elem_of_fmap. by exists (name, true).
Qed.

Lemma create_resolves_function_table_witness :
  PluginCASContext.create PluginExamples.API
    PluginMoreExamples.getPermanentLibrary "/lib/libcas.so" "/tmp/cas"
    [("upstream", "none")] = Ok PluginMoreExamples.Ctx /\
  PluginCASContext.Functions PluginMoreExamples.Ctx !! "cas_create"
    = Some 4112%N /\
  PluginCASContext.Functions PluginMoreExamples.Ctx !! "cas_get_ondisk_size"
    = None.
Proof.
  split; [reflexivity|].
  destruct (create_resolves_function_table PluginExamples.API
              PluginMoreExamples.getPermanentLibrary "/lib/libcas.so"
              "/tmp/cas" [("upstream", "none")] PluginMoreExamples.Ctx
              eq_refl) as (Lib & HLib & HTable & _).
  injection HLib as <-.
  split; [by rewrite HTable | by rewrite HTable].
Defined.

(** X15.  When [create] succeeds.  [create] returns a context exactly when
    the library at the path is loaded, every required function of the table
    has a symbol in it, every plugin argument is accepted in turn by the
    options object that holds the client version and the on-disk path, and
    the plugin opens the store on the resulting options.  The context then
    has the store that the plugin opened and its schema name. *)
Theorem create_succeeds_iff
    (API : PluginCASContext.PluginAPI)
    (getPermanentLibrary : PluginCASContext.Loader)
    (PluginPath OnDiskPath : string) (PluginArgs : list (string * string))
    (c_cas : N) (Name : string) :
  (exists Functions,
     PluginCASContext.create API getPermanentLibrary PluginPath OnDiskPath
       PluginArgs
     = Ok {| PluginCASContext.Functions := Functions;
             PluginCASContext.c_cas := c_cas;
             PluginCASContext.SchemaName := Name |})
  <->
  (exists Lib c_opts,
     getPermanentLibrary PluginPath = inr Lib /\
     (forall name,
        (name, true) ∈ PluginCASContext.functions_def API ->
        is_Some (PluginCASContext.getAddressOfSymbol Lib
                   ("llcas_" +:+ name))) /\
     PluginCASContext.setOptions Lib
       {| PluginCASContext.client_version :=
            Some (PluginCASContext.LLCAS_VERSION_MAJOR API,
                  PluginCASContext.LLCAS_VERSION_MINOR API);
          PluginCASContext.ondisk_path := OnDiskPath;
          PluginCASContext.options := [] |} PluginArgs = Ok c_opts /\
     PluginCASContext.cas_create Lib c_opts = inr c_cas /\
     PluginCASContext.cas_get_hash_schema_name Lib c_cas = Name).
Proof.
  unfold PluginCASContext.create. split.
  - intros (Functions & HCreate).
    destruct (getPermanentLibrary PluginPath) as [ErrMsg|Lib];
      [discriminate|].
    destruct (PluginCASContext.lookupFunctions Lib PluginPath _ ∅)
      as [Functions1|E] eqn:HLookup; [|discriminate].
    destruct (PluginCASContext.setOptions Lib _ PluginArgs) as [c_opts|E]
      eqn:HOpts; [|discriminate].
    destruct (PluginCASContext.cas_create Lib c_opts) as [c_err|c_cas1]
      eqn:HOpen; [discriminate|].
    injection HCreate as <- <- <-.
    exists Lib, c_opts. split; [reflexivity|]. split.
    + by apply (PluginMoreFacts.lookupFunctions_required _ _ _ _ _ HLookup).
    + split; [exact HOpts|]. by split.
  - intros (Lib & c_opts & -> & HAll & -> & -> & <-).
    destruct (PluginFacts.lookupFunctions_resolved Lib PluginPath _ HAll ∅)
      as (Functions & ->).
    by exists Functions.
Qed.

Module JobCacheFacts.

(** A stored digest that the store does not resolve differs from the digest
    of any object that the store has. *)
Lemma dangling_differs (C : ActionCache.t) (Stored : Hash)
    (Result : ObjectRef) :
  getReference (ActionCache.getCAS C) Stored = None ->
  is_Some (getReference (ActionCache.getCAS C) (ActionCache.digest C Result)) ->
  ActionCache.digest C Result ≠ Stored.
Proof. intros HNone [R HSome] HEq. congruence. Qed.

End JobCacheFacts.

(** X16.  A dangling entry cannot be repaired.  The cache holds for the key
    of a job a digest that the store does not resolve.  The lookup of
    [tryReplayCachedResult] then finds no result, in both backends, so the
    job computes one; and when the job caches that result, an object that
    the store has, [put] fails and the process ends: the key stays with the
    dangling digest. *)
Theorem dangling_entry_aborts_recompute (C : ActionCache.t)
    (ResultCacheKey Stored : Hash) (Result : ObjectRef) :
  ActionCache.entry C ResultCacheKey = Some Stored ->
  getReference (ActionCache.getCAS C) Stored = None ->
  is_Some (getReference (ActionCache.getCAS C)
             (ActionCache.digest C Result)) ->
  CompileJobCache.lookupCachedResult C ResultCacheKey = None /\
  CompileJobCache.cacheResult C ResultCacheKey Result
    = CompileJobCache.Aborted /\
  ActionCache.entry (fst (ActionCache.put C ResultCacheKey Result))
    ResultCacheKey = Some Stored.
Proof.
  intros HEntry HNone HSome.
  pose proof (JobCacheFacts.dangling_differs _ _ _ HNone HSome) as HDiff.
  unfold CompileJobCache.lookupCachedResult, CompileJobCache.cacheResult.
  rewrite (ActionCacheFacts.put_different _ _ _ _ HEntry HDiff). simpl.
  split; [|by split].
  destruct C as [M|D]; simpl in *.
  - unfold InMemoryActionCache.getImpl.
    destruct (trie_find ResultCacheKey (InMemoryActionCache.Cache M))
      as [Observed|]; [|reflexivity].
    simpl in HEntry. injection HEntry as ->. by rewrite HNone.
  - by rewrite (OnDiskFacts.OnDisk_getImpl_dangling _ _ _ HEntry HNone).
Qed.

Lemma dangling_entry_aborts_recompute_witness :
  CompileJobCache.lookupCachedResult
    (ActionCache.OnDisk Examples.DanglingOnDisk) Examples.Key1 = None /\
  CompileJobCache.cacheResult
    (ActionCache.OnDisk Examples.DanglingOnDisk) Examples.Key1 Examples.Ref1
    = CompileJobCache.Aborted /\
  ActionCache.entry
    (fst (ActionCache.put (ActionCache.OnDisk Examples.DanglingOnDisk)
            Examples.Key1 Examples.Ref1)) Examples.Key1
    = Some Examples.Digest2.
Proof.
  apply (dangling_entry_aborts_recompute
           (ActionCache.OnDisk Examples.DanglingOnDisk) Examples.Key1
           Examples.Digest2 Examples.Ref1).
  - reflexivity.
  - reflexivity.
  - by eexists.
Defined.


(** * The lookup of module outputs *)

Module LookupFacts.
Import CDependencies.

Lemma overlay_length {A : Type} (Written Buffer : list A) :
  length (overlay Written Buffer) = length Buffer.
Proof. unfold overlay. rewrite length_app, length_take, length_drop. lia. Qed.

(** A buffer that is large enough holds what the callee wrote. *)
Lemma overlay_take {A : Type} (p Written Buffer : list A) :
  take (length p) Written = p ->
  length p <= length Buffer ->
  take (length p) (overlay Written Buffer) = p.
Proof.
  intros HW HLen. unfold overlay.
  assert (HLenW : length p <= length Written).
  { rewrite <- HW at 1. rewrite length_take. lia. }
  rewrite take_app_le by (rewrite length_take; lia).
  rewrite take_take. by rewrite Nat.min_l by lia.
Qed.

Section Lookup.
Context {ModuleID : Type} `{Countable ModuleID}.
Context (ModuleName ContextHash : ModuleID -> string).
Context {C : Type}.
Context (MLO : CXModuleLookupOutputCallback (C := C)).

Local Abbreviation lookup :=
  (OutputLookup.lookupModuleOutput ModuleName ContextHash MLO).

(** A lookup keeps the entries of the modules that have one. *)
Lemma lookup_keeps_entry ID MOK (L : OutputLookup.t ModuleID C) ID0 P :
  OutputLookup.PCMPaths L !! ID0 = Some P ->
  OutputLookup.PCMPaths (fst (lookup ID MOK L)) !! ID0 = Some P.
Proof.
  intros HEntry. unfold OutputLookup.lookupModuleOutput.
  case_decide.
  - by destruct (lookupModuleOutput _ _ _ _ _ _) as [Ctx1 P1].
  - destruct (OutputLookup.PCMPaths L !! ID) as [P1|] eqn:HID; [exact HEntry|].
    destruct (lookupModuleOutput _ _ _ _ _ _) as [Ctx1 P1]. simpl.
    rewrite lookup_insert_ne; [exact HEntry|congruence].
Qed.

(** A lookup of a module file leaves the answer in the entry of the
    module. *)
Lemma lookup_stores_entry ID (L L1 : OutputLookup.t ModuleID C) P :
  lookup ID ModuleFile L = (L1, P) ->
  OutputLookup.PCMPaths L1 !! ID = Some P.
Proof.
  unfold OutputLookup.lookupModuleOutput.
  rewrite decide_False by (intros HNe; by apply HNe).
  destruct (OutputLookup.PCMPaths L !! ID) as [P1|] eqn:HID.
  - by intros [= <- <-].
  - destruct (lookupModuleOutput _ _ _ _ _ _) as [Ctx1 P1].
    intros [= <- <-]. simpl. by rewrite lookup_insert_eq.
Qed.

Lemma lookups_keep_entry Requests : forall (L : OutputLookup.t ModuleID C) ID0 P,
  OutputLookup.PCMPaths L !! ID0 = Some P ->
  OutputLookup.PCMPaths
    (OutputLookup.lookups ModuleName ContextHash MLO Requests L) !! ID0
  = Some P.
Proof.
  induction Requests as [|[ID MOK] Rest IH]; intros L ID0 P HEntry;
    [exact HEntry|].
  simpl. apply IH. by apply lookup_keeps_entry.
Qed.

End Lookup.
End LookupFacts.

(** X17.  The two calls of the static [lookupModuleOutput] give the whole
    output, whatever its length.  The client answers [p] for the module and
    the kind: it returns the length of [p] whatever the buffer, and has
    written [p] when the buffer holds it.  Then the lookup returns [p], also
    when [p] is longer than the 256 characters of the first buffer. *)
Theorem lookupModuleOutput_whole_output {ModuleID C : Type}
    (ModuleName ContextHash : ModuleID -> string)
    (MLO : CDependencies.CXModuleLookupOutputCallback (C := C))
    (ID : ModuleID) (MOK : CDependencies.ModuleOutputKind)
    (p : list ascii) (MLOContext : C) :
  (forall Ctx MaxLen, exists Ctx1 Written,
     MLO Ctx (CDependencies.c_str (ModuleName ID))
       (CDependencies.c_str (ContextHash ID)) (CDependencies.wrap MOK) MaxLen
     = (Ctx1, (length p, Written)) /\
     (length p <= MaxLen -> take (length p) Written = p)) ->
  snd (CDependencies.lookupModuleOutput ModuleName ContextHash MLO ID MOK
         MLOContext)
  = String.string_of_list_ascii p.
Proof.
  intros HAnswer. unfold CDependencies.lookupModuleOutput. cbv zeta.
  rewrite length_replicate.
  destruct (HAnswer MLOContext 256) as (Ctx1 & Written & -> & HWritten).
  rewrite LookupFacts.overlay_length, length_replicate.
  case_decide as HLong.
  - rewrite length_resize.
    destruct (HAnswer Ctx1 (length p)) as (Ctx2 & Written2 & -> & HWritten2).
    cbn [snd]. f_equal. apply LookupFacts.overlay_take; [by apply HWritten2|].
    by rewrite length_resize.
  - cbn [snd]. f_equal. apply LookupFacts.overlay_take; [apply HWritten; lia|].
    rewrite length_replicate. lia.
Qed.

Lemma lookupModuleOutput_whole_output_witness :
  length LookupExamples.LongPath = 307 /\
  snd (CDependencies.lookupModuleOutput fst snd LookupExamples.LongMLO
         LookupExamples.Foundation CDependencies.ModuleFile 0)
  = String.string_of_list_ascii LookupExamples.LongPath.
Proof.
  split; [reflexivity|].
  apply (lookupModuleOutput_whole_output fst snd LookupExamples.LongMLO
           LookupExamples.Foundation CDependencies.ModuleFile
           LookupExamples.LongPath 0).
  intros Ctx MaxLen. eexists _, _. split; [reflexivity|].
  intros HLen. rewrite decide_True by exact HLen. apply firstn_all.
Defined.

(** X18.  The path of a module file is asked for once.  After a lookup of
    the module file of [ID] has returned [P], and after any further lookups,
    a lookup of the module file of [ID] returns [P] again and leaves the
    lookup object as it is: neither the client is called nor its context
    changed, whatever the client would answer now. *)
Theorem module_file_path_is_cached {ModuleID : Type}
    {EqID : EqDecision ModuleID} {CountID : Countable ModuleID} {C : Type}
    (ModuleName ContextHash : ModuleID -> string)
    (MLO : CDependencies.CXModuleLookupOutputCallback (C := C))
    (ID : ModuleID) (L L1 : CDependencies.OutputLookup.t ModuleID C)
    (P : string)
    (Requests : list (ModuleID * CDependencies.ModuleOutputKind)) :
  CDependencies.OutputLookup.lookupModuleOutput ModuleName ContextHash MLO
    ID CDependencies.ModuleFile L = (L1, P) ->
  CDependencies.OutputLookup.lookupModuleOutput ModuleName ContextHash MLO
    ID CDependencies.ModuleFile
    (CDependencies.OutputLookup.lookups ModuleName ContextHash MLO
       Requests L1)
  = (CDependencies.OutputLookup.lookups ModuleName ContextHash MLO
       Requests L1, P).
Proof.
  intros HFirst.
  pose proof (LookupFacts.lookup_stores_entry _ _ _ _ _ _ _ HFirst) as HEntry.
  pose proof (LookupFacts.lookups_keep_entry ModuleName ContextHash MLO
                Requests _ _ _ HEntry) as HLater.
  unfold CDependencies.OutputLookup.lookupModuleOutput at 1.
  rewrite decide_False by (intros HNe; by apply HNe).
  by rewrite HLater.
Qed.

Lemma module_file_path_is_cached_witness :
  CDependencies.OutputLookup.lookupModuleOutput fst snd LookupExamples.MLO
    LookupExamples.Foundation CDependencies.ModuleFile
    (CDependencies.OutputLookup.new 0)
  = (LookupExamples.First, "/cache/Foundation-ABC.pcm0") /\
  CDependencies.OutputLookup.MLOContext
    (CDependencies.OutputLookup.lookups fst snd LookupExamples.MLO
       LookupExamples.Requests LookupExamples.First) = 3 /\
  CDependencies.OutputLookup.lookupModuleOutput fst snd LookupExamples.MLO
    LookupExamples.Foundation CDependencies.ModuleFile
    (CDependencies.OutputLookup.lookups fst snd LookupExamples.MLO
       LookupExamples.Requests LookupExamples.First)
  = (CDependencies.OutputLookup.lookups fst snd LookupExamples.MLO
       LookupExamples.Requests LookupExamples.First,
     "/cache/Foundation-ABC.pcm0").
Proof.
  split; [reflexivity|]. split; [reflexivity|].
  apply (module_file_path_is_cached fst snd LookupExamples.MLO
           LookupExamples.Foundation (CDependencies.OutputLookup.new 0)
           LookupExamples.First "/cache/Foundation-ABC.pcm0"
           LookupExamples.Requests).
  reflexivity.
Defined.


(** * The handle kinds *)

Module HandleFacts.

(** A kind whose bits all lie in another kind is that kind or smaller. *)
Lemma included_le (k n : N) : N.land k n = k -> (k <= n)%N.
Proof. intros <-. apply N.land_le_r. Qed.

End HandleFacts.

(** X19.  What [is<HandleT>()] tests.  On the declared handle kinds the
    test holds exactly when every bit of the kind of the handle is a bit of
    the kind asked for.  For any bit pattern that is not zero, inclusion of
    the bits is enough for the test to hold; the converse needs the declared
    kinds, since a kind with the bits of a tree and a node passes the test
    for the data kind. *)
Theorem is_tests_kind_inclusion :
  (forall (K NewKind : ReferenceBase.HandleKind) (Ref : N),
     AnyObjectHandleImpl.is_kind
       {| AnyObjectHandleImpl.InternalRef := Ref;
          AnyObjectHandleImpl.Kind := ReferenceBase.value K |}
       (ReferenceBase.value NewKind) = true
     <-> N.land (ReferenceBase.value K) (ReferenceBase.value NewKind)
         = ReferenceBase.value K) /\
  (forall (H : AnyObjectHandleImpl.t) (NewKind : N),
     AnyObjectHandleImpl.Kind H ≠ 0%N ->
     N.land (AnyObjectHandleImpl.Kind H) NewKind = AnyObjectHandleImpl.Kind H ->
     AnyObjectHandleImpl.is_kind H NewKind = true) /\
  (exists H : AnyObjectHandleImpl.t,
     AnyObjectHandleImpl.is_kind H
       (ReferenceBase.value ReferenceBase.AnyDataKind) = true /\
     N.land (AnyObjectHandleImpl.Kind H)
       (ReferenceBase.value ReferenceBase.AnyDataKind)
     ≠ AnyObjectHandleImpl.Kind H).
Proof.
  split; [|split].
  - intros K NewKind Ref. destruct K, NewKind; vm_compute; split;
      intros HEq; try reflexivity; discriminate HEq.
  - intros H NewKind HNonZero HIncluded.
    unfold AnyObjectHandleImpl.is_kind. case_decide as HEq; [reflexivity|].
    rewrite HIncluded. apply andb_true_intro. split.
    + apply negb_true_iff. by apply N.eqb_neq.
    + apply N.ltb_lt. pose proof (HandleFacts.included_le _ _ HIncluded). lia.
  - exists {| AnyObjectHandleImpl.InternalRef := 0;
              AnyObjectHandleImpl.Kind := N.lor 1 2 |}.
    split; [reflexivity | vm_compute; discriminate].
Qed.

(** X20.  The data of an object handle.  [getData] gives a data handle for
    every handle but a tree handle, with the same internal reference.  The
    data handle of a blob handle is a blob handle and that of a node handle
    a node handle; the data handle of a variant made from a plain
    [ObjectHandle] is neither a blob handle nor a node handle. *)
Theorem getData_of_handle_kinds (Ref : N) :
  (forall T,
     AnyObjectHandle.getData (AnyObjectHandleImpl.new T Ref) = None
     <-> T = TreeHandle) /\
  (forall T D,
     AnyObjectHandle.getData (AnyObjectHandleImpl.new T Ref) = Some D ->
     AnyObjectHandleImpl.InternalRef D = Ref /\
     AnyObjectHandleImpl.is_ BlobHandle D = bool_decide (T = BlobHandle) /\
     AnyObjectHandleImpl.is_ NodeHandle D = bool_decide (T = NodeHandle) /\
     AnyObjectHandleImpl.dyn_cast T D = Some Ref).
Proof.
  split.
  - intros T. destruct T; vm_compute; split; intros HEq;
      try reflexivity; discriminate HEq.
  - intros T D. destruct T; vm_compute; intros [= <-];
      repeat split; reflexivity.
Qed.


(** * The file dependencies *)

Module ScanFacts.
Import DependencyScannerServiceOptions FileDependencies.

Ltac unfold_asserted :=
  unfold mbind, Asserted_bind, mret, Asserted_ret, assert in *.

Section Scan.
Context {ModuleID LookupT : Type}.
Context (ModuleName ContextHash : ModuleID -> string).

(** The formats that [getFileDependencies] rejects. *)
Lemma rejected_format (Format : ScanningOutputFormat) :
  (Format ≠ Full /\ Format ≠ FullTree /\ Format ≠ FullIncludeTree)
  <-> Format = unwrap CXDependencyMode_Flat.
Proof.
  destruct Format; simpl; split; try done; intros (H1 & H2 & H3); done.
Qed.

(** What [getFullDependencies] returns: success with the dependencies
    handled, or a failure with nothing handled and no module reported. *)
Lemma getFullDependencies_returned {R : Type} NDEBUG
    (Worker : DependencyScanningWorker (ModuleID := ModuleID)
                (LookupT := LookupT))
    Compilation WorkingDirectory HasError HasDiagConsumer LookupOutput
    ModuleNameArg (HandleTUDeps : TranslationUnitDeps -> Asserted R)
    Result Eff Handled :
  getFullDependencies ModuleName ContextHash NDEBUG Worker Compilation
    WorkingDirectory HasError HasDiagConsumer LookupOutput ModuleNameArg
    HandleTUDeps = Returned (Result, Eff, Handled) ->
  (Result = CXError_Success /\ is_Some Handled /\ ErrorOut Eff = None) \/
  (Result = CXError_Failure /\ Handled = None /\ MDCCalls Eff = []).
Proof.
  unfold getFullDependencies. unfold_asserted.
  destruct (if NDEBUG then _ else _) as [[]|Message]; [|discriminate].
  destruct HasDiagConsumer.
  - destruct (computeDependencies_diags _ _ _ _ _) as [Diags [TU|]].
    + destruct (HandleTUDeps TU) as [H|Message]; [|discriminate].
      intros [= <- <- <-]. left. split; [reflexivity|].
      split; [by eexists|]. by destruct (TU_ModuleGraph TU).
    + intros [= <- <- <-]. right. by repeat split.
  - destruct HasError.
    + destruct (computeDependencies _ _ _ _ _) as [Message|TU].
      * intros [= <- <- <-]. right. by repeat split.
      * destruct (HandleTUDeps TU) as [H|Message]; [|discriminate].
        intros [= <- <- <-]. left. split; [reflexivity|].
        split; [by eexists|]. by destruct (TU_ModuleGraph TU).
    + destruct (HandleTUDeps _) as [H|Message]; [|discriminate].
      intros [= <- <- <-]. left. split; [reflexivity|].
      split; [by eexists|].
      by destruct (TU_ModuleGraph (takeTranslationUnitDeps_unfilled Worker)).
Qed.

(** What [getFileDependencies] returns. *)
Lemma getFileDependencies_returned {R : Type} NDEBUG
    (W : option (DependencyScanningWorker (ModuleID := ModuleID)
                   (LookupT := LookupT)))
    argc argv WorkingDirectory HasError HasDiagConsumer LookupOutput
    ModuleNameArg (HandleTUDeps : TranslationUnitDeps -> Asserted R)
    Result Eff Handled :
  getFileDependencies ModuleName ContextHash NDEBUG W argc argv
    WorkingDirectory HasError HasDiagConsumer LookupOutput ModuleNameArg
    HandleTUDeps = Returned (Result, Eff, Handled) ->
  (Result = CXError_Success /\ is_Some Handled /\ ErrorOut Eff = None /\
   ~ rejected W argc argv) \/
  (Result = CXError_Failure /\ Handled = None /\ MDCCalls Eff = [] /\
   ~ rejected W argc argv) \/
  (Result = CXError_InvalidArguments /\ Handled = None /\ Eff = NoEffects /\
   rejected W argc argv).
Proof.
  unfold getFileDependencies, rejected. unfold_asserted. intros HRun.
  destruct W as [Worker|]; [|injection HRun as <- <- <-; right; right;
                              repeat split; by left].
  destruct argv as [Args|]; [|injection HRun as <- <- <-; right; right;
                               repeat split; right; by left].
  destruct (decide (argc < 2)%Z) as [HFew|HEnough].
  { injection HRun as <- <- <-. right; right. repeat split.
    right; right; by left. }
  destruct (decide (_ /\ _)) as [HFormat|HFormat].
  { injection HRun as <- <- <-. right; right. repeat split.
    right; right; right. exists Worker. split; [reflexivity|].
    by apply rejected_format. }
  assert (HValid : ~ (Some Worker = None \/ Some Args = None \/
                      (argc < 2)%Z \/
                      exists Worker0, Some Worker = Some Worker0 /\
                        getScanningFormat Worker0
                        = unwrap CXDependencyMode_Flat)).
  { intros [HW|[HArgv|[HArgc|(Worker1 & [= <-] & HFlat)]]];
      [discriminate | discriminate | done |].
    by apply HFormat, rejected_format. }
  destruct (getFullDependencies_returned _ _ _ _ _ _ _ _ _ _ _ _ HRun)
    as [(-> & HHandled & HErr)|(-> & -> & HMDC)].
  - left. by repeat split.
  - right; left. by repeat split.
Qed.

End Scan.
End ScanFacts.

(** X21.  The assertion at the end of [getFileDependencies_v3] holds.  For
    all arguments, with the assertions compiled or not, the call does not
    stop at [assert(Result != CXError_Success || FDeps)]: whenever the scan
    reports success, the callback has made the dependencies. *)
Theorem v3_result_assertion_holds {ModuleID LookupT : Type}
    (ModuleName ContextHash : ModuleID -> string) (NDEBUG : bool)
    (W : option (FileDependencies.DependencyScanningWorker
                   (ModuleID := ModuleID) (LookupT := LookupT)))
    (argc : Z) (argv : option (list string)) (ModuleNameArg : option string)
    (WorkingDirectory : string) (LookupOutputs : LookupT) (HasError : bool) :
  FileDependencies.getFileDependencies_v3 ModuleName ContextHash NDEBUG W
    argc argv ModuleNameArg WorkingDirectory LookupOutputs HasError
  ≠ AssertionFailure "Result != CXError_Success || FDeps".
Proof.
  unfold FileDependencies.getFileDependencies_v3.
  destruct (FileDependencies.getFileDependencies _ _ _ _ _ _ _ _ _ _ _ _)
    as [[[Result Eff] FDeps]|Message] eqn:HRun.
  - destruct (ScanFacts.getFileDependencies_returned _ _ _ _ _ _ _ _ _ _ _
                _ _ _ _ HRun)
      as [(-> & [F ->] & _)|[(-> & -> & _)|(-> & -> & _)]];
      ScanFacts.unfold_asserted; simpl; by destruct NDEBUG.
  - ScanFacts.unfold_asserted. simpl.
    intros [= ->].
    unfold FileDependencies.getFileDependencies,
      FileDependencies.getFullDependencies in HRun.
    ScanFacts.unfold_asserted.
    destruct W as [Worker|]; [|discriminate].
    destruct argv as [Args|]; [|discriminate].
    destruct (decide (argc < 2)%Z); [discriminate|].
    destruct (decide (_ /\ _)); [discriminate|].
    destruct NDEBUG.
    + destruct HasError.
      * destruct (FileDependencies.computeDependencies _ _ _ _ _);
          discriminate.
      * discriminate.
    + destruct HasError; simpl in HRun; [|discriminate].
      destruct (FileDependencies.computeDependencies _ _ _ _ _) as [?|TU];
        [discriminate|].
      destruct (negb (bool_decide (FileDependencies.TU_DriverCommandLine TU
                                   = []))); discriminate.
Qed.

(** X22.  What [getFileDependencies_v4] and [getFileDependencies_v5] return.
    When the call returns, the result is [CXError_Success] exactly when
    [*Out] is a list of commands; it is [CXError_InvalidArguments] exactly
    when [Out], the worker or [argv] is null, [argc] is less than 2, or the
    worker has the format of the mode [CXDependencyMode_Flat]; a call that
    does not succeed reports no module to the callback and leaves [*Out]
    null; and a string is written through [Error] only with
    [CXError_Failure]. *)
Theorem getFileDependencies_result_contract {ModuleID LookupT : Type}
    (ModuleName ContextHash : ModuleID -> string) (NDEBUG : bool)
    (W : option (FileDependencies.DependencyScanningWorker
                   (ModuleID := ModuleID) (LookupT := LookupT)))
    (argc : Z) (argv : option (list string)) (ModuleNameArg : option string)
    (WorkingDirectory : string) (LookupOutputs : LookupT)
    (HasOut HasError : bool) (Result : FileDependencies.CXErrorCode)
    (Out : option (option FileDependencies.CXFileDependenciesList))
    (Eff : FileDependencies.Effects) :
  FileDependencies.getFileDependencies_v4 ModuleName ContextHash NDEBUG W
    argc argv ModuleNameArg WorkingDirectory LookupOutputs HasOut HasError
    = Returned (Result, Out, Eff) \/
  FileDependencies.getFileDependencies_v5 ModuleName ContextHash NDEBUG W
    argc argv ModuleNameArg WorkingDirectory LookupOutputs HasOut
    = Returned (Result, Out, Eff) ->
  (Result = FileDependencies.CXError_Success
   <-> exists Commands, Out = Some (Some Commands)) /\
  (Result = FileDependencies.CXError_InvalidArguments
   <-> HasOut = false \/ W = None \/ argv = None \/ (argc < 2)%Z \/
       exists Worker,
         W = Some Worker /\
         FileDependencies.getScanningFormat Worker
         = FileDependencies.unwrap FileDependencies.CXDependencyMode_Flat) /\
  (Result ≠ FileDependencies.CXError_Success ->
   FileDependencies.MDCCalls Eff = [] /\
   (HasOut = true -> Out = Some None)) /\
  (is_Some (FileDependencies.ErrorOut Eff) ->
   Result = FileDependencies.CXError_Failure).
Proof.
  assert (HAll : forall HasErr HasDiag,
            (if negb HasOut
             then mret (FileDependencies.CXError_InvalidArguments, None,
                        FileDependencies.NoEffects)
             else
               '(Result, Eff, Out) ←
                 FileDependencies.getFileDependencies ModuleName ContextHash
                   NDEBUG W argc argv WorkingDirectory HasErr HasDiag
                   LookupOutputs ModuleNameArg
                   (FileDependencies.toCommands ModuleName ContextHash
                      NDEBUG);
               mret (Result, Some Out, Eff))
            = Returned (Result, Out, Eff) ->
            (Result = FileDependencies.CXError_Success
             <-> exists Commands, Out = Some (Some Commands)) /\
            (Result = FileDependencies.CXError_InvalidArguments
             <-> HasOut = false \/ W = None \/ argv = None \/ (argc < 2)%Z \/
                 exists Worker,
                   W = Some Worker /\
                   FileDependencies.getScanningFormat Worker
                   = FileDependencies.unwrap
                       FileDependencies.CXDependencyMode_Flat) /\
            (Result ≠ FileDependencies.CXError_Success ->
             FileDependencies.MDCCalls Eff = [] /\
             (HasOut = true -> Out = Some None)) /\
            (is_Some (FileDependencies.ErrorOut Eff) ->
             Result = FileDependencies.CXError_Failure)).
  { intros HasErr HasDiag. destruct HasOut; simpl.
    - ScanFacts.unfold_asserted.
      destruct (FileDependencies.getFileDependencies _ _ _ _ _ _ _ _ _ _ _ _)
        as [[[Result0 Eff0] Out0]|Message] eqn:HRun; [|discriminate].
      intros [= <- <- <-].
      destruct (ScanFacts.getFileDependencies_returned _ _ _ _ _ _ _ _ _ _ _
                  _ _ _ _ HRun)
        as [(-> & [L ->] & HErr & HValid)|
            [(-> & -> & HMDC & HValid)|(-> & -> & -> & HInvalid)]].
      + split; [split; [by eexists|reflexivity]|].
        split; [split; [discriminate|]|].
        { intros [HOut|HInvalid]; [discriminate|]. by destruct HValid. }
        split; [done|]. rewrite HErr. by intros [? ?].
      + split; [split; [discriminate|by intros [? [=]]]|].
        split; [split; [discriminate|]|].
        { intros [HOut|HInvalid]; [discriminate|]. by destruct HValid. }
        split; [by intros _|reflexivity].
      + split; [split; [discriminate|by intros [? [=]]]|].
        split; [split; [by intros _; right|reflexivity]|].
        split; [by intros _|]. simpl. by intros [? ?].
    - intros [= <- <- <-].
      split; [split; [discriminate|by intros [? [=]]]|].
      split; [split; [by intros _; left|reflexivity]|].
      split; [by intros _; split|]. simpl. by intros [? ?]. }
  intros [HRun|HRun]; eapply HAll; exact HRun.
Qed.

Lemma getFileDependencies_result_contract_witness :
  FileDependencies.getFileDependencies_v4 fst snd false
    (Some (ScanExamples.Worker DependencyScannerServiceOptions.Full)) 3
    (Some ["clang"; "-c"; "a.c"]) None "/src" tt true true
  = Returned (FileDependencies.CXError_Success,
              Some (Some ScanExamples.Commands),
              {| FileDependencies.ErrorOut := None;
                 FileDependencies.Diagnostics := [];
                 FileDependencies.MDCCalls := [ScanExamples.Discovered] |}) /\
  (FileDependencies.CXError_Success = FileDependencies.CXError_Success
   <-> exists Commands,
         Some (Some ScanExamples.Commands) = Some (Some Commands)).
Proof.
  split; [reflexivity|].
  apply (getFileDependencies_result_contract fst snd false
           (Some (ScanExamples.Worker DependencyScannerServiceOptions.Full))
           3 (Some ["clang"; "-c"; "a.c"]) None "/src" tt true true
           FileDependencies.CXError_Success
           (Some (Some ScanExamples.Commands))
           {| FileDependencies.ErrorOut := None;
              FileDependencies.Diagnostics := [];
              FileDependencies.MDCCalls := [ScanExamples.Discovered] |}).
  left. reflexivity.
Defined.

(** X23.  A call of [getFileDependencies_v4] without [Error].  The
    arguments are valid but for a null [Error].  With the assertions
    compiled the call stops at the assertion on [DiagConsumer] and [Error].
    Without them it runs no scan: it returns [CXError_Success], and [*Out] is
    made of the dependencies that a consumer holds which no scan has filled,
    whatever the worker would compute. *)
Theorem v4_without_error_runs_no_scan {ModuleID LookupT : Type}
    (ModuleName ContextHash : ModuleID -> string)
    (Worker : FileDependencies.DependencyScanningWorker
                (ModuleID := ModuleID) (LookupT := LookupT))
    (argc : Z) (Args : list string) (ModuleNameArg : option string)
    (WorkingDirectory : string) (LookupOutputs : LookupT) :
  (2 <= argc)%Z ->
  FileDependencies.getScanningFormat Worker
  ≠ FileDependencies.unwrap FileDependencies.CXDependencyMode_Flat ->
  FileDependencies.getFileDependencies_v4 ModuleName ContextHash false
    (Some Worker) argc (Some Args) ModuleNameArg WorkingDirectory
    LookupOutputs true false
  = AssertionFailure "Both DiagConsumer and Error provided" /\
  exists Commands Eff,
    FileDependencies.getFileDependencies_v4 ModuleName ContextHash true
      (Some Worker) argc (Some Args) ModuleNameArg WorkingDirectory
      LookupOutputs true false
    = Returned (FileDependencies.CXError_Success, Some (Some Commands), Eff)
    /\
    FileDependencies.toCommands ModuleName ContextHash true
      (FileDependencies.takeTranslationUnitDeps_unfilled Worker)
    = Returned Commands /\
    FileDependencies.ErrorOut Eff = None /\
    FileDependencies.Diagnostics Eff = [].
Proof.
  intros HArgc HFormat.
  unfold FileDependencies.getFileDependencies_v4,
    FileDependencies.getFileDependencies,
    FileDependencies.getFullDependencies.
  ScanFacts.unfold_asserted. simpl.
  assert (HAccepted :
            ~ (FileDependencies.getScanningFormat Worker
               ≠ DependencyScannerServiceOptions.Full /\
               FileDependencies.getScanningFormat Worker
               ≠ DependencyScannerServiceOptions.FullTree /\
               FileDependencies.getScanningFormat Worker
               ≠ DependencyScannerServiceOptions.FullIncludeTree)).
  { intros HRejected. by apply HFormat, ScanFacts.rejected_format. }
  split.
  - rewrite decide_False by lia. by rewrite decide_False by exact HAccepted.
  - eexists _, _. rewrite decide_False by lia.
    rewrite decide_False by exact HAccepted.
    split; [reflexivity|]. split; [reflexivity|].
    by destruct (FileDependencies.TU_ModuleGraph _).
Qed.

Lemma v4_without_error_runs_no_scan_witness :
  FileDependencies.getFileDependencies_v4 fst snd true
    (Some (ScanExamples.Worker DependencyScannerServiceOptions.Full)) 3
    (Some ["clang"; "-c"; "a.c"]) None "/src" tt true false
  = Returned (FileDependencies.CXError_Success, Some (Some []),
              FileDependencies.NoEffects) /\
  FileDependencies.getFileDependencies_v4 fst snd false
    (Some (ScanExamples.Worker DependencyScannerServiceOptions.Full)) 3
    (Some ["clang"; "-c"; "a.c"]) None "/src" tt true false
  = AssertionFailure "Both DiagConsumer and Error provided".
Proof.
  split; [reflexivity|].
  apply (v4_without_error_runs_no_scan fst snd
           (ScanExamples.Worker DependencyScannerServiceOptions.Full) 3
           ["clang"; "-c"; "a.c"] None "/src" tt).
  - lia.
  - discriminate.
Defined.


(** * The plugin object store, the action cache map and the hex dump *)

(** X24.  The two calls of [parseDigest] give the whole digest.  The plugin
    parses the identifier to the digest [d], which is not empty: it returns
    the length of [d] whatever the buffer, and has written [d] when the
    buffer holds it.  Then [parseID] returns the identifier with the hash
    [d], also when [d] is longer than the 68 bytes of the first buffer, and
    the assertion on the second length holds. *)
Theorem parseID_whole_digest
    (digest_parse : N -> string -> nat -> nat * list byte * string)
    (NDEBUG : bool) (Ctx : PluginCASContext.t) (ID : string) (d : Hash) :
  d ≠ [] ->
  (forall Size, exists Written c_err,
     digest_parse (PluginCASContext.c_cas Ctx) (CDependencies.c_str ID) Size
     = (length d, Written, c_err) /\
     (length d <= Size -> take (length d) Written = d)) ->
  PluginObjectStore.parseID digest_parse NDEBUG Ctx ID = Returned (Ok d).
Proof.
  intros HNonEmpty HAnswer.
  assert (HLen : length d ≠ 0) by (by destruct d).
  unfold PluginObjectStore.parseID, PluginObjectStore.parseDigest.
  cbv zeta. rewrite length_replicate.
  destruct (HAnswer 68) as (Written & c_err & -> & HWritten).
  rewrite decide_False by exact HLen.
  rewrite LookupFacts.overlay_length, length_replicate.
  case_decide as HLong.
  - rewrite length_resize.
    destruct (HAnswer (length d)) as (Written2 & c_err2 & -> & HWritten2).
    rewrite decide_False by exact HLen.
    rewrite LookupFacts.overlay_length, length_resize.
    unfold assert, mbind, Asserted_bind, mret, Asserted_ret.
    rewrite bool_decide_eq_true_2 by reflexivity.
    replace (if NDEBUG then Returned () else Returned ())
      with (Returned (A := ()) ()) by (by destruct NDEBUG).
    do 2 f_equal.
    rewrite <- (LookupFacts.overlay_take d Written2
                  (resize (length d) x00
                     (CDependencies.overlay Written (replicate 68 x00))))
      at 2; [|by apply HWritten2|by rewrite length_resize].
    rewrite firstn_all2; [reflexivity|].
    by rewrite LookupFacts.overlay_length, length_resize.
  - unfold mret, Asserted_ret. do 2 f_equal.
    apply LookupFacts.overlay_take; [apply HWritten; lia|].
    rewrite length_replicate. lia.
Qed.

Lemma parseID_whole_digest_witness :
  length PluginStoreExamples.LongDigest = 70 /\
  PluginObjectStore.parseID PluginStoreExamples.digest_parse false
    PluginMoreExamples.Ctx "abab"
  = Returned (Ok PluginStoreExamples.LongDigest).
Proof.
  split; [reflexivity|].
  apply (parseID_whole_digest PluginStoreExamples.digest_parse false
           PluginMoreExamples.Ctx "abab" PluginStoreExamples.LongDigest).
  - discriminate.
  - intros Size. eexists _, _. split; [reflexivity|].
    intros HLen. rewrite decide_True by exact HLen. apply firstn_all.
Defined.

Module ActionCacheMapFacts.
Import PluginActionCacheMap.

(** [std::find] over the names that the constructor read. *)
Lemma list_find_names (name : nat -> string) (Name : string) (count i : nat) :
  i < count -> name i = Name -> (forall j, j < i -> name j ≠ Name) ->
  list_find (fun N0 => N0 = Name) (name <$> seq 0 count) = Some (i, Name).
Proof.
  intros HLt HName HFirst. apply list_find_Some.
  split; [|split; [reflexivity|]].
  - rewrite list_lookup_fmap, lookup_seq_lt by exact HLt. simpl.
    by rewrite HName.
  - intros j y HLookup HJ.
    rewrite list_lookup_fmap in HLookup.
    rewrite lookup_seq_lt in HLookup by lia. simpl in HLookup.
    injection HLookup as <-. by apply HFirst.
Qed.

Lemma list_find_no_name (name : nat -> string) (Name : string) (count : nat) :
  (forall j, j < count -> name j ≠ Name) ->
  list_find (fun N0 => N0 = Name) (name <$> seq 0 count) = None.
Proof.
  intros HNone. apply list_find_None, Forall_forall.
  intros y [j [-> HIn]]%list_elem_of_fmap.
  apply elem_of_seq in HIn. apply HNone. lia.
Qed.

End ActionCacheMapFacts.

(** X25.  [getValueAsync] reads the first entry of a name.  On a map as the
    constructor makes it, a name that some entry has gives what the plugin
    answers for the entry of the lowest index with this name, so that an
    entry behind it with the same name is never read; a name that no entry
    has gives the error [<name> not part of action cache map] without asking
    the plugin. *)
Theorem getValueAsync_reads_first_entry
    (entries_count : N -> nat) (entry_name : N -> nat -> string)
    (entry_value_async :
       N -> nat -> PluginActionCacheMap.llcas_lookup_result_t * N * string)
    (c_map : N) (Name : string) :
  (forall i,
     i < entries_count c_map -> entry_name c_map i = Name ->
     (forall j, j < i -> entry_name c_map j ≠ Name) ->
     PluginActionCacheMap.getValueAsync entry_value_async Name
       (PluginActionCacheMap.new entries_count entry_name c_map)
     = PluginActionCacheMap.getValueAndDispose
         (entry_value_async c_map i)) /\
  ((forall j, j < entries_count c_map -> entry_name c_map j ≠ Name) ->
   PluginActionCacheMap.getValueAsync entry_value_async Name
     (PluginActionCacheMap.new entries_count entry_name c_map)
   = Err (StringError invalid_argument
            (Name +:+ " not part of action cache map"))).
Proof.
  unfold PluginActionCacheMap.getValueAsync, PluginActionCacheMap.new.
  simpl. split.
  - intros i HLt HName HFirst.
    by rewrite (ActionCacheMapFacts.list_find_names _ _ _ _ HLt HName HFirst).
  - intros HNone.
    by rewrite (ActionCacheMapFacts.list_find_no_name _ _ _ HNone).
Qed.

Lemma getValueAsync_reads_first_entry_witness :
  PluginActionCacheMap.getAllNames PluginStoreExamples.Map
    = ["obj"; "diag"; "obj"] /\
  PluginActionCacheMap.getValueAsync PluginStoreExamples.entry_value "obj"
    PluginStoreExamples.Map
  = Ok (Some (getFromInternalRef 10)).
Proof.
  split; [reflexivity|].
  destruct (getValueAsync_reads_first_entry (fun _ => 3)
              PluginStoreExamples.entry_name PluginStoreExamples.entry_value
              7%N "obj") as [HFirst _].
  apply (HFirst 0).
  - lia.
  - reflexivity.
  - intros j HJ. lia.
Defined.

Module HexDumpFacts.
Import MCCASPrinter.

Lemma append_empty_r (s : string) : s +:+ EmptyString = s.
Proof.
  induction s as [|c s IH]; [reflexivity|].
  change (String c s +:+ EmptyString) with (String c (s +:+ EmptyString)).
  by rewrite IH.
Qed.

(** One iteration of the loop. *)
Lemma hexDump_loop_step (format_hex : byte -> string) (Fuel Indent : nat)
    (data : list byte) :
  data ≠ [] ->
  hexDump_loop format_hex (Datatypes.S Fuel) Indent data
  = hexLine format_hex Indent (take 8 data) +:+
    hexDump_loop format_hex Fuel Indent (drop 8 data).
Proof.
  destruct data as [|b data]; [done|]. intros _.
  cbn [hexDump_loop]. do 2 f_equal.
  case_decide; [|reflexivity]. by rewrite !drop_ge by lia.
Qed.

(** The lines of eight bytes that a dump has. *)
Lemma hexDump_loop_lines (format_hex : byte -> string) (Indent : nat) :
  forall (Fuel : nat) (data : list byte),
    length data <= Fuel ->
    exists Lines : list (list byte),
      hexDump_loop format_hex Fuel Indent data
      = String.concat EmptyString (hexLine format_hex Indent <$> Lines) /\
      concat Lines = data /\
      Forall (fun L => 0 < length L <= 8) Lines /\
      8 * length Lines < length data + 8 /\
      (forall i L, Lines !! i = Some L -> i + 1 < length Lines ->
                   length L = 8).
Proof.
  induction Fuel as [|Fuel IH]; intros data HFuel.
  - destruct data; [|simpl in HFuel; lia].
    exists []. repeat split; [constructor | simpl; lia |].
    intros i L HL. by rewrite lookup_nil in HL.
  - destruct (decide (data = [])) as [->|HData].
    { exists []. repeat split; [constructor | simpl; lia |].
      intros i L HL. by rewrite lookup_nil in HL. }
    assert (HPos : 0 < length data) by (destruct data; [done|simpl; lia]).
    rewrite hexDump_loop_step by exact HData.
    destruct (IH (drop 8 data))
      as (Lines & HOut & HConcat & HAll & HCount & HFull).
    { rewrite length_drop. lia. }
    exists (take 8 data :: Lines).
    split; [|split; [|split; [|split]]].
    + rewrite HOut, fmap_cons.
      destruct (hexLine format_hex Indent <$> Lines) as [|Line Rest];
        [|reflexivity].
      simpl. by rewrite append_empty_r.
    + simpl. rewrite HConcat. apply take_drop.
    + constructor; [|exact HAll]. rewrite length_take. lia.
    + simpl. rewrite length_drop in HCount. lia.
    + intros [|i] L; simpl.
      * intros [= <-] HMore. rewrite length_take.
        destruct Lines as [|L0 Rest]; [simpl in HMore; lia|].
        apply Forall_cons in HAll as [HL0 _].
        assert (HRestLen : length (drop 8 data)
                           = length (concat (L0 :: Rest)))
          by (by rewrite HConcat).
        rewrite length_drop in HRestLen. simpl in HRestLen.
        rewrite length_app in HRestLen. lia.
      * intros HL HMore. apply (HFull i); [exact HL|lia].
Qed.

End HexDumpFacts.

(** X26.  The lines of the hex dump.  The dump of the data of an object is
    one line for each group of eight bytes: the lines hold the bytes of the
    data in order, each line has between one and eight bytes and every line
    but the last has eight, so there are as many lines as eighths of the
    length, rounded up.  Data without bytes gives no line, where the dump on
    one line gives an empty line. *)
Theorem hexDump_lines (format_hex : byte -> string) (Indent : nat)
    (data : list byte) :
  (exists Lines : list (list byte),
     MCCASPrinter.hexDump format_hex false Indent data
     = String.concat EmptyString
         (MCCASPrinter.hexLine format_hex Indent <$> Lines) /\
     concat Lines = data /\
     Forall (fun L => 0 < length L <= 8) Lines /\
     length Lines = (length data + 7) `div` 8 /\
     (forall i L, Lines !! i = Some L -> i + 1 < length Lines ->
                  length L = 8)) /\
  MCCASPrinter.hexDump format_hex true Indent data
  = MCCASPrinter.hexLine format_hex Indent data /\
  MCCASPrinter.hexDump format_hex false Indent [] = EmptyString /\
  MCCASPrinter.hexDump format_hex true Indent []
  = MCCASPrinter.indent Indent +:+ MCCASPrinter.newline.
Proof.
  split; [|split; [|split]].
  - unfold MCCASPrinter.hexDump.
    destruct (HexDumpFacts.hexDump_loop_lines format_hex Indent
                (length data) data (le_n _))
      as (Lines & HOut & HConcat & HAll & HCount & HFull).
    exists Lines. split; [exact HOut|]. split; [exact HConcat|].
    split; [exact HAll|]. split; [|exact HFull].
    assert (HLower : length data <= 8 * length Lines).
    { rewrite <- HConcat. clear -HAll.
      induction HAll as [|L Ls HL _ IH]; simpl; [lia|].
      rewrite length_app. lia. }
    apply (Nat.div_unique _ 8 _ (length data + 7 - 8 * length Lines)); lia.
  - unfold MCCASPrinter.hexDump. by rewrite firstn_all.
  - reflexivity.
  - reflexivity.
Qed.


(** * The options and the service *)

(** X27.  The service of options that hold no databases.  Options as
    [Options_create] makes them, with the dependency mode set, give in
    [create_v1] the very service that [create_v0] makes for that mode, with
    the assertions compiled or not and whatever the environment holds: no
    file system is made, and the environment variables are not looked at. *)
Theorem create_v1_without_databases_is_create_v0
    {ObjectStoreT ActionCacheT OtherOptionsT FileSystemT : Type}
    (DefaultCASOptions : ScannerService.CASOptions)
    (isUnknownCAS :
       ScannerService.CASOptions (OtherOptionsT := OtherOptionsT) -> bool)
    (createCachingOnDiskFileSystem : ObjectStoreT -> Expected FileSystemT)
    (NDEBUG : bool) (Env : DependencyScannerServiceOptions.Environment)
    (Mode : FileDependencies.CXDependencyMode) :
  ScannerService.create_v1 (ActionCacheT := ActionCacheT) isUnknownCAS
    createCachingOnDiskFileSystem NDEBUG Env
    (ScannerService.setDependencyMode Mode
       (ScannerService.Options_create DefaultCASOptions))
  = Returned (CompileJobCache.Finished
                (ScannerService.create_v0 DefaultCASOptions Mode)).
Proof.
  unfold ScannerService.create_v1, ScannerService.create_v0. simpl.
  unfold mret, Asserted_ret. do 2 f_equal.
  unfold DependencyScannerServiceOptions.getFormat.
  by destruct Mode.
Qed.

(** X28.  The order of [setObjectStore] and [setActionCache].  The two
    setters in either order leave the same store, cache and configured
    format, hence the same format for every environment; the CAS path of the
    options is the path of the one that was set last. *)
Theorem store_and_cache_setters_order
    {ObjectStoreT ActionCacheT OtherOptionsT : Type}
    (Store : ScannerService.WrappedObjectStore (ObjectStoreT := ObjectStoreT))
    (AC : ScannerService.WrappedActionCache (ActionCacheT := ActionCacheT))
    (Opts : ScannerService.Options (OtherOptionsT := OtherOptionsT))
    (Env : DependencyScannerServiceOptions.Environment) :
  ScannerService.Members
    (ScannerService.setActionCache AC
       (ScannerService.setObjectStore Store Opts))
  = ScannerService.Members
      (ScannerService.setObjectStore Store
         (ScannerService.setActionCache AC Opts)) /\
  DependencyScannerServiceOptions.getFormat Env
    (ScannerService.Members
       (ScannerService.setActionCache AC
          (ScannerService.setObjectStore Store Opts)))
  = DependencyScannerServiceOptions.getFormat Env
      (ScannerService.Members
         (ScannerService.setObjectStore Store
            (ScannerService.setActionCache AC Opts))) /\
  ScannerService.CASPath
    (ScannerService.CASOpts
       (ScannerService.setActionCache AC
          (ScannerService.setObjectStore Store Opts)))
  = ScannerService.Cache_CachePath AC /\
  ScannerService.CASPath
    (ScannerService.CASOpts
       (ScannerService.setObjectStore Store
          (ScannerService.setActionCache AC Opts)))
  = ScannerService.Store_CASPath Store.
Proof. by repeat split. Qed.
